(** * Retail superstore pipeline: cleaning, features, KPIs and aggregates

    A shallow embedding of [src/clean_and_describe.py].  The program is a
    sequence of pandas calls over one in-memory table; the embedding keeps
    the table as a header (label and dtype per column) over a list of rows
    and gives each pandas call the program uses a function of its own.

    Numbers: a finite float64 (or int64) value is a rational, the two IEEE
    infinities are the cells [Inf], and the one missing value of pandas (NaN,
    NaT) is the cell [NaN].  A timestamp is its count of nanoseconds since
    the epoch, as datetime64[ns] stores it. *)

From Stdlib Require Import ZArith QArith String Ascii List Bool Lia Sorted Permutation.
From stdpp Require Import base option list gmap strings.

Local Open Scope string_scope.
Local Open Scope Z_scope.

(** ** Text: the part of Python's [str] the program calls *)

Module Text.

(** A text is a Python [str] in UTF-8, one [ascii] per byte.  The white
    space [str.strip] removes is every character [str.isspace] holds of:
    TAB..CR, FS..US and the space, written in one byte; U+0085 and U+00A0,
    written in two; U+1680, U+2000..U+200A, U+2028, U+2029, U+202F, U+205F
    and U+3000, written in three. *)
Definition code (a : ascii) : nat := nat_of_ascii a.

Definition isspace (a : ascii) : bool :=
  let n := nat_of_ascii a in
  ((9 <=? n)%nat && (n <=? 13)%nat) || ((28 <=? n)%nat && (n <=? 32)%nat).

Definition isspace2 (a b : ascii) : bool :=
  Nat.eqb (code a) 194 && (Nat.eqb (code b) 133 || Nat.eqb (code b) 160).

Definition isspace3 (a b c : ascii) : bool :=
  (Nat.eqb (code a) 225 && Nat.eqb (code b) 154 && Nat.eqb (code c) 128)
  || (Nat.eqb (code a) 226 && Nat.eqb (code b) 128
      && (((128 <=? code c)%nat && (code c <=? 138)%nat)
          || Nat.eqb (code c) 168 || Nat.eqb (code c) 169 || Nat.eqb (code c) 175))
  || (Nat.eqb (code a) 226 && Nat.eqb (code b) 129 && Nat.eqb (code c) 159)
  || (Nat.eqb (code a) 227 && Nat.eqb (code b) 128 && Nat.eqb (code c) 128).

(** The rest of a text after its first character, when that character is
    white space. *)
Definition after_space (s : string) : option string :=
  match s with
  | String a r =>
      if isspace a then Some r
      else match r with
           | String b r2 =>
               if isspace2 a b then Some r2
               else match r2 with
                    | String c r3 => if isspace3 a b c then Some r3 else None
                    | EmptyString => None
                    end
           | EmptyString => None
           end
  | EmptyString => None
  end.

Fixpoint lstrip (s : string) : string :=
  match s with
  | String a r =>
      if isspace a then lstrip r
      else match r with
           | String b r2 =>
               if isspace2 a b then lstrip r2
               else match r2 with
                    | String c r3 => if isspace3 a b c then lstrip r3 else s
                    | EmptyString => s
                    end
           | EmptyString => s
           end
  | EmptyString => EmptyString
  end.

(** One white-space character and nothing else. *)
Definition is_space (s : string) : bool :=
  match after_space s with
  | Some EmptyString => true
  | _ => false
  end.

Fixpoint rstrip (s : string) : string :=
  match s with
  | EmptyString => EmptyString
  | String a s' =>
      let t := String a (rstrip s') in
      if is_space t then EmptyString else t
  end.

(** [s.strip()] *)
Definition strip (s : string) : string := rstrip (lstrip s).

Definition lower_ascii (a : ascii) : ascii :=
  let n := nat_of_ascii a in
  if ((65 <=? n)%nat && (n <=? 90)%nat) then ascii_of_nat (n + 32) else a.

(** [s.lower()] *)
Fixpoint lower (s : string) : string :=
  match s with
  | EmptyString => EmptyString
  | String a s' => String (lower_ascii a) (lower s')
  end.

(** [sub in s] *)
Fixpoint contains (sub s : string) : bool :=
  String.prefix sub s ||
  match s with
  | EmptyString => false
  | String _ s' => contains sub s'
  end.

(** [path.suffix] of pathlib for a POSIX path written without a trailing
    slash or dot components: the part of the last path component from its
    last dot on, empty when that dot is the component's first or last
    character or when there is none. *)
Fixpoint name_of (s : string) : string :=
  match s with
  | EmptyString => EmptyString
  | String a s' =>
      if contains "/" s' then name_of s'
      else if Ascii.eqb a "/" then s' else s
  end.

Fixpoint last_dot (s : string) : option string :=
  match s with
  | EmptyString => None
  | String a s' =>
      match last_dot s' with
      | Some t => Some t
      | None => if Ascii.eqb a "." then Some s else None
      end
  end.

Definition suffix (path : string) : string :=
  match name_of path with
  | EmptyString => EmptyString
  | String a rest =>
      match last_dot rest with
      | Some t => if String.eqb t "." then EmptyString else t
      | None => EmptyString
      end
  end.

End Text.

(** ** Tables *)

(** A value held in a table.  [NaN] is the missing value (NaN in a numeric
    or text column, NaT in a datetime column); [Inf false] and [Inf true]
    are the floats inf and -inf. *)
Inductive cell : Type :=
  | NaN
  | Num (x : Q)
  | Str (s : string)
  | Ts (ns : Z)
  | Inf (negative : bool).

(** The dtype of a column: [object] (text as read_csv and read_excel give
    it), the numeric dtypes int64 and float64 taken together, and
    datetime64[ns]. *)
Inductive dtype : Type := object | number | datetime64.

Definition dtype_eqb (a b : dtype) : bool :=
  match a, b with
  | object, object | number, number | datetime64, datetime64 => true
  | _, _ => false
  end.

Abbreviation row := (list cell) (only parsing).

(** A DataFrame: its columns in order, each with label and dtype, and its
    rows, each with one cell per column. *)
Record DataFrame : Type := mkDF {
  header : list (string * dtype);
  rows : list row
}.

(** [df.columns] *)
Definition columns (df : DataFrame) : list string := map fst (header df).

(** [len(df)] *)
Definition nrows (df : DataFrame) : nat := length (rows df).

Definition mem (c : string) (l : list string) : bool := existsb (String.eqb c) l.

(** [c in df.columns] *)
Definition has_column (c : string) (df : DataFrame) : bool := mem c (columns df).

(** [{...}.issubset(df.columns)] *)
Definition issubset (cs : list string) (df : DataFrame) : bool :=
  forallb (fun c => has_column c df) cs.

(** Position of the column labelled [c]. *)
Fixpoint index_of (c : string) (l : list string) : option nat :=
  match l with
  | [] => None
  | x :: l' => if String.eqb c x then Some O else option_map S (index_of c l')
  end.

(** [df[c]] seen from one row: the row's cell in column [c]. *)
Definition get (df : DataFrame) (c : string) (r : row) : cell :=
  match index_of c (columns df) with
  | Some i => nth i r NaN
  | None => NaN
  end.

(** [pd.isna] on one value. *)
Definition isna (c : cell) : bool :=
  match c with NaN => true | _ => false end.

(** Equality of two values as [duplicated] and [groupby] see it: missing
    values are equal to each other, numbers are compared by value. *)
Definition cell_eqb (a b : cell) : bool :=
  match a, b with
  | NaN, NaN => true
  | Num x, Num y => Qeq_bool x y
  | Str s, Str t => String.eqb s t
  | Ts m, Ts n => Z.eqb m n
  | Inf m, Inf n => Bool.eqb m n
  | _, _ => false
  end.

Fixpoint row_eqb (r1 r2 : row) : bool :=
  match r1, r2 with
  | [], [] => true
  | a :: r1', b :: r2' => cell_eqb a b && row_eqb r1' r2'
  | _, _ => false
  end.

(** [df[c] = f(df[c])] for every column the test [sel] picks, which takes
    dtype [d] from then on; the other columns are left as they are. *)
Fixpoint update_row (mask : list bool) (f : cell -> cell) (r : row) : row :=
  match mask, r with
  | b :: mask', c :: r' => (if b then f c else c) :: update_row mask' f r'
  | _, _ => r
  end.

Definition update_columns (sel : string -> dtype -> bool) (f : cell -> cell)
    (d : dtype) (df : DataFrame) : DataFrame :=
  {| header := map (fun h => if sel (fst h) (snd h) then (fst h, d) else h) (header df);
     rows := map (update_row (map (fun h => sel (fst h) (snd h)) (header df)) f) (rows df) |}.

(** A transformation of a table column by column: what becomes of a column's
    label and dtype, and of each of its values. *)
Definition column_step : Type := string * dtype -> (string * dtype) * (cell -> cell).

Fixpoint apply_row (fs : list (cell -> cell)) (r : row) : row :=
  match fs, r with
  | f :: fs', c :: r' => f c :: apply_row fs' r'
  | _, _ => r
  end.

Definition apply_columns (g : column_step) (df : DataFrame) : DataFrame :=
  {| header := map (fun h => fst (g h)) (header df);
     rows := map (apply_row (map (fun h => snd (g h)) (header df))) (rows df) |}.

(** One step after another. *)
Definition then_step (g1 g2 : column_step) : column_step :=
  fun h => (fst (g2 (fst (g1 h))), fun c => snd (g2 (fst (g1 h))) (snd (g1 h) c)).

(** The step of [update_columns]. *)
Definition update_step (sel : string -> dtype -> bool) (f : cell -> cell) (d : dtype)
    : column_step :=
  fun h => if sel (fst h) (snd h) then ((fst h, d), f) else (h, fun c => c).

(** [df[c] = values], one value computed from each row: the column is
    replaced where it stands when the label exists and appended otherwise. *)
Fixpoint replace_nth {A} (i : nat) (x : A) (l : list A) : list A :=
  match l, i with
  | [], _ => []
  | _ :: l', O => x :: l'
  | y :: l', S i' => y :: replace_nth i' x l'
  end.

Definition setitem (c : string) (d : dtype) (f : row -> cell) (df : DataFrame)
    : DataFrame :=
  match index_of c (columns df) with
  | Some i =>
      {| header := replace_nth i (c, d) (header df);
         rows := map (fun r => replace_nth i (f r) r) (rows df) |}
  | None =>
      {| header := (header df ++ [(c, d)])%list;
         rows := map (fun r => (r ++ [f r])%list) (rows df) |}
  end.

(** The row [setitem] makes of a row. *)
Definition setitem_row (c : string) (f : row -> cell) (df : DataFrame) (r : row) : row :=
  match index_of c (columns df) with
  | Some i => replace_nth i (f r) r
  | None => (r ++ [f r])%list
  end.

(** An assignment made only when its condition [b] holds. *)
Definition assign_if (b : bool) (c : string) (d : dtype) (f : row -> cell)
    (df : DataFrame) : DataFrame :=
  if b then setitem c d f df else df.

Definition assign_if_row (b : bool) (c : string) (f : row -> cell) (df : DataFrame)
    (r : row) : row :=
  if b then setitem_row c f df r else r.

(** [df.drop_duplicates()]: a row is dropped when an equal row stands
    before it; the first of equal rows stays, in its place. *)
Fixpoint drop_dups (seen : list row) (l : list row) : list row :=
  match l with
  | [] => []
  | r :: l' =>
      if existsb (row_eqb r) seen then drop_dups seen l'
      else r :: drop_dups (r :: seen) l'
  end.

(** No row of [l] equals a row before it or a row of [seen]. *)
Fixpoint fresh (seen : list row) (l : list row) : Prop :=
  match l with
  | [] => True
  | r :: l' => existsb (row_eqb r) seen = false /\ fresh (r :: seen) l'
  end.

Definition drop_duplicates (df : DataFrame) : DataFrame :=
  {| header := header df; rows := drop_dups [] (rows df) |}.

(** [df.dropna(subset=cs)]: a row is dropped when it has a missing value in
    one of the columns [cs]. *)
Definition dropna (cs : list string) (df : DataFrame) : DataFrame :=
  {| header := header df;
     rows := List.filter (fun r => forallb (fun c => negb (isna (get df c r))) cs)
               (rows df) |}.

(** ** What pandas parses and prints

    The parsers behind [pd.to_datetime] and [pd.to_numeric] and the text
    pandas gives a number or a timestamp under [astype(str)] are library
    code; the program is modelled over any choice of them.  So is what
    [astype(str)] makes of a missing value, which depends on the version of
    the library: pandas 2 prints it, as the text nan ([str_of_missing] is
    [Some "nan"]); pandas 3 leaves it missing ([None]). *)
Class Pandas : Type := {
  parse_datetime : string -> option Z;
  parse_number : string -> option Q;
  datetime_of_number : Q -> option Z;
  str_of_number : Q -> string;
  str_of_datetime : Z -> string;
  str_of_missing : option string
}.

Section Cleaner.
Context `{Pandas}.

(** [pd.to_datetime(_, errors="coerce")] on one value: what does not parse
    becomes missing. *)
Definition to_datetime (c : cell) : cell :=
  match c with
  | NaN => NaN
  | Ts t => Ts t
  | Str s => match parse_datetime s with Some t => Ts t | None => NaN end
  | Num x => match datetime_of_number x with Some t => Ts t | None => NaN end
  | Inf _ => NaN
  end.

(** [pd.to_numeric(_, errors="coerce")] on one value; a timestamp gives its
    nanosecond count. *)
Definition to_numeric (c : cell) : cell :=
  match c with
  | NaN => NaN
  | Num x => Num x
  | Str s => match parse_number s with Some x => Num x | None => NaN end
  | Ts t => Num (inject_Z t)
  | Inf n => Inf n
  end.

(** [astype(str)] on one value. *)
Definition astype_str (c : cell) : cell :=
  match c with
  | NaN => match str_of_missing with Some s => Str s | None => NaN end
  | Str s => Str s
  | Num x => Str (str_of_number x)
  | Ts t => Str (str_of_datetime t)
  | Inf n => Str (if n then "-inf" else "inf")
  end.

(** [s.str.strip()] on one value: what is no text is missing. *)
Definition str_strip (c : cell) : cell :=
  match c with
  | Str s => Str (Text.strip s)
  | _ => NaN
  end.

(** [df[c].astype(str).str.strip()] on one value. *)
Definition normalize_text (c : cell) : cell := str_strip (astype_str c).

(** [df.columns = [str(c).strip() for c in df.columns]] *)
Definition strip_columns (df : DataFrame) : DataFrame :=
  {| header := map (fun h => (Text.strip (fst h), snd h)) (header df);
     rows := rows df |}.

Definition is_date_label (c : string) : bool := Text.contains "date" (Text.lower c).

(** The loop over [df.columns] that parses every column with date in its
    label. *)
Definition coerce_dates (df : DataFrame) : DataFrame :=
  update_columns (fun c _ => is_date_label c) to_datetime datetime64 df.

Definition numeric_labels : list string :=
  ["Sales"; "Profit"; "Discount"; "Quantity"; "Postal Code"].

(** The loop over the five numeric labels. *)
Definition coerce_numerics (df : DataFrame) : DataFrame :=
  fold_left
    (fun df c =>
       if has_column c df
       then update_columns (fun c' _ => String.eqb c' c) to_numeric number df
       else df)
    numeric_labels df.

(** The loop over [df.select_dtypes(include="object").columns]. *)
Definition normalize_strings (df : DataFrame) : DataFrame :=
  update_columns (fun _ d => dtype_eqb d object) normalize_text object df.

Definition essential_labels : list string := ["Order Date"; "Sales"; "Profit"].

(** The last step of the cleaner: rows missing an essential field go. *)
Definition drop_missing_essential (df : DataFrame) : DataFrame :=
  let essential := List.filter (fun c => has_column c df) essential_labels in
  match essential with
  | [] => df
  | _ => dropna essential df
  end.

(** One turn of the loop over the numeric labels, for a label the table
    has. *)
Definition coerce_numeric_column (c : string) (df : DataFrame) : DataFrame :=
  update_columns (fun c' _ => String.eqb c' c) to_numeric number df.

(** What the coercions of the cleaner come to for one column: a label with
    date in it makes a datetime column, one of the five numeric labels a
    numeric column, and any other column of dtype object is normalized as
    text. *)
Definition clean_header (h : string * dtype) : string * dtype :=
  let c := Text.strip (fst h) in
  if is_date_label c then (c, datetime64)
  else if mem c numeric_labels then (c, number)
  else (c, snd h).

Definition clean_cell (h : string * dtype) : cell -> cell :=
  let c := Text.strip (fst h) in
  if is_date_label c then to_datetime
  else if mem c numeric_labels then to_numeric
  else if dtype_eqb (snd h) object then normalize_text
  else fun x => x.

Definition clean_step : column_step := fun h => (clean_header h, clean_cell h).

(** The same for a column once the labels are stripped, the dates parsed
    and the numeric labels [done] seen by the loop over them. *)
Definition coerced_so_far (done : list string) : column_step :=
  fun h =>
    let c := Text.strip (fst h) in
    if is_date_label c then ((c, datetime64), to_datetime)
    else if mem c done then ((c, number), to_numeric)
    else ((c, snd h), fun x => x).

(** The table after the coercions, before any row is dropped. *)
Definition coerce (df : DataFrame) : DataFrame :=
  normalize_strings (coerce_numerics (coerce_dates (strip_columns df))).

(** The table the last step of the cleaner receives. *)
Definition before_filter (df : DataFrame) : DataFrame :=
  drop_duplicates (normalize_strings (coerce_numerics (coerce_dates (strip_columns df)))).

Definition basic_clean (df : DataFrame) : DataFrame :=
  let df := strip_columns df in
  let df := coerce_dates df in
  let df := coerce_numerics df in
  let df := normalize_strings df in
  let df := drop_duplicates df in
  drop_missing_essential df.

End Cleaner.

(** ** Calendar: the datetime accessors the program uses *)

Module Calendar.

Definition ns_per_day : Z := 86400000000000.

(** Whole days since the epoch, rounded down. *)
Definition days_of (ts : Z) : Z := ts / ns_per_day.

(** Year, month and day of a day count (proleptic Gregorian calendar). *)
Definition civil_from_days (z : Z) : Z * Z * Z :=
  let z := z + 719468 in
  let era := z / 146097 in
  let doe := z - era * 146097 in
  let yoe := (doe - doe / 1460 + doe / 36524 - doe / 146096) / 365 in
  let doy := doe - (365 * yoe + yoe / 4 - yoe / 100) in
  let mp := (5 * doy + 2) / 153 in
  let d := doy - (153 * mp + 2) / 5 + 1 in
  let m := if mp <? 10 then mp + 3 else mp - 9 in
  let y := yoe + era * 400 + (if m <=? 2 then 1 else 0) in
  (y, m, d).

Definition days_from_civil (y m d : Z) : Z :=
  let y := if m <=? 2 then y - 1 else y in
  let era := y / 400 in
  let yoe := y - era * 400 in
  let mp := if 2 <? m then m - 3 else m + 9 in
  let doy := (153 * mp + 2) / 5 + d - 1 in
  let doe := yoe * 365 + yoe / 4 - yoe / 100 + doy in
  era * 146097 + doe - 719468.

(** [ts.year] *)
Definition year (ts : Z) : Z := fst (fst (civil_from_days (days_of ts))).

(** [ts.to_period("M").to_timestamp()]: midnight of the first of the month. *)
Definition month_start (ts : Z) : Z :=
  let '(y, m, _) := civil_from_days (days_of ts) in
  days_from_civil y m 1 * ns_per_day.

(** [td.days] of a difference of two timestamps, rounded down. *)
Definition timedelta_days (td : Z) : Z := td / ns_per_day.

Definition digit (n : Z) : ascii := ascii_of_N (48 + Z.to_N (n mod 10)).

Definition digits2 (n : Z) : string :=
  String (digit (n / 10)) (String (digit n) EmptyString).

Definition digits4 (n : Z) : string :=
  String (digit (n / 1000)) (String (digit (n / 100)) (digits2 n)).

(** [ts.strftime("%Y-%m-%d")]; the year of a pandas timestamp lies between
    1677 and 2262 and so has four digits. *)
Definition strftime_ymd (ts : Z) : string :=
  let '(y, m, d) := civil_from_days (days_of ts) in
  digits4 y ++ "-" ++ digits2 m ++ "-" ++ digits2 d.

Definition is_digit (a : ascii) : bool :=
  let n := nat_of_ascii a in (48 <=? n)%nat && (n <=? 57)%nat.

(** The shape YYYY-MM-DD. *)
Definition is_iso_date (s : string) : bool :=
  match list_ascii_of_string s with
  | [y1; y2; y3; y4; h1; m1; m2; h2; d1; d2] =>
      forallb is_digit [y1; y2; y3; y4; m1; m2; d1; d2]
      && Ascii.eqb h1 "-" && Ascii.eqb h2 "-"
  | _ => false
  end.

End Calendar.

(** ** Feature deriver *)

(** [s != 0] at one position: a missing value differs from zero. *)
Definition ne_zero (c : cell) : bool :=
  match c with
  | Num x => negb (Qeq_bool x 0)
  | _ => true
  end.

Definition negative (x : Q) : bool := negb (Qle_bool 0 x).

(** [a / b] at one position, as numpy divides two floats: a number other
    than zero divided by zero is an infinity with the sign of the number,
    zero by zero is NaN, and a missing value makes the quotient missing.  A
    zero is read as +0.0. *)
Definition truediv (a b : cell) : cell :=
  match a, b with
  | Num x, Num y =>
      if Qeq_bool y 0
      then (if Qeq_bool x 0 then NaN else Inf (negative x))
      else Num (x / y)
  | Num _, Inf _ => Num 0
  | Inf n, Num y => Inf (xorb n (negative y))
  | _, _ => NaN
  end.

(** [np.where(sales != 0, profit / sales, np.nan)] at one position: the
    quotient is taken at every position, and kept where sales differ from
    zero. *)
Definition np_where (cond : bool) (x y : cell) : cell := if cond then x else y.

Definition profit_margin (sales profit : cell) : cell :=
  np_where (ne_zero sales) (truediv profit sales) NaN.

(** A value that is no infinity. *)
Definition finite (c : cell) : bool :=
  match c with Inf _ => false | _ => true end.

(** The margin [m] is the one of sales [s] and profit [p]: missing for sales
    of zero, the quotient for other sales, and missing when either is. *)
Definition margin_ok (s p m : cell) : Prop :=
  (forall x, s = Num x -> (x == 0)%Q -> m = NaN)
  /\ (forall x y, s = Num x -> ~ (x == 0)%Q -> p = Num y -> m = Num (y / x))
  /\ (s = NaN \/ p = NaN -> m = NaN).

(** [s.dt.year] *)
Definition dt_year (c : cell) : cell :=
  match c with Ts t => Num (inject_Z (Calendar.year t)) | _ => NaN end.

(** [s.dt.to_period("M").dt.to_timestamp()] *)
Definition dt_month_start (c : cell) : cell :=
  match c with Ts t => Ts (Calendar.month_start t) | _ => NaN end.

(** [(a - b).dt.days] *)
Definition sub_days (a b : cell) : cell :=
  match a, b with
  | Ts x, Ts y => Num (inject_Z (Calendar.timedelta_days (x - y)))
  | _, _ => NaN
  end.

Definition feature_engineering (df : DataFrame) : DataFrame :=
  let df :=
    if has_column "Order Date" df then
      let df := setitem "OrderYear" number
                  (fun r => dt_year (get df "Order Date" r)) df in
      setitem "OrderMonth" datetime64
        (fun r => dt_month_start (get df "Order Date" r)) df
    else df in
  let df :=
    if issubset ["Order Date"; "Ship Date"] df then
      setitem "ShipDelayDays" number
        (fun r => sub_days (get df "Ship Date" r) (get df "Order Date" r)) df
    else df in
  let df :=
    if issubset ["Sales"; "Profit"] df then
      setitem "ProfitMargin" number
        (fun r => profit_margin (get df "Sales" r) (get df "Profit" r)) df
    else df in
  df.

(** The labels the feature deriver assigns. *)
Definition derived_labels : list string :=
  ["OrderYear"; "OrderMonth"; "ShipDelayDays"; "ProfitMargin"].

(** Table [t'] is table [t] with each row [r] turned into [g r], and with
    the columns not labelled in [l] read as before. *)
Definition keeps (l : list string) (t t' : DataFrame) (g : row -> row) : Prop :=
  (forall r, In r (rows t') -> length r = length (header t'))
  /\ rows t' = map g (rows t)
  /\ (forall r c, In r (rows t) -> ~ In c l -> get t' c (g r) = get t c r).

(** ** KPI computer *)

(** A value of the KPI dict: a float, or the dict of the two date texts. *)
Inductive kpi : Type :=
  | KFloat (x : Q)
  | KDateRange (dmin dmax : string).

(** [df[c].sum()]: missing values are skipped. *)
Definition sum_cells (l : list cell) : Q :=
  fold_left (fun acc c => match c with Num x => (acc + x)%Q | _ => acc end) l 0%Q.

Definition column_values (df : DataFrame) (c : string) : list cell :=
  map (get df c) (rows df).

Definition sum_column (df : DataFrame) (c : string) : Q :=
  sum_cells (column_values df c).

(** [df[c].notna().any()] *)
Definition notna_any (l : list cell) : bool := existsb (fun c => negb (isna c)) l.

Fixpoint timestamps (l : list cell) : list Z :=
  match l with
  | [] => []
  | Ts t :: l' => t :: timestamps l'
  | _ :: l' => timestamps l'
  end.

(** [df[c].min()] and [df[c].max()] of a datetime column: missing values are
    skipped. *)
Definition ts_min (l : list cell) : option Z :=
  match timestamps l with
  | [] => None
  | t :: ts => Some (fold_left Z.min ts t)
  end.

Definition ts_max (l : list cell) : option Z :=
  match timestamps l with
  | [] => None
  | t :: ts => Some (fold_left Z.max ts t)
  end.

Definition compute_kpis (df : DataFrame) : gmap string kpi :=
  let kpis : gmap string kpi := ∅ in
  let kpis :=
    if has_column "Sales" df
    then <["total_sales" := KFloat (sum_column df "Sales")]> kpis else kpis in
  let kpis :=
    if has_column "Profit" df
    then <["total_profit" := KFloat (sum_column df "Profit")]> kpis else kpis in
  let kpis :=
    if issubset ["Sales"; "Profit"] df && negb (Qeq_bool (sum_column df "Sales") 0)
    then <["overall_profit_margin" :=
             KFloat (sum_column df "Profit" / sum_column df "Sales")]> kpis
    else kpis in
  let kpis :=
    if has_column "Order Date" df && notna_any (column_values df "Order Date")
    then
      match ts_min (column_values df "Order Date"),
            ts_max (column_values df "Order Date") with
      | Some lo, Some hi =>
          <["date_range" := KDateRange (Calendar.strftime_ymd lo)
                                       (Calendar.strftime_ymd hi)]> kpis
      | _, _ => kpis
      end
    else kpis in
  kpis.

(** ** Aggregator *)

(** The order of two group keys: texts by code point, numbers and
    timestamps by value, -inf below and inf above every number; a column
    holds keys of one kind. *)
Definition cell_leb (a b : cell) : bool :=
  match a, b with
  | Num x, Num y => Qle_bool x y
  | Str s, Str t => String.leb s t
  | Ts m, Ts n => m <=? n
  | Inf m, Inf n => implb n m
  | Inf m, Num _ => m
  | Num _, Inf n => negb n
  | NaN, _ => true
  | _, NaN => false
  | (Num _ | Inf _), _ => true
  | _, (Num _ | Inf _) => false
  | Str _, _ => true
  | _, Str _ => false
  end.

(** A sort that keeps equal elements in their order; [le x y] says [x] may
    stand before [y]. *)
Fixpoint insert_sorted {A} (le : A -> A -> bool) (x : A) (l : list A) : list A :=
  match l with
  | [] => [x]
  | y :: l' => if le x y then x :: l else y :: insert_sorted le x l'
  end.

Definition sort_by {A} (le : A -> A -> bool) (l : list A) : list A :=
  fold_right (insert_sorted le) [] l.

(** The distinct values of a list of keys, in the order they first occur. *)
Fixpoint uniques (seen : list cell) (l : list cell) : list cell :=
  match l with
  | [] => []
  | k :: l' =>
      if existsb (cell_eqb k) seen then uniques seen l'
      else k :: uniques (k :: seen) l'
  end.

(** How many elements of [l] equal [x]. *)
Definition count_eqb (x : cell) (l : list cell) : nat :=
  length (List.filter (cell_eqb x) l).

(** The number a cell stands for in a sum. *)
Definition number_of (c : cell) : Q :=
  match c with Num x => x | _ => 0%Q end.

(** The keys of [df.groupby(c)]: the values of column [c] that are not
    missing, each once, in ascending order. *)
Definition group_keys (df : DataFrame) (c : string) : list cell :=
  sort_by cell_leb
    (uniques [] (List.filter (fun k => negb (isna k)) (column_values df c))).

(** The rows of the group of key [k]. *)
Definition group_rows (df : DataFrame) (c : string) (k : cell) : list row :=
  List.filter (fun r => cell_eqb (get df c r) k) (rows df).

(** The sum of the values [value r] over the rows of [rs] whose key
    [key_of r] equals [k]: what a group of [groupby] sums to. *)
Definition group_sum (key_of value : row -> cell) (rs : list row) (k : cell) : Q :=
  sum_cells (map value (List.filter (fun r => cell_eqb (key_of r) k) rs)).

(** One row of a group table: the group's key (the index of the table), the
    two sums and the recomputed margin. *)
Record group_row : Type := mkGroup {
  key : cell;
  Sales : cell;
  Profit : cell;
  ProfitMargin : cell
}.

(** [df.groupby(c)[["Sales", "Profit"]].sum()] followed by
    [.assign(ProfitMargin=...)]. *)
Definition sum_group (df : DataFrame) (c : string) (k : cell) : cell * cell :=
  let g := group_rows df c k in
  (Num (sum_cells (map (get df "Sales") g)), Num (sum_cells (map (get df "Profit") g))).

Definition assign_margin (k : cell) (sums : cell * cell) : group_row :=
  {| key := k; Sales := fst sums; Profit := snd sums;
     ProfitMargin := profit_margin (fst sums) (snd sums) |}.

(** [sort_values("Sales", ascending=False)]; the order of rows of equal
    Sales is not fixed by pandas, here they keep their order. *)
Definition sales_geb (a b : group_row) : bool := cell_leb (Sales b) (Sales a).

Definition sort_values_sales_desc (t : list group_row) : list group_row :=
  sort_by sales_geb t.

(** The local function [aggr] of [aggregates], on one grouping column. *)
Definition aggr (df : DataFrame) (c : string) : list group_row :=
  sort_values_sales_desc
    (map (fun k => assign_margin k (sum_group df c k)) (group_keys df c)).

(** What a row of a group table is made of: two sums and the margin computed from
    them, null for a sum of Sales of zero. *)
Definition summed (g : group_row) : Prop :=
  exists x y, Sales g = Num x /\ Profit g = Num y
              /\ ProfitMargin g = if Qeq_bool x 0 then NaN else Num (y / x).

(** [t.head(n)] *)
Definition head {A} (n : nat) (t : list A) : list A := firstn n t.

Definition dtype_of (df : DataFrame) (c : string) : dtype :=
  match index_of c (columns df) with
  | Some i => snd (nth i (header df) (c, object))
  | None => object
  end.

(** [t.reset_index()] of a group table: the key becomes the first column. *)
Definition reset_index (df : DataFrame) (c : string) (t : list group_row)
    : DataFrame :=
  {| header := [(c, dtype_of df c); ("Sales", number); ("Profit", number);
                ("ProfitMargin", number)];
     rows := map (fun g => [key g; Sales g; Profit g; ProfitMargin g]) t |}.

(** The order of two rows of the monthly series: by their month. *)
Definition month_key_leb (r1 r2 : row) : bool := cell_leb (nth 0 r1 NaN) (nth 0 r2 NaN).

(** The monthly series: [df.groupby("OrderMonth")["Sales"].sum()
    .reset_index().sort_values("OrderMonth")]. *)
Definition monthly_sales_table (df : DataFrame) : DataFrame :=
  {| header := [("OrderMonth", dtype_of df "OrderMonth"); ("Sales", number)];
     rows := sort_by (fun r1 r2 => cell_leb (nth 0 r1 NaN) (nth 0 r2 NaN))
               (map (fun k => [k; Num (sum_cells
                                  (map (get df "Sales") (group_rows df "OrderMonth" k)))])
                    (group_keys df "OrderMonth")) |}.

(** The top products table, built by the same steps as [aggr] and cut to
    its first ten rows. *)
Definition top_products_table (df : DataFrame) : DataFrame :=
  reset_index df "Product Name"
    (head 10
       (sort_values_sales_desc
          (map (fun k => assign_margin k (sum_group df "Product Name" k))
               (group_keys df "Product Name")))).

Definition group_dimensions : list (string * string) :=
  [("by_category", "Category"); ("by_subcategory", "Sub-Category");
   ("by_region", "Region"); ("by_state", "State")].

Definition aggregates (df : DataFrame)
    : gmap string (list group_row) * option DataFrame * option DataFrame :=
  let group_tables : gmap string (list group_row) :=
    fold_left
      (fun gt d =>
         if issubset [snd d; "Sales"; "Profit"] df
         then <[fst d := aggr df (snd d)]> gt else gt)
      group_dimensions ∅ in
  let monthly_sales :=
    if issubset ["OrderMonth"; "Sales"] df
    then Some (monthly_sales_table df) else None in
  let top_products :=
    if issubset ["Product Name"; "Sales"; "Profit"] df
    then Some (top_products_table df) else None in
  (group_tables, monthly_sales, top_products).

(** ** Artifact writer: the data dictionary *)

Record dict_entry : Type := mkEntry {
  dd_column : string;
  dd_dtype : dtype;
  n_missing : nat;
  sample_value : option cell
}.

(** [df.isna().sum()] of the column at position [i]. *)
Definition count_missing (df : DataFrame) (i : nat) : nat :=
  length (List.filter (fun r => isna (nth i r NaN)) (rows df)).

(** [df[c].dropna().iloc[0] if df[c].notna().any() else None] *)
Definition first_valid (l : list cell) : option cell :=
  List.find (fun c => negb (isna c)) l.

Definition data_dict (df : DataFrame) : list dict_entry :=
  imap (fun i h =>
          {| dd_column := fst h; dd_dtype := snd h;
             n_missing := count_missing df i;
             sample_value := first_valid (column_values df (fst h)) |})
       (header df).

(** ** Loader *)

(** What [load_data] can raise: its own two errors, and whatever exception
    a pandas reader raises. *)
Inductive exn : Type :=
  | FileNotFoundError (msg : string)
  | ValueError (msg : string)
  | ReaderError (msg : string).

(** The file system and the readers, as the loader sees them. *)
Record World : Type := mkWorld {
  path_exists : string -> bool;
  path_suffix : string -> string;
  read_csv : string -> exn + DataFrame;
  read_excel : string -> option string -> exn + DataFrame
}.

(** The calls the loader makes on the world, in order. *)
Inductive event : Type :=
  | EvExists (path : string)
  | EvReadCsv (path : string)
  | EvReadExcel (path : string) (sheet_name : option string).

(** A computation that reads the world, logs its calls and may raise. *)
Definition IO (A : Type) : Type := World -> list event * (exn + A).

Definition ret {A} (a : A) : IO A := fun _ => ([], inr a).

Definition raise {A} (e : exn) : IO A := fun _ => ([], inl e).

Definition bind {A B} (m : IO A) (k : A -> IO B) : IO B :=
  fun w =>
    match m w with
    | (t, inl e) => (t, inl e)
    | (t, inr a) => let '(t', r) := k a w in ((t ++ t')%list, r)
    end.

(** [try: m except Exception: h] *)
Definition try_except {A} (m : IO A) (h : IO A) : IO A :=
  fun w =>
    match m w with
    | (t, inl _) => let '(t', r) := h w in ((t ++ t')%list, r)
    | (t, inr a) => (t, inr a)
    end.

Definition call_exists (p : string) : IO bool :=
  fun w => ([EvExists p], inr (path_exists w p)).

Definition call_suffix (p : string) : IO string :=
  fun w => ([], inr (path_suffix w p)).

Definition call_read_csv (p : string) : IO DataFrame :=
  fun w => ([EvReadCsv p], read_csv w p).

Definition call_read_excel (p : string) (sheet : option string) : IO DataFrame :=
  fun w => ([EvReadExcel p sheet], read_excel w p sheet).

#[global] Instance IO_ret : MRet IO := @ret.
#[global] Instance IO_bind : MBind IO := fun A B k m => bind m k.

Definition load_data (path : string) : IO DataFrame :=
  found ← call_exists path;
  if negb found then raise (FileNotFoundError ("Input file not found: " ++ path))
  else
    suffix ← call_suffix path;
    if String.eqb (Text.lower suffix) ".csv" then call_read_csv path
    else if mem (Text.lower suffix) [".xlsx"; ".xls"] then
      try_except (call_read_excel path (Some "Orders"))
                 (call_read_excel path None)
    else raise (ValueError ("Unsupported file type: " ++ suffix)).

(** The loader's calls that read a file. *)
Definition is_read (e : event) : bool :=
  match e with
  | EvExists _ => false
  | _ => true
  end.

(** ** Well-formed tables *)

(** Every row has one value per column. *)
Definition rect (df : DataFrame) : Prop :=
  forall r, In r (rows df) -> length r = length (header df).


(** A value fits the dtype of its column: a numeric column holds numbers, a
    datetime column timestamps, each with missing values; an object column
    holds any value.  No column holds an infinity: the amounts of a table
    are finite. *)
Definition fits (c : cell) (d : dtype) : bool :=
  match d, c with
  | object, Inf _ => false
  | object, _ => true
  | number, (NaN | Num _) => true
  | datetime64, (NaN | Ts _) => true
  | _, _ => false
  end.

Fixpoint row_fits (r : row) (h : list (string * dtype)) : bool :=
  match r, h with
  | [], [] => true
  | c :: r', x :: h' => fits c (snd x) && row_fits r' h'
  | _, _ => false
  end.

Fixpoint distinct (l : list string) : bool :=
  match l with
  | [] => true
  | x :: l' => negb (mem x l') && distinct l'
  end.

(** A table the program can be run on: every row has one value per column,
    of the column's dtype, and no two labels are equal once stripped. *)
Definition valid (df : DataFrame) : bool :=
  forallb (fun r => row_fits r (header df)) (rows df)
  && distinct (map Text.strip (columns df)).

(** The dtypes the cleaner leaves: datetime for a label with date in it,
    numeric for the five numeric labels. *)
Definition coerced (df : DataFrame) : bool :=
  forallb (fun h =>
             (negb (is_date_label (fst h)) || dtype_eqb (snd h) datetime64)
             && (negb (mem (fst h) numeric_labels) || dtype_eqb (snd h) number))
          (header df).

(** A table as the cleaner leaves it. *)
Definition cleaned (df : DataFrame) : bool := valid df && coerced df.

(** No label has white space at either end. *)
Definition stripped (df : DataFrame) : bool :=
  forallb (fun c => String.eqb (Text.strip c) c) (columns df).

(** ** The two-row scenario *)

Module Scenario.

(** Midnight of a calendar day, as a timestamp. *)
Definition midnight (y m d : Z) : Z :=
  Calendar.days_from_civil y m d * Calendar.ns_per_day.

(** The table [read_csv] gives for the scenario's file: dates are still
    text, the two amounts are integers. *)
Definition raw : DataFrame :=
  {| header := [("Order Date", object); ("Ship Date", object);
                ("Sales", number); ("Profit", number); ("Category", object)];
     rows := [[Str "2023-01-05"; Str "2023-01-10"; Num 100; Num 20; Str "Tech"];
              [Str "2023-01-20"; Str "2023-01-25"; Num 50; Num (-10); Str "Tech"]] |}.

(** The same table once cleaned: the dates are timestamps. *)
Definition clean : DataFrame :=
  {| header := [("Order Date", datetime64); ("Ship Date", datetime64);
                ("Sales", number); ("Profit", number); ("Category", object)];
     rows := [[Ts (midnight 2023 1 5); Ts (midnight 2023 1 10); Num 100; Num 20;
               Str "Tech"];
              [Ts (midnight 2023 1 20); Ts (midnight 2023 1 25); Num 50; Num (-10);
               Str "Tech"]] |}.

Definition digit_value (a : ascii) : option Z :=
  if Calendar.is_digit a then Some (Z.of_nat (nat_of_ascii a) - 48) else None.

Fixpoint decimal (acc : Z) (s : string) : option Z :=
  match s with
  | EmptyString => Some acc
  | String a s' =>
      match digit_value a with
      | Some v => decimal (10 * acc + v) s'
      | None => None
      end
  end.

Definition parse_nat (s : string) : option Z :=
  match s with
  | EmptyString => None
  | _ => decimal 0 s
  end.

(** A date written YYYY-MM-DD. *)
Definition parse_iso_date (s : string) : option Z :=
  if Calendar.is_iso_date s then
    match parse_nat (substring 0 4 s), parse_nat (substring 5 2 s),
          parse_nat (substring 8 2 s) with
    | Some y, Some m, Some d => Some (midnight y m d)
    | _, _, _ => None
    end
  else None.

(** A cleaned table of twelve products in three categories; one product has
    no sales. *)
Definition product (cat name : string) (sales profit : Q) : row :=
  [Str cat; Str name; Num sales; Num profit].

Definition orders : DataFrame :=
  {| header := [("Category", object); ("Product Name", object);
                ("Sales", number); ("Profit", number)];
     rows := [product "Office" "Pen" 30 3; product "Tech" "Phone" 100 20;
              product "Tech" "Cable" 0 5; product "Office" "Paper" 12 (-2);
              product "Home" "Lamp" 45 9; product "Home" "Chair" 80 16;
              product "Tech" "Phone" 50 (-10); product "Office" "Stapler" 7 1;
              product "Home" "Desk" 150 30; product "Tech" "Mouse" 25 5;
              product "Office" "Binder" 9 2; product "Home" "Rug" 60 6;
              product "Tech" "Screen" 200 35; product "Office" "Ink" 40 12;
              product "Home" "Shelf" 70 7] |}.

(** A raw table with padded labels and texts, a repeated order, an order
    without a readable date, one without a readable amount and one without a
    category. *)
Definition messy : DataFrame :=
  {| header := [(" Order Date ", object); ("Sales", object); ("Category ", object)];
     rows := [[Str "2023-01-05"; Str "100"; Str " Tech"];
              [Str "2023-01-05"; Num 100; Str "Tech "];
              [Str "n/a"; Num 5; Str "Home"];
              [Str "2023-02-01"; Str "x"; Str "Home"];
              [Str "2023-03-01"; Num 7; NaN]] |}.

(** The table of products without any order. *)
Definition no_orders : DataFrame := {| header := header orders; rows := [] |}.

(** A reading of the library for the witnesses below.  It stands for pandas
    on the values that occur there: dates written YYYY-MM-DD and unsigned
    decimal integers; it takes no other text for a date or a number. *)
Definition iso_pandas : Pandas :=
  {| parse_datetime := parse_iso_date;
     parse_number := fun s => option_map inject_Z (parse_nat s);
     datetime_of_number := fun x => if (Zpos (Qden x) =? 1) then Some (Qnum x) else None;
     str_of_number := fun _ => "";
     str_of_datetime := Calendar.strftime_ymd;
     str_of_missing := Some "nan" |}.

(** The same reading with the [astype(str)] of pandas 3, which leaves a
    missing value missing. *)
Definition pandas3 : Pandas :=
  {| parse_datetime := parse_datetime (Pandas := iso_pandas);
     parse_number := parse_number (Pandas := iso_pandas);
     datetime_of_number := datetime_of_number (Pandas := iso_pandas);
     str_of_number := str_of_number (Pandas := iso_pandas);
     str_of_datetime := str_of_datetime (Pandas := iso_pandas);
     str_of_missing := None |}.

(** A file system with the one CSV file of the scenario. *)
Definition world : World :=
  {| path_exists := fun p => String.eqb p "data/orders.csv"
                             || String.eqb p "data/notes.txt"
                             || String.eqb p "data/orders.xlsx";
     path_suffix := Text.suffix;
     read_csv := fun _ => inr raw;
     read_excel := fun _ sheet =>
       match sheet with
       | Some _ => inl (ValueError "Worksheet named 'Orders' not found")
       | None => inr raw
       end |}.

(** A file system whose one Excel file cannot be read at all. *)
Definition broken_world : World :=
  {| path_exists := fun _ => true;
     path_suffix := Text.suffix;
     read_csv := fun _ => inl (ReaderError "unreadable");
     read_excel := fun _ _ => inl (ReaderError "File is not a zip file") |}.

End Scenario.

(** ** Artifact writer: the files *)

(** What is written to a file: a table as CSV, with or without its index, a
    group table as CSV with its index, the data dictionary as CSV, the KPI
    dict as JSON, or a text. *)
Inductive artifact : Type :=
  | CsvTable (t : DataFrame) (index : bool)
  | CsvGroups (t : list group_row)
  | CsvDict (d : list dict_entry)
  | Json (kpis : gmap string kpi)
  | PlainText (s : string).

(** [t.empty]: no row or no column. *)
Definition empty (t : DataFrame) : bool :=
  Nat.eqb (length (rows t)) 0 || Nat.eqb (length (header t)) 0.

Definition readme : string :=
"# Superstore — Cleaning & Descriptive Statistics

This folder contains outputs generated by `src/clean_and_describe.py`.

## Files
- superstore_clean.csv — cleaned dataset
- desc_numeric.csv, desc_categorical.csv — descriptive stats
- group_by_category.csv, group_by_subcategory.csv, group_by_region.csv, group_by_state.csv — aggregates
- monthly_sales.csv — monthly trend (if dates present)
- top10_products.csv — top products by sales
- kpi_summary.json — key KPIs
- data_dictionary.csv — column dictionary
- sales_by_category.png, monthly_sales.png — quick charts
".

(** [monthly_sales is not None and not monthly_sales.empty] *)
Definition present (t : option DataFrame) : bool :=
  match t with
  | Some t => negb (empty t)
  | None => false
  end.

(** The files [save_artifacts] writes into the output directory, in order,
    when no write fails.  The two descriptive tables come from
    [describe_data]; [group_tables] is the dict as its items, in insertion
    order. *)
Definition save_artifacts (df : DataFrame) (kpis : gmap string kpi)
    (desc_numeric desc_categorical : DataFrame)
    (group_tables : list (string * list group_row))
    (monthly_sales top_products : option DataFrame)
    : list (string * artifact) :=
  [("superstore_clean.csv", CsvTable df false);
   ("desc_numeric.csv", CsvTable desc_numeric true);
   ("desc_categorical.csv", CsvTable desc_categorical true);
   ("kpi_summary.json", Json kpis)]
  ++ map (fun item => ("group_" ++ fst item ++ ".csv", CsvGroups (snd item))) group_tables
  ++ match monthly_sales with
     | Some t => if negb (empty t) then [("monthly_sales.csv", CsvTable t false)] else []
     | None => []
     end
  ++ match top_products with
     | Some t => if negb (empty t) then [("top10_products.csv", CsvTable t false)] else []
     | None => []
     end
  ++ [("data_dictionary.csv", CsvDict (data_dict df));
      ("README.md", PlainText readme)].

(** The items of the dict of group tables [aggregates] builds: its keys in
    the order in which they were inserted. *)
Definition items (group_tables : gmap string (list group_row))
    : list (string * list group_row) :=
  flat_map (fun d => match group_tables !! fst d with
                     | Some t => [(fst d, t)]
                     | None => []
                     end)
           group_dimensions.

(** Some row has a value in column [c]. *)
Definition has_value (df : DataFrame) (c : string) : bool :=
  existsb (fun r => negb (isna (get df c r))) (rows df).

(** The call of [save_artifacts] in [main]. *)
Definition main_save_artifacts (df desc_numeric desc_categorical : DataFrame)
    : list (string * artifact) :=
  let '(group_tables, monthly_sales, top_products) := aggregates df in
  save_artifacts df (compute_kpis df) desc_numeric desc_categorical
    (items group_tables) monthly_sales top_products.

(** The names of the files written, from what there is to write. *)
Definition written_files (category subcategory region state monthly top : bool)
    : list string :=
  ["superstore_clean.csv"; "desc_numeric.csv"; "desc_categorical.csv"; "kpi_summary.json"]
  ++ (if category then ["group_by_category.csv"] else [])
  ++ (if subcategory then ["group_by_subcategory.csv"] else [])
  ++ (if region then ["group_by_region.csv"] else [])
  ++ (if state then ["group_by_state.csv"] else [])
  ++ (if monthly then ["monthly_sales.csv"] else [])
  ++ (if top then ["top10_products.csv"] else [])
  ++ ["data_dictionary.csv"; "README.md"].

(** * Properties *)

(** ** Loader *)

Section LoaderFacts.
Variable w : World.
Variable path : string.

Lemma load_data_missing :
  path_exists w path = false ->
  load_data path w =
    ([EvExists path], inl (FileNotFoundError ("Input file not found: " ++ path))).
Proof.
  intros Hex. unfold load_data, mbind, IO_bind, bind, call_exists.
  rewrite Hex. reflexivity.
Qed.

Lemma load_data_found :
  path_exists w path = true ->
  load_data path w =
    let suffix := path_suffix w path in
    if String.eqb (Text.lower suffix) ".csv" then
      ([EvExists path; EvReadCsv path], read_csv w path)
    else if mem (Text.lower suffix) [".xlsx"; ".xls"] then
      match read_excel w path (Some "Orders") with
      | inr df => ([EvExists path; EvReadExcel path (Some "Orders")], inr df)
      | inl _ =>
          ([EvExists path; EvReadExcel path (Some "Orders"); EvReadExcel path None],
           read_excel w path None)
      end
    else ([EvExists path], inl (ValueError ("Unsupported file type: " ++ suffix))).
Proof.
  intros Hex.
  unfold load_data, mbind, IO_bind, bind, call_exists, call_suffix, try_except,
    call_read_csv, call_read_excel, raise.
  rewrite Hex. cbn zeta. cbn [negb].
  destruct (String.eqb (Text.lower (path_suffix w path)) ".csv").
  - destruct (read_csv w path); reflexivity.
  - destruct (mem (Text.lower (path_suffix w path)) [".xlsx"; ".xls"]).
    + destruct (read_excel w path (Some "Orders")); [|reflexivity].
      destruct (read_excel w path None); reflexivity.
    + reflexivity.
Qed.

End LoaderFacts.

(** C4.  A path that does not exist makes the loader raise the file-not-found
    error; an existing path whose suffix, lower-cased, is none of .csv, .xlsx
    and .xls makes it raise the unsupported-format error; and for an existing
    path of suffix .txt that error is raised with no reader called: the only
    call made on the world is the existence test. *)
Theorem load_data_failures (w : World) (path : string) :
  (path_exists w path = false ->
   load_data path w =
     ([EvExists path], inl (FileNotFoundError ("Input file not found: " ++ path))))
  /\ (path_exists w path = true ->
      mem (Text.lower (path_suffix w path)) [".csv"; ".xlsx"; ".xls"] = false ->
      load_data path w =
        ([EvExists path],
         inl (ValueError ("Unsupported file type: " ++ path_suffix w path))))
  /\ (path_exists w path = true ->
      path_suffix w path = ".txt" ->
      snd (load_data path w) = inl (ValueError "Unsupported file type: .txt")
      /\ List.filter is_read (fst (load_data path w)) = []).
Proof.
  split; [apply load_data_missing|].
  assert (Hunsup : path_exists w path = true ->
            mem (Text.lower (path_suffix w path)) [".csv"; ".xlsx"; ".xls"] = false ->
            load_data path w =
              ([EvExists path],
               inl (ValueError ("Unsupported file type: " ++ path_suffix w path)))).
  { intros Hex Hsuf. rewrite load_data_found by exact Hex. cbn zeta.
    unfold mem in *. cbn [existsb] in *.
    apply orb_false_elim in Hsuf as [Hcsv Hsuf]. rewrite Hcsv, Hsuf. reflexivity. }
  split; [exact Hunsup|].
  intros Hex Htxt. rewrite Hunsup; [|exact Hex|rewrite Htxt; reflexivity].
  rewrite Htxt. split; reflexivity.
Qed.

Lemma load_data_failures_witness :
  load_data "data/missing.csv" Scenario.world =
    ([EvExists "data/missing.csv"],
     inl (FileNotFoundError "Input file not found: data/missing.csv"))
  /\ snd (load_data "data/notes.txt" Scenario.world) =
       inl (ValueError "Unsupported file type: .txt")
  /\ List.filter is_read (fst (load_data "data/notes.txt" Scenario.world)) = [].
Proof.
  destruct (load_data_failures Scenario.world "data/missing.csv") as [Hmiss _].
  destruct (load_data_failures Scenario.world "data/notes.txt") as [_ [_ Htxt]].
  split; [apply Hmiss; reflexivity|].
  apply Htxt; reflexivity.
Defined.

(** C9, as stated, fails: when the default sheet cannot be read either, the
    loader raises.  Here both reads of an existing .xlsx file fail. *)
Lemma load_data_excel_fallback_may_raise :
  path_exists Scenario.broken_world "data/orders.xlsx" = true
  /\ Text.lower (path_suffix Scenario.broken_world "data/orders.xlsx") = ".xlsx"
  /\ read_excel Scenario.broken_world "data/orders.xlsx" (Some "Orders")
       = inl (ReaderError "File is not a zip file")
  /\ load_data "data/orders.xlsx" Scenario.broken_world =
       ([EvExists "data/orders.xlsx";
         EvReadExcel "data/orders.xlsx" (Some "Orders");
         EvReadExcel "data/orders.xlsx" None],
        inl (ReaderError "File is not a zip file")).
Proof. repeat split. Qed.

(** C9, amended.  For an existing .xlsx or .xls path the loader first reads
    the sheet named Orders and returns it when that read succeeds; when it
    fails, whatever the failure, that failure is dropped and the loader reads
    the default sheet, and the outcome of this second read is the loader's:
    its table when it succeeds, its failure when it fails. *)
Theorem load_data_excel_fallback (w : World) (path : string) :
  path_exists w path = true ->
  mem (Text.lower (path_suffix w path)) [".xlsx"; ".xls"] = true ->
  (forall df, read_excel w path (Some "Orders") = inr df ->
     load_data path w =
       ([EvExists path; EvReadExcel path (Some "Orders")], inr df))
  /\ (forall e, read_excel w path (Some "Orders") = inl e ->
        load_data path w =
          ([EvExists path; EvReadExcel path (Some "Orders"); EvReadExcel path None],
           read_excel w path None)).
Proof.
  intros Hex Hsuf. rewrite load_data_found by exact Hex. cbn zeta.
  destruct (String.eqb (Text.lower (path_suffix w path)) ".csv") eqn:Hcsv.
  { apply String.eqb_eq in Hcsv. rewrite Hcsv in Hsuf. discriminate Hsuf. }
  rewrite Hsuf. split; intros x Hx; rewrite Hx; reflexivity.
Qed.

Lemma load_data_excel_fallback_witness :
  load_data "data/orders.xlsx" Scenario.world =
    ([EvExists "data/orders.xlsx";
      EvReadExcel "data/orders.xlsx" (Some "Orders");
      EvReadExcel "data/orders.xlsx" None],
     inr Scenario.raw).
Proof.
  destruct (load_data_excel_fallback Scenario.world "data/orders.xlsx") as [_ Hfall];
    [reflexivity|reflexivity|].
  apply (Hfall (ValueError "Worksheet named 'Orders' not found")). reflexivity.
Defined.

(** ** Tables: labels, lookups and the row filters *)

Lemma mem_true_iff (c : string) (l : list string) : mem c l = true <-> In c l.
Proof.
  unfold mem. rewrite existsb_exists. split.
  - intros [x [Hin Heq]]. apply String.eqb_eq in Heq. subst. exact Hin.
  - intros Hin. exists c. split; [exact Hin|apply String.eqb_refl].
Qed.

Lemma mem_false_iff (c : string) (l : list string) : mem c l = false <-> ~ In c l.
Proof.
  rewrite <- mem_true_iff. destruct (mem c l); split; intros; congruence.
Qed.

Lemma filter_all_true {A} (p : A -> bool) (l : list A) :
  (forall x, In x l -> p x = true) -> List.filter p l = l.
Proof.
  induction l as [|a l IH]; intros Hall; cbn; [reflexivity|].
  rewrite (Hall a) by (left; reflexivity).
  f_equal. apply IH. intros x Hx. apply Hall. right. exact Hx.
Qed.

Lemma filter_filter_same {A} (p : A -> bool) (l : list A) :
  List.filter p (List.filter p l) = List.filter p l.
Proof.
  apply filter_all_true. intros x Hx. apply filter_In in Hx. tauto.
Qed.

Lemma update_row_all_false (mask : list bool) (f : cell -> cell) (r : row) :
  (forall b, In b mask -> b = false) -> update_row mask f r = r.
Proof.
  revert r. induction mask as [|b mask IH]; intros r Hall; [destruct r; reflexivity|].
  destruct r as [|c r]; [reflexivity|]. cbn.
  rewrite (Hall b) by (left; reflexivity).
  f_equal. apply IH. intros b' Hb'. apply Hall. right. exact Hb'.
Qed.

Lemma update_row_lookup (mask : list bool) (f : cell -> cell) (r : row) (j : nat) :
  update_row mask f r !! j =
    (if default false (mask !! j) then f else fun c => c) <$> (r !! j).
Proof.
  revert r j. induction mask as [|b mask IH]; intros r j.
  - destruct r; cbn; destruct (_ !! j); reflexivity.
  - destruct r as [|c r]; [reflexivity|].
    destruct j as [|j]; cbn; [destruct b; reflexivity|apply IH].
Qed.

Lemma update_row_length (mask : list bool) (f : cell -> cell) (r : row) :
  length (update_row mask f r) = length r.
Proof.
  revert r. induction mask as [|b mask IH]; intros [|c r]; cbn; auto.
Qed.

Lemma columns_update_columns sel f d df :
  columns (update_columns sel f d df) = columns df.
Proof.
  unfold columns, update_columns. cbn. rewrite map_map.
  apply map_ext. intros [n t]. cbn. destruct (sel n t); reflexivity.
Qed.

(** Selecting by a label the table does not have changes nothing. *)
Lemma update_columns_absent (c : string) f d (df : DataFrame) :
  has_column c df = false ->
  update_columns (fun c' _ => String.eqb c' c) f d df = df.
Proof.
  intros Habs. apply mem_false_iff in Habs.
  assert (Hne : forall h, In h (header df) -> String.eqb (fst h) c = false).
  { intros h Hh. apply String.eqb_neq. intros Heq. apply Habs.
    rewrite <- Heq. unfold columns. apply in_map. exact Hh. }
  destruct df as [hd rs]. unfold update_columns. cbn in *. f_equal.
  - transitivity (map (fun h => h) hd); [|apply map_id].
    apply map_ext_in. intros h Hh. rewrite (Hne h Hh). reflexivity.
  - transitivity (map (fun r => r) rs); [|apply map_id].
    apply map_ext. intros r.
    apply update_row_all_false. intros b Hb. apply in_map_iff in Hb as [h [<- Hh]].
    apply Hne. exact Hh.
Qed.

Section CleanerSteps.
Context `{Pandas}.

Lemma coerce_numerics_unfold (df : DataFrame) :
  coerce_numerics df =
    coerce_numeric_column "Postal Code"
      (coerce_numeric_column "Quantity"
         (coerce_numeric_column "Discount"
            (coerce_numeric_column "Profit"
               (coerce_numeric_column "Sales" df)))).
Proof.
  unfold coerce_numerics, numeric_labels, coerce_numeric_column. cbn [fold_left].
  repeat match goal with
  | |- context [if has_column ?c ?t then _ else _] =>
      destruct (has_column c t) eqn:?;
      [|rewrite (update_columns_absent c to_numeric number t) by assumption]
  end; reflexivity.
Qed.

Lemma columns_coerce_numerics df : columns (coerce_numerics df) = columns df.
Proof.
  rewrite coerce_numerics_unfold. unfold coerce_numeric_column.
  now rewrite !columns_update_columns.
Qed.

Lemma columns_before_filter df :
  columns (before_filter df) = map Text.strip (columns df).
Proof.
  unfold before_filter, drop_duplicates, normalize_strings, coerce_dates.
  change (columns {| header := ?h; rows := _ |}) with (map fst h).
  fold (columns (update_columns (fun _ d => dtype_eqb d object) normalize_text object
     (coerce_numerics (update_columns (fun c _ => is_date_label c) to_datetime datetime64 (strip_columns df))))).
  rewrite columns_update_columns, columns_coerce_numerics, columns_update_columns.
  unfold strip_columns, columns. cbn. rewrite !map_map. reflexivity.
Qed.

(** What the last step keeps of any table: the rows with a value in each
    essential column the table has. *)
Lemma drop_missing_essential_rows (t : DataFrame) :
  header (drop_missing_essential t) = header t
  /\ rows (drop_missing_essential t) =
       List.filter
         (fun r => forallb (fun c => negb (has_column c t) || negb (isna (get t c r)))
                     essential_labels)
         (rows t).
Proof.
  unfold drop_missing_essential, essential_labels. cbn [List.filter forallb].
  destruct (has_column "Order Date" t), (has_column "Sales" t),
    (has_column "Profit" t); cbn [negb orb andb dropna header rows];
    (split; [reflexivity|]);
    try (apply filter_ext; intros r; cbn [forallb negb orb andb];
         rewrite ?andb_true_r; reflexivity).
  symmetry. apply filter_all_true. reflexivity.
Qed.

Lemma drop_missing_essential_none (t : DataFrame) :
  (forall c, In c essential_labels -> has_column c t = false) ->
  drop_missing_essential t = t.
Proof.
  intros Hnone. unfold drop_missing_essential.
  replace (List.filter (fun c => has_column c t) essential_labels) with (@nil string);
    [reflexivity|].
  unfold essential_labels in *. cbn [List.filter].
  rewrite !Hnone by (cbn; tauto). reflexivity.
Qed.

End CleanerSteps.

(** C5.  The cleaner ends with the filter on essential fields.  Of any table
    [t] that step keeps the header and, in order, exactly the rows that have
    a value in every column among Order Date, Sales and Profit that [t] has;
    a table with none of the three labels it returns unchanged.  The table
    the step receives in the cleaner carries the labels of the raw table,
    stripped; so when no stripped label of the raw table is one of the
    three, the cleaner drops no row at this step. *)
Theorem basic_clean_essential_filter `{Pandas} (df t : DataFrame) :
  valid df = true ->
  distinct (columns t) = true ->
  (header (drop_missing_essential t) = header t
   /\ rows (drop_missing_essential t) =
        List.filter
          (fun r => forallb (fun c => negb (has_column c t) || negb (isna (get t c r)))
                      essential_labels)
          (rows t)
   /\ ((forall c, In c essential_labels -> has_column c t = false) ->
       drop_missing_essential t = t))
  /\ basic_clean df = drop_missing_essential (before_filter df)
  /\ columns (before_filter df) = map Text.strip (columns df)
  /\ ((forall c, In c essential_labels -> ~ In c (map Text.strip (columns df))) ->
      basic_clean df = before_filter df).
Proof.
  intros _ _.
  destruct (drop_missing_essential_rows t) as [Hh Hr].
  split; [split; [exact Hh|split; [exact Hr|apply drop_missing_essential_none]]|].
  split; [reflexivity|]. split; [apply columns_before_filter|].
  intros Hnone.
  change (basic_clean df) with (drop_missing_essential (before_filter df)).
  apply drop_missing_essential_none.
  intros c Hc. apply mem_false_iff. unfold has_column.
  rewrite columns_before_filter. apply Hnone. exact Hc.
Qed.

Lemma basic_clean_essential_filter_witness :
  valid Scenario.messy = true
  /\ nrows (@before_filter Scenario.iso_pandas Scenario.messy) = 4%nat
  /\ rows (@basic_clean Scenario.iso_pandas Scenario.messy) =
       [[Ts (Scenario.midnight 2023 1 5); Num 100; Str "Tech"];
        [Ts (Scenario.midnight 2023 3 1); Num 7; Str "nan"]].
Proof.
  split; [reflexivity|]. split; [vm_compute; reflexivity|].
  destruct (@basic_clean_essential_filter Scenario.iso_pandas Scenario.messy
              (@before_filter Scenario.iso_pandas Scenario.messy) eq_refl eq_refl)
    as [[_ [Hrows _]] [Hlast _]].
  rewrite Hlast, Hrows. vm_compute. reflexivity.
Defined.

(** ** Sorting *)

Section Sort.
Context {A : Type}.
Variable le : A -> A -> bool.
Hypothesis le_total : forall x y, le x y = false -> le y x = true.
Hypothesis le_trans : forall x y z, le x y = true -> le y z = true -> le x z = true.

Lemma insert_sorted_perm (x : A) (l : list A) :
  Permutation (x :: l) (insert_sorted le x l).
Proof.
  induction l as [|y l IH]; cbn; [reflexivity|].
  destruct (le x y); [reflexivity|].
  rewrite perm_swap. apply perm_skip. exact IH.
Qed.

Lemma sort_by_perm (l : list A) : Permutation l (sort_by le l).
Proof.
  induction l as [|x l IH]; cbn; [reflexivity|].
  rewrite <- insert_sorted_perm. apply perm_skip. exact IH.
Qed.

Lemma insert_sorted_sorted (x : A) (l : list A) :
  StronglySorted (fun a b => le a b = true) l ->
  StronglySorted (fun a b => le a b = true) (insert_sorted le x l).
Proof.
  induction 1 as [|y l Hs IH Hall]; cbn.
  - constructor; constructor.
  - destruct (le x y) eqn:Hxy.
    + constructor; [constructor; assumption|].
      constructor; [exact Hxy|].
      eapply List.Forall_impl; [|exact Hall].
      intros z Hyz. cbn in *. eapply le_trans; eassumption.
    + constructor; [exact IH|].
      eapply Permutation_Forall; [apply insert_sorted_perm|].
      constructor; [apply le_total; exact Hxy|exact Hall].
Qed.

Lemma sort_by_sorted (l : list A) :
  StronglySorted (fun a b => le a b = true) (sort_by le l).
Proof.
  induction l as [|x l IH]; cbn; [constructor|].
  apply insert_sorted_sorted. exact IH.
Qed.

Lemma In_sort_by (x : A) (l : list A) : In x (sort_by le l) <-> In x l.
Proof.
  split; apply Permutation_in; [symmetry|]; apply sort_by_perm.
Qed.

Lemma length_sort_by (l : list A) : length (sort_by le l) = length l.
Proof. symmetry. apply Permutation_length, sort_by_perm. Qed.

End Sort.

(** In a sorted list every two neighbours are in order, and each of the first
    [n] elements is in order with each of the others. *)
Lemma StronglySorted_neighbours {A} (R : A -> A -> Prop) (l : list A) :
  StronglySorted R l ->
  forall i a b, l !! i = Some a -> l !! S i = Some b -> R a b.
Proof.
  induction 1 as [|x l Hs IH Hall]; intros i a b Ha Hb; [discriminate|].
  destruct i as [|i]; cbn in *.
  - injection Ha as <-. rewrite List.Forall_forall in Hall. apply Hall.
    apply list_elem_of_In. eapply list_elem_of_lookup_2. exact Hb.
  - eapply IH; eassumption.
Qed.


Lemma firstn_In {A} (n : nat) (l : list A) (a : A) : In a (firstn n l) -> In a l.
Proof.
  intros Ha. rewrite <- (firstn_skipn n l). apply in_or_app. left. exact Ha.
Qed.


(** ** Aggregator *)

Lemma cell_leb_total (a b : cell) : cell_leb a b = false -> cell_leb b a = true.
Proof.
  destruct a as [|x|s|m|i], b as [|y|t|n|j]; cbn; try congruence;
    try (destruct i; try destruct j; cbn; congruence);
    try (destruct j; cbn; congruence).
  - intros Hxy. apply Qle_bool_iff. apply Qlt_le_weak, Qnot_le_lt.
    intros Hle. apply Qle_bool_iff in Hle. congruence.
  - intros Hst. destruct (String.leb_total s t) as [Hle|Hle]; congruence.
  - intros Hmn. apply Z.leb_le. apply Z.leb_gt in Hmn. lia.
Qed.

Lemma cell_leb_trans (a b c : cell) :
  cell_leb a b = true -> cell_leb b c = true -> cell_leb a c = true.
Proof.
  destruct a as [|x|s|m|i], b as [|y|t|n|j], c as [|z|u|k|l]; cbn; try congruence;
    try (destruct i; cbn; try congruence);
    try (destruct j; cbn; try congruence);
    try (destruct l; cbn; congruence).
  - rewrite !Qle_bool_iff. apply Qle_trans.
  - intros Hst Htu. apply Is_true_true.
    apply Is_true_true in Hst, Htu.
    exact (@transitivity _ String.le _ s t u Hst Htu).
  - rewrite !Z.leb_le. lia.
Qed.

Lemma sales_geb_total (a b : group_row) : sales_geb a b = false -> sales_geb b a = true.
Proof. apply cell_leb_total. Qed.

Lemma sales_geb_trans (a b c : group_row) :
  sales_geb a b = true -> sales_geb b c = true -> sales_geb a c = true.
Proof. unfold sales_geb. intros Hab Hbc. eapply cell_leb_trans; eassumption. Qed.

Lemma profit_margin_num (x y : Q) :
  profit_margin (Num x) (Num y) = if Qeq_bool x 0 then NaN else Num (y / x).
Proof. unfold profit_margin, ne_zero, truediv. destruct (Qeq_bool x 0); reflexivity. Qed.

Lemma assign_margin_summed df c k : summed (assign_margin k (sum_group df c k)).
Proof.
  unfold summed, assign_margin, sum_group. cbn.
  eexists _, _. split; [reflexivity|]. split; [reflexivity|]. apply profit_margin_num.
Qed.

Lemma aggr_summed df c g : In g (aggr df c) -> summed g.
Proof.
  unfold aggr, sort_values_sales_desc. rewrite In_sort_by.
  intros Hg. apply in_map_iff in Hg as [k [<- _]]. apply assign_margin_summed.
Qed.

Lemma aggr_sorted df c :
  StronglySorted (fun a b => sales_geb a b = true) (aggr df c).
Proof.
  unfold aggr, sort_values_sales_desc.
  apply sort_by_sorted; [apply sales_geb_total|apply sales_geb_trans].
Qed.

Lemma sales_geb_num (a b : group_row) :
  summed a -> summed b -> sales_geb a b = true ->
  exists x y, Sales a = Num x /\ Sales b = Num y /\ (y <= x)%Q.
Proof.
  intros [x [? [Ha _]]] [y [? [Hb _]]] Hge. exists x, y.
  unfold sales_geb in Hge. rewrite Ha, Hb in Hge. cbn in Hge.
  apply Qle_bool_iff in Hge. auto.
Qed.

Lemma group_tables_lookup df name :
  (aggregates df).1.1 !! name =
    match List.find (fun d => String.eqb (fst d) name) group_dimensions with
    | Some d => if issubset [snd d; "Sales"; "Profit"] df
                then Some (aggr df (snd d)) else None
    | None => None
    end.
Proof.
  unfold aggregates, group_dimensions. cbn [fst snd fold_left List.find].
  repeat match goal with
  | |- context [String.eqb ?a name] =>
      destruct (String.eqb_spec a name) as [<-|?]
  end;
  cbn [fst snd String.eqb Ascii.eqb Bool.eqb];
  repeat match goal with
  | |- context [if issubset ?l df then _ else _] => destruct (issubset l df)
  end;
  simplify_map_eq; reflexivity.
Qed.

(** C2.  Every table the aggregator returns for Category, Sub-Category,
    Region and State is the result of [aggr] for that column, and in it every
    row's summed Sales is at least the summed Sales of the row after it. *)
Theorem group_tables_sorted_desc (df : DataFrame) :
  cleaned df = true ->
  (forall name dim, In (name, dim) group_dimensions ->
     issubset [dim; "Sales"; "Profit"] df = true ->
     (aggregates df).1.1 !! name = Some (aggr df dim))
  /\ (forall name t, (aggregates df).1.1 !! name = Some t ->
      forall i a b, t !! i = Some a -> t !! S i = Some b ->
      exists x y, Sales a = Num x /\ Sales b = Num y /\ (y <= x)%Q).
Proof.
  intros _. split.
  - intros name dim Hin Hsub. rewrite group_tables_lookup.
    unfold group_dimensions in Hin. cbn in Hin.
    repeat (destruct Hin as [[= <- <-]|Hin];
            [unfold group_dimensions;
             cbn [List.find fst snd String.eqb Ascii.eqb Bool.eqb];
             rewrite Hsub; reflexivity|]).
    contradiction.
  - intros name t Ht i a b Ha Hb. rewrite group_tables_lookup in Ht.
    destruct (List.find _ _) as [d|]; [|discriminate].
    destruct (issubset _ df); [|discriminate]. injection Ht as <-.
    apply sales_geb_num.
    + eapply aggr_summed, list_elem_of_In, list_elem_of_lookup_2. exact Ha.
    + eapply aggr_summed, list_elem_of_In, list_elem_of_lookup_2. exact Hb.
    + eapply (StronglySorted_neighbours (fun a b => sales_geb a b = true));
        [apply aggr_sorted|exact Ha|exact Hb].
Qed.

Lemma group_tables_sorted_desc_witness :
  cleaned Scenario.orders = true
  /\ (aggregates Scenario.orders).1.1 !! "by_category"
     = Some (aggr Scenario.orders "Category")
  /\ exists x y,
       Sales (mkGroup (Str "Home") (Num 405) (Num 68) (Num (68 # 405))) = Num x
       /\ Sales (mkGroup (Str "Tech") (Num 375) (Num 55) (Num (55 # 375))) = Num y
       /\ (y <= x)%Q.
Proof.
  destruct (group_tables_sorted_desc Scenario.orders eq_refl) as [Hhas Hsorted].
  split; [reflexivity|]. split.
  - apply Hhas; [cbn; tauto|reflexivity].
  - apply (Hsorted "by_category" (aggr Scenario.orders "Category") eq_refl 0%nat);
      reflexivity.
Defined.



(** ** Column assignment *)

Lemma index_of_Some (c : string) (l : list string) (i : nat) :
  index_of c l = Some i -> l !! i = Some c.
Proof.
  revert i. induction l as [|x l IH]; intros i; cbn; [discriminate|].
  destruct (String.eqb_spec c x) as [->|Hne].
  - intros [= <-]. reflexivity.
  - destruct (index_of c l) as [j|]; [|discriminate].
    intros [= <-]. cbn. apply IH. reflexivity.
Qed.

Lemma index_of_None (c : string) (l : list string) :
  index_of c l = None <-> mem c l = false.
Proof.
  induction l as [|x l IH]; cbn; [tauto|].
  destruct (String.eqb c x); cbn; [split; discriminate|].
  destruct (index_of c l); cbn; [|tauto].
  split; [discriminate|]. intros Hm. apply IH in Hm. discriminate.
Qed.

Lemma index_of_app (c : string) (l l' : list string) :
  index_of c (l ++ l') =
    match index_of c l with
    | Some i => Some i
    | None => option_map (fun j => (length l + j)%nat) (index_of c l')
    end.
Proof.
  induction l as [|x l IH]; cbn; [destruct (index_of c l'); reflexivity|].
  destruct (String.eqb c x); [reflexivity|]. rewrite IH.
  destruct (index_of c l); [reflexivity|]. destruct (index_of c l'); reflexivity.
Qed.

Lemma replace_nth_length {A} (i : nat) (x : A) (l : list A) :
  length (replace_nth i x l) = length l.
Proof. revert i. induction l as [|y l IH]; intros [|i]; cbn; auto. Qed.

Lemma nth_replace_nth (i j : nat) (x : cell) (l : row) :
  (i < length l)%nat ->
  nth j (replace_nth i x l) NaN = if Nat.eqb j i then x else nth j l NaN.
Proof.
  revert i j. induction l as [|y l IH]; intros i j Hi; cbn in Hi; [lia|].
  destruct i as [|i], j as [|j]; cbn; try reflexivity.
  apply IH. lia.
Qed.

Lemma map_fst_replace_nth (i : nat) (c : string) (d : dtype) (h : list (string * dtype)) :
  map fst h !! i = Some c -> map fst (replace_nth i (c, d) h) = map fst h.
Proof.
  revert i. induction h as [|[n t] h IH]; intros [|i]; cbn; try discriminate.
  - intros [= ->]. reflexivity.
  - intros Hi. f_equal. apply IH. exact Hi.
Qed.

Lemma index_of_unique (c c' : string) (l : list string) (i : nat) :
  index_of c l = Some i -> index_of c' l = Some i -> c = c'.
Proof.
  intros Hc Hc'. apply index_of_Some in Hc, Hc'. congruence.
Qed.

Lemma rows_setitem c d f df :
  rows (setitem c d f df) = map (setitem_row c f df) (rows df).
Proof.
  unfold setitem, setitem_row. destruct (index_of c (columns df)); reflexivity.
Qed.

Lemma columns_setitem c d f df :
  columns (setitem c d f df) =
    if has_column c df then columns df else (columns df ++ [c])%list.
Proof.
  unfold setitem, has_column.
  destruct (index_of c (columns df)) as [i|] eqn:Hi.
  - assert (Hm : mem c (columns df) = true).
    { destruct (mem c (columns df)) eqn:Hm; [reflexivity|].
      apply index_of_None in Hm. congruence. }
    rewrite Hm. unfold columns. cbn.
    apply map_fst_replace_nth. apply index_of_Some. exact Hi.
  - apply index_of_None in Hi. rewrite Hi. unfold columns. cbn.
    rewrite map_app. reflexivity.
Qed.

Lemma has_column_setitem c d f df c' :
  has_column c' (setitem c d f df) = has_column c' df || String.eqb c' c.
Proof.
  unfold has_column at 1. rewrite columns_setitem.
  destruct (has_column c df) eqn:Hc.
  - fold (has_column c' df). destruct (String.eqb_spec c' c) as [->|_].
    + rewrite Hc. reflexivity.
    + rewrite orb_false_r. reflexivity.
  - unfold mem. rewrite existsb_app. cbn. rewrite orb_false_r. reflexivity.
Qed.

Lemma rect_setitem c d f df : rect df -> rect (setitem c d f df).
Proof.
  intros Hrect r Hr. rewrite rows_setitem in Hr.
  apply in_map_iff in Hr as [r0 [<- Hr0]]. specialize (Hrect r0 Hr0).
  unfold setitem, setitem_row. destruct (index_of c (columns df)); cbn.
  - rewrite !replace_nth_length. exact Hrect.
  - rewrite !length_app. cbn. lia.
Qed.

(** Reading a column after an assignment: the column assigned holds the new
    values, every other column its old ones. *)
Lemma get_setitem c d f df c' r :
  rect df -> In r (rows df) ->
  get (setitem c d f df) c' (setitem_row c f df r) =
    if String.eqb c' c then f r else get df c' r.
Proof.
  intros Hrect Hr. specialize (Hrect r Hr).
  unfold get. rewrite columns_setitem. unfold has_column, setitem_row.
  assert (Hlen : length (columns df) = length (header df))
    by (unfold columns; apply length_map).
  destruct (index_of c (columns df)) as [i|] eqn:Hi.
  - assert (Hm : mem c (columns df) = true).
    { destruct (mem c (columns df)) eqn:Hm; [reflexivity|].
      apply index_of_None in Hm. congruence. }
    rewrite Hm.
    assert (Hlt : (i < length r)%nat).
    { apply index_of_Some, lookup_lt_Some in Hi. lia. }
    destruct (String.eqb_spec c' c) as [->|Hne].
    + rewrite Hi, nth_replace_nth by exact Hlt. rewrite Nat.eqb_refl. reflexivity.
    + destruct (index_of c' (columns df)) as [j|] eqn:Hj; [|reflexivity].
      rewrite nth_replace_nth by exact Hlt.
      destruct (Nat.eqb_spec j i) as [->|_]; [|reflexivity].
      exfalso. apply Hne. eapply index_of_unique; eassumption.
  - pose proof Hi as Hm. apply index_of_None in Hm. rewrite Hm.
    rewrite index_of_app. cbn.
    destruct (index_of c' (columns df)) as [j|] eqn:Hj.
    + assert (Hlt : (j < length r)%nat).
      { apply index_of_Some, lookup_lt_Some in Hj. lia. }
      rewrite app_nth1 by exact Hlt.
      destruct (String.eqb_spec c' c) as [->|_]; [congruence|reflexivity].
    + destruct (String.eqb c' c); cbn; [|reflexivity].
      rewrite Nat.add_0_r, Hlen, <- Hrect, nth_middle. reflexivity.
Qed.

(** ** Feature deriver *)

Lemma profit_margin_ok (s p : cell) : margin_ok s p (profit_margin s p).
Proof.
  unfold margin_ok, profit_margin, ne_zero, truediv. repeat split.
  - intros x -> Hx. apply Qeq_bool_iff in Hx. rewrite Hx. reflexivity.
  - intros x y -> Hx ->.
    destruct (Qeq_bool x 0) eqn:Hz; [apply Qeq_bool_iff in Hz; contradiction|].
    reflexivity.
  - intros [->| ->]; [destruct p; reflexivity|].
    destruct s; try reflexivity. destruct (negb _); reflexivity.
Qed.

Lemma valid_rect (df : DataFrame) : valid df = true -> rect df.
Proof.
  unfold valid. intros Hv. apply andb_prop in Hv as [Hfit _].
  rewrite forallb_forall in Hfit. intros r Hr. specialize (Hfit r Hr).
  clear Hr. revert Hfit. generalize (header df). revert r.
  induction r as [|c r IH]; intros [|h hd]; cbn; try discriminate; [reflexivity|].
  intros Hfit. apply andb_prop in Hfit as [_ Hfit]. f_equal. apply IH. exact Hfit.
Qed.

Lemma cleaned_rect (df : DataFrame) : cleaned df = true -> rect df.
Proof.
  unfold cleaned. intros Hc. apply andb_prop in Hc as [Hv _]. apply valid_rect, Hv.
Qed.

Lemma rect_cond_setitem (b : bool) c d f df :
  rect df -> rect (if b then setitem c d f df else df).
Proof. intros Hrect. destruct b; [apply rect_setitem|]; exact Hrect. Qed.

Lemma has_column_cond_setitem (b : bool) c d f df c' :
  has_column c' df = true ->
  has_column c' (if b then setitem c d f df else df) = true.
Proof.
  intros Hc. destruct b; [|exact Hc]. rewrite has_column_setitem, Hc. reflexivity.
Qed.

(** The table in which the feature deriver sets ProfitMargin. *)
Lemma feature_engineering_margin (df : DataFrame) :
  rect df ->
  issubset ["Sales"; "Profit"] df = true ->
  exists t,
    rect t
    /\ feature_engineering df =
         setitem "ProfitMargin" number
           (fun r => profit_margin (get t "Sales" r) (get t "Profit" r)) t.
Proof.
  intros Hrect Hsub. unfold feature_engineering.
  set (t1 := if has_column "Order Date" df then _ else df).
  set (t2 := if issubset ["Order Date"; "Ship Date"] t1 then _ else t1).
  assert (Hrect1 : rect t1).
  { subst t1. destruct (has_column "Order Date" df); [|exact Hrect].
    apply rect_setitem, rect_setitem, Hrect. }
  assert (Hrect2 : rect t2) by (subst t2; apply rect_cond_setitem, Hrect1).
  assert (Hsub2 : issubset ["Sales"; "Profit"] t2 = true).
  { unfold issubset in *. cbn [forallb] in *.
    apply andb_prop in Hsub as [Hs Hp]. apply andb_prop in Hp as [Hp _].
    assert (H1 : forall c, has_column c df = true -> has_column c t2 = true).
    { intros c Hc. subst t2. apply has_column_cond_setitem.
      subst t1. destruct (has_column "Order Date" df); [|exact Hc].
      rewrite !has_column_setitem, Hc. reflexivity. }
    rewrite (H1 _ Hs), (H1 _ Hp). reflexivity. }
  exists t2. split; [exact Hrect2|]. rewrite Hsub2. reflexivity.
Qed.

(** C1.  Wherever the program computes ProfitMargin it is missing for Sales
    of zero and Profit / Sales otherwise: in every row of the feature
    deriver's table, in every row of every group table, and in every row of
    the top products table. *)
Theorem profit_margin_null_on_zero_sales (df t : DataFrame) :
  cleaned df = true ->
  cleaned t = true ->
  (issubset ["Sales"; "Profit"] df = true ->
   forall r, In r (rows (feature_engineering df)) ->
     margin_ok (get (feature_engineering df) "Sales" r)
               (get (feature_engineering df) "Profit" r)
               (get (feature_engineering df) "ProfitMargin" r))
  /\ (forall name gt, (aggregates t).1.1 !! name = Some gt ->
      forall g, In g gt -> margin_ok (Sales g) (Profit g) (ProfitMargin g))
  /\ (forall top, (aggregates t).2 = Some top ->
      forall r, In r (rows top) ->
        margin_ok (get top "Sales" r) (get top "Profit" r) (get top "ProfitMargin" r)).
Proof.
  intros Hdf _. split; [|split].
  - intros Hsub r Hr.
    destruct (feature_engineering_margin df (cleaned_rect df Hdf) Hsub)
      as [t2 [Hrect2 Hfe]].
    rewrite Hfe in *. rewrite rows_setitem in Hr.
    apply in_map_iff in Hr as [r0 [<- Hr0]].
    rewrite !get_setitem by assumption. cbn [String.eqb Ascii.eqb Bool.eqb].
    apply profit_margin_ok.
  - intros name gt Hgt g Hg. rewrite group_tables_lookup in Hgt.
    destruct (List.find _ _) as [d|]; [|discriminate].
    destruct (issubset _ t); [|discriminate]. injection Hgt as <-.
    apply aggr_summed in Hg. destruct Hg as [x [y [Hs [Hp Hm]]]].
    rewrite Hs, Hp, Hm, <- profit_margin_num. apply profit_margin_ok.
  - intros top Htop r Hr. unfold aggregates in Htop. cbn [snd] in Htop.
    destruct (issubset ["Product Name"; "Sales"; "Profit"] t); [|discriminate].
    injection Htop as <-. cbn in Hr.
    apply in_map_iff in Hr as [g [<- Hg]]. apply firstn_In in Hg.
    change (margin_ok (Sales g) (Profit g) (ProfitMargin g)).
    fold (sort_values_sales_desc
            (map (fun k => assign_margin k (sum_group t "Product Name" k))
                 (group_keys t "Product Name"))) in Hg.
    fold (aggr t "Product Name") in Hg.
    apply aggr_summed in Hg. destruct Hg as [x [y [Hs [Hp Hm]]]].
    rewrite Hs, Hp, Hm, <- profit_margin_num. apply profit_margin_ok.
Qed.

Lemma profit_margin_null_on_zero_sales_witness :
  cleaned Scenario.orders = true
  /\ margin_ok (Num 0) (Num 5)
       (get (feature_engineering Scenario.orders) "ProfitMargin"
            [Str "Tech"; Str "Cable"; Num 0; Num 5; NaN]).
Proof.
  split; [reflexivity|].
  destruct (profit_margin_null_on_zero_sales Scenario.orders Scenario.orders
              eq_refl eq_refl) as [Hfe _].
  apply (Hfe eq_refl [Str "Tech"; Str "Cable"; Num 0; Num 5; NaN]).
  right; right; left. reflexivity.
Defined.

(** ** KPI computer *)

Lemma row_fits_nth (r : row) (h : list (string * dtype)) (i : nat) (x : string * dtype) :
  row_fits r h = true -> h !! i = Some x -> fits (nth i r NaN) (snd x) = true.
Proof.
  revert h i. induction r as [|c r IH]; intros [|y h] i; cbn; try discriminate.
  intros Hfit. apply andb_prop in Hfit as [Hc Hfit].
  destruct i as [|i]; cbn; [intros [= <-]; exact Hc|apply IH; exact Hfit].
Qed.

(** In a cleaned table the cells of a column labelled with date are
    timestamps or missing. *)
Lemma cleaned_date_column (df : DataFrame) (c : string) (r : row) :
  cleaned df = true -> is_date_label c = true -> In r (rows df) ->
  get df c r = NaN \/ exists t, get df c r = Ts t.
Proof.
  unfold cleaned, valid, coerced. intros Hc Hdate Hr.
  apply andb_prop in Hc as [Hv Hco]. apply andb_prop in Hv as [Hfit _].
  rewrite forallb_forall in Hfit, Hco. specialize (Hfit r Hr).
  unfold get. destruct (index_of c (columns df)) as [i|] eqn:Hi; [|left; reflexivity].
  apply index_of_Some in Hi. unfold columns in Hi. rewrite list_lookup_fmap in Hi.
  destruct (header df !! i) as [[n d]|] eqn:Hh; [|discriminate]. cbn in Hi.
  injection Hi as ->.
  pose proof (row_fits_nth r _ i _ Hfit Hh) as Hcell. cbn in Hcell.
  assert (Hd : d = datetime64).
  { assert (Hin : In (c, d) (header df))
      by (apply list_elem_of_In; eapply list_elem_of_lookup_2; exact Hh).
    specialize (Hco _ Hin). cbn [fst snd] in Hco. rewrite Hdate in Hco.
    apply andb_prop in Hco as [Hco _]. destruct d; auto; discriminate. }
  subst d. destruct (nth i r NaN); cbn in Hcell; try discriminate; eauto.
Qed.














(** ** Cleaner: the coercions, column by column *)

Lemma apply_row_id (fs : list (cell -> cell)) (r : row) :
  (forall f, In f fs -> forall c, f c = c) -> apply_row fs r = r.
Proof.
  revert r. induction fs as [|f fs IH]; intros [|c r] Hid; cbn; try reflexivity.
  rewrite (Hid f) by (left; reflexivity). f_equal. apply IH.
  intros g Hg. apply Hid. right. exact Hg.
Qed.

Lemma apply_row_ext (g g' : column_step) (hd : list (string * dtype)) (r : row) :
  (forall h, In h hd -> forall c, snd (g h) c = snd (g' h) c) ->
  apply_row (map (fun h => snd (g h)) hd) r = apply_row (map (fun h => snd (g' h)) hd) r.
Proof.
  revert r. induction hd as [|h hd IH]; intros [|c r] Hext; cbn; try reflexivity.
  rewrite (Hext h) by (left; reflexivity). f_equal. apply IH.
  intros h' Hh'. apply Hext. right. exact Hh'.
Qed.

Lemma apply_row_then (g1 g2 : column_step) (hd : list (string * dtype)) (r : row) :
  apply_row (map (fun h => snd (g2 h)) (map (fun h => fst (g1 h)) hd))
            (apply_row (map (fun h => snd (g1 h)) hd) r)
  = apply_row (map (fun h => snd (then_step g1 g2 h)) hd) r.
Proof.
  revert r. induction hd as [|h hd IH]; intros [|c r]; cbn; try reflexivity.
  f_equal. apply IH.
Qed.

Lemma apply_columns_then (g1 g2 : column_step) (df : DataFrame) :
  apply_columns g2 (apply_columns g1 df) = apply_columns (then_step g1 g2) df.
Proof.
  unfold apply_columns. cbn [header rows]. f_equal.
  - rewrite map_map. reflexivity.
  - rewrite map_map. apply map_ext. intros r. apply apply_row_then.
Qed.

Lemma apply_columns_ext (g g' : column_step) (df : DataFrame) :
  (forall h, In h (header df) ->
     fst (g h) = fst (g' h) /\ forall c, snd (g h) c = snd (g' h) c) ->
  apply_columns g df = apply_columns g' df.
Proof.
  intros Hext. unfold apply_columns. f_equal.
  - apply map_ext_in. intros h Hh. apply Hext. exact Hh.
  - apply map_ext. intros r. apply apply_row_ext.
    intros h Hh. apply Hext. exact Hh.
Qed.

Lemma update_row_apply_row sel f d (hd : list (string * dtype)) (r : row) :
  update_row (map (fun h => sel (fst h) (snd h)) hd) f r
  = apply_row (map (fun h => snd (update_step sel f d h)) hd) r.
Proof.
  revert r. induction hd as [|h hd IH]; intros [|c r]; cbn; try reflexivity.
  unfold update_step at 1. destruct (sel (fst h) (snd h)); cbn; f_equal; apply IH.
Qed.

Lemma update_columns_step sel f d (df : DataFrame) :
  update_columns sel f d df = apply_columns (update_step sel f d) df.
Proof.
  unfold update_columns, apply_columns. f_equal.
  - apply map_ext. intros h. unfold update_step.
    destruct (sel (fst h) (snd h)); reflexivity.
  - apply map_ext. intros r. apply update_row_apply_row.
Qed.

Lemma strip_columns_step (df : DataFrame) :
  strip_columns df =
    apply_columns (fun h => ((Text.strip (fst h), snd h), fun c => c)) df.
Proof.
  unfold strip_columns, apply_columns. cbn [fst snd]. f_equal.
  transitivity (map (fun r : row => r) (rows df)); [symmetry; apply map_id|].
  apply map_ext. intros r. symmetry. apply apply_row_id.
  intros f Hf. apply in_map_iff in Hf as [h [<- _]]. reflexivity.
Qed.

Section CleanerColumns.
Context `{Pandas}.

Lemma to_numeric_idem (c : cell) : to_numeric (to_numeric c) = to_numeric c.
Proof.
  destruct c as [|x|s|t|i]; cbn; try reflexivity.
  destruct (parse_number s); reflexivity.
Qed.

Lemma apply_columns_then_ext (g1 g2 g : column_step) (df : DataFrame) :
  (forall h, fst (then_step g1 g2 h) = fst (g h)
             /\ forall c, snd (then_step g1 g2 h) c = snd (g h) c) ->
  apply_columns g2 (apply_columns g1 df) = apply_columns g df.
Proof.
  intros Hext. rewrite apply_columns_then. apply apply_columns_ext.
  intros h _. apply Hext.
Qed.

Lemma mem_app (c : string) (l l' : list string) : mem c (l ++ l') = mem c l || mem c l'.
Proof. unfold mem. apply existsb_app. Qed.

Lemma mem_singleton (c l : string) : mem c [l] = String.eqb c l.
Proof. unfold mem. cbn. apply orb_false_r. Qed.

(** Stripping the labels and parsing the dates. *)
Lemma coerced_dates (h : string * dtype) :
  let g := then_step (fun h => ((Text.strip (fst h), snd h), fun c => c))
                     (update_step (fun c _ => is_date_label c) to_datetime datetime64) in
  fst (g h) = fst (coerced_so_far [] h)
  /\ forall c, snd (g h) c = snd (coerced_so_far [] h) c.
Proof.
  destruct h as [n d]. unfold then_step, update_step, coerced_so_far. cbn [fst snd mem existsb].
  destruct (is_date_label (Text.strip n)); split; reflexivity.
Qed.

(** One more turn of the loop over the numeric labels. *)
Lemma coerced_numeric (done : list string) (l : string) (h : string * dtype) :
  is_date_label l = false ->
  let g := then_step (coerced_so_far done)
                     (update_step (fun c' _ => String.eqb c' l) to_numeric number) in
  fst (g h) = fst (coerced_so_far (done ++ [l]) h)
  /\ forall c, snd (g h) c = snd (coerced_so_far (done ++ [l]) h) c.
Proof.
  intros Hl. destruct h as [n d]. unfold then_step, update_step, coerced_so_far.
  cbn [fst snd]. generalize (Text.strip n). intros c.
  rewrite mem_app, mem_singleton.
  destruct (is_date_label c) eqn:Hdate; cbn [fst snd].
  - destruct (String.eqb_spec c l) as [->|_]; [congruence|]. split; reflexivity.
  - destruct (mem c done); cbn [fst snd orb];
      destruct (String.eqb c l); cbn [fst snd]; split; try reflexivity.
    intros x. apply to_numeric_idem.
Qed.

(** The loop over the object columns, last. *)
Lemma coerced_strings (h : string * dtype) :
  let g := then_step (coerced_so_far numeric_labels)
                     (update_step (fun _ d => dtype_eqb d object) normalize_text object) in
  fst (g h) = fst (clean_step h) /\ forall c, snd (g h) c = snd (clean_step h) c.
Proof.
  destruct h as [n d].
  unfold then_step, update_step, coerced_so_far, clean_step, clean_header, clean_cell.
  cbn [fst snd]. generalize (Text.strip n). intros c.
  destruct (is_date_label c); cbn [fst snd dtype_eqb]; [split; reflexivity|].
  destruct (mem c numeric_labels); cbn [fst snd dtype_eqb]; [split; reflexivity|].
  destruct d; cbn [fst snd dtype_eqb]; split; reflexivity.
Qed.

(** The four coercion steps of the cleaner are one step per column. *)
Lemma coerce_numeric_column_so_far (done : list string) (l : string) (t df : DataFrame) :
  is_date_label l = false ->
  t = apply_columns (coerced_so_far done) df ->
  coerce_numeric_column l t = apply_columns (coerced_so_far (done ++ [l])) df.
Proof.
  intros Hl ->. unfold coerce_numeric_column. rewrite update_columns_step.
  apply apply_columns_then_ext. intros h. apply coerced_numeric. exact Hl.
Qed.

Lemma coerce_columns (df : DataFrame) : coerce df = apply_columns clean_step df.
Proof.
  unfold coerce, normalize_strings. rewrite coerce_numerics_unfold.
  rewrite update_columns_step.
  rewrite (coerce_numeric_column_so_far
             ["Sales"; "Profit"; "Discount"; "Quantity"] "Postal Code" _ df eq_refl).
  { apply apply_columns_then_ext. apply coerced_strings. }
  apply (coerce_numeric_column_so_far ["Sales"; "Profit"; "Discount"] "Quantity");
    [reflexivity|].
  apply (coerce_numeric_column_so_far ["Sales"; "Profit"] "Discount"); [reflexivity|].
  apply (coerce_numeric_column_so_far ["Sales"] "Profit"); [reflexivity|].
  apply (coerce_numeric_column_so_far [] "Sales"); [reflexivity|].
  unfold coerce_dates. rewrite strip_columns_step, update_columns_step.
  apply apply_columns_then_ext. apply coerced_dates.
Qed.

End CleanerColumns.

(** ** Cleaner: running it twice *)

Lemma rstrip_idem (s : string) : Text.rstrip (Text.rstrip s) = Text.rstrip s.
Proof.
  induction s as [|a s IH]; [reflexivity|]. cbn [Text.rstrip]. cbv zeta.
  destruct (Text.is_space (String a (Text.rstrip s))) eqn:Hsp; [reflexivity|].
  cbn [Text.rstrip]. cbv zeta. rewrite IH, Hsp. reflexivity.
Qed.

Lemma rstrip_prefix (s : string) : exists w, s = Text.rstrip s ++ w.
Proof.
  induction s as [|a s [w IH]]; [exists ""; reflexivity|].
  cbn [Text.rstrip]. cbv zeta.
  destruct (Text.is_space (String a (Text.rstrip s))).
  - exists (String a s). reflexivity.
  - exists w. rewrite IH at 1. reflexivity.
Qed.

Lemma after_space_app (p w r : string) :
  Text.after_space p = Some r -> Text.after_space (p ++ w) = Some (r ++ w).
Proof.
  destruct p as [|a [|b [|c p]]]; cbn [Text.after_space]; try discriminate.
  - change (String a "" ++ w) with (String a w). cbn [Text.after_space].
    destruct (Text.isspace a); [|discriminate]. intros [= <-]. reflexivity.
  - change (String a (String b "") ++ w) with (String a (String b w)).
    cbn [Text.after_space].
    destruct (Text.isspace a); [intros [= <-]; reflexivity|].
    destruct (Text.isspace2 a b); [|discriminate]. intros [= <-]. reflexivity.
  - change (String a (String b (String c p)) ++ w)
      with (String a (String b (String c (p ++ w)))).
    cbn [Text.after_space].
    destruct (Text.isspace a); [intros [= <-]; reflexivity|].
    destruct (Text.isspace2 a b); [intros [= <-]; reflexivity|].
    destruct (Text.isspace3 a b c); [|discriminate]. intros [= <-]. reflexivity.
Qed.

Lemma lstrip_unfold (s : string) :
  Text.lstrip s = match Text.after_space s with
                  | Some r => Text.lstrip r
                  | None => s
                  end.
Proof.
  destruct s as [|a [|b [|c s]]]; cbn [Text.lstrip Text.after_space]; try reflexivity.
  - destruct (Text.isspace a); reflexivity.
  - destruct (Text.isspace a); [reflexivity|]. destruct (Text.isspace2 a b); reflexivity.
  - destruct (Text.isspace a); [reflexivity|].
    destruct (Text.isspace2 a b); [reflexivity|]. destruct (Text.isspace3 a b c); reflexivity.
Qed.

Lemma after_space_length (s r : string) :
  Text.after_space s = Some r -> (String.length r < String.length s)%nat.
Proof.
  destruct s as [|a [|b [|c s]]]; cbn [Text.after_space]; try discriminate.
  - destruct (Text.isspace a); [|discriminate]. intros [= <-]. cbn. lia.
  - destruct (Text.isspace a); [intros [= <-]; cbn; lia|].
    destruct (Text.isspace2 a b); [|discriminate]. intros [= <-]. cbn. lia.
  - destruct (Text.isspace a); [intros [= <-]; cbn; lia|].
    destruct (Text.isspace2 a b); [intros [= <-]; cbn; lia|].
    destruct (Text.isspace3 a b c); [|discriminate]. intros [= <-]. cbn. lia.
Qed.

Lemma after_space_lstrip (s : string) : Text.after_space (Text.lstrip s) = None.
Proof.
  remember (String.length s) as n eqn:Hn.
  revert s Hn. induction n as [n IH] using lt_wf_ind. intros s ->.
  rewrite lstrip_unfold. destruct (Text.after_space s) as [r|] eqn:Hs; [|exact Hs].
  apply (IH (String.length r)); [|reflexivity].
  apply after_space_length. exact Hs.
Qed.

Lemma lstrip_rstrip (s : string) :
  Text.after_space s = None -> Text.lstrip (Text.rstrip s) = Text.rstrip s.
Proof.
  intros Hs. rewrite lstrip_unfold.
  destruct (Text.after_space (Text.rstrip s)) as [r|] eqn:Hr; [|reflexivity].
  destruct (rstrip_prefix s) as [w Hw].
  apply (after_space_app _ w) in Hr. rewrite <- Hw in Hr. congruence.
Qed.

Lemma strip_idem (s : string) : Text.strip (Text.strip s) = Text.strip s.
Proof.
  unfold Text.strip. rewrite lstrip_rstrip by apply after_space_lstrip.
  apply rstrip_idem.
Qed.

Lemma DataFrame_eq (a b : DataFrame) :
  header a = header b -> rows a = rows b -> a = b.
Proof. destruct a, b. cbn. intros -> ->. reflexivity. Qed.

Lemma drop_dups_fresh (seen l : list row) : fresh seen (drop_dups seen l).
Proof.
  revert seen. induction l as [|r l IH]; intros seen; cbn; [exact I|].
  destruct (existsb (row_eqb r) seen) eqn:Hr; [apply IH|].
  cbn. split; [exact Hr|apply IH].
Qed.

Lemma drop_dups_In (seen l : list row) (r : row) :
  In r (drop_dups seen l) -> In r l.
Proof.
  revert seen. induction l as [|x l IH]; intros seen; cbn; [tauto|].
  destruct (existsb (row_eqb x) seen); [intros Hr; right; eapply IH; exact Hr|].
  intros [->|Hr]; [left; reflexivity|right; eapply IH; exact Hr].
Qed.

Lemma fresh_drop_dups (seen l : list row) : fresh seen l -> drop_dups seen l = l.
Proof.
  revert seen. induction l as [|r l IH]; intros seen; cbn; [reflexivity|].
  intros [Hr Hl]. rewrite Hr. f_equal. apply IH. exact Hl.
Qed.

Lemma fresh_weaken (seen seen' l : list row) :
  (forall r, existsb (row_eqb r) seen' = true -> existsb (row_eqb r) seen = true) ->
  fresh seen l -> fresh seen' l.
Proof.
  revert seen seen'. induction l as [|r l IH]; intros seen seen' Hsub; cbn; [auto|].
  intros [Hr Hl]. split.
  - destruct (existsb (row_eqb r) seen') eqn:Hr'; [|reflexivity].
    apply Hsub in Hr'. congruence.
  - apply (IH (r :: seen)); [|exact Hl]. cbn. intros x Hx.
    apply orb_prop in Hx as [Hx|Hx]; [rewrite Hx; reflexivity|].
    rewrite (Hsub x Hx). apply orb_true_r.
Qed.

Lemma fresh_filter (p : row -> bool) (seen l : list row) :
  fresh seen l -> fresh seen (List.filter p l).
Proof.
  revert seen. induction l as [|r l IH]; intros seen; cbn; [auto|].
  intros [Hr Hl]. destruct (p r); cbn.
  - split; [exact Hr|apply IH; exact Hl].
  - apply IH. apply (fresh_weaken (r :: seen)); [|exact Hl].
    cbn. intros x Hx. rewrite Hx. apply orb_true_r.
Qed.

Lemma drop_missing_essential_same_header (t t' : DataFrame) :
  header t' = header t ->
  rows (drop_missing_essential t') =
    List.filter
      (fun r => forallb (fun c => negb (has_column c t) || negb (isna (get t c r)))
                  essential_labels)
      (rows t').
Proof.
  intros Hh. destruct (drop_missing_essential_rows t') as [_ ->].
  apply filter_ext. intros r. unfold has_column, get, columns. rewrite Hh. reflexivity.
Qed.

Lemma drop_missing_essential_idem (t : DataFrame) :
  drop_missing_essential (drop_missing_essential t) = drop_missing_essential t.
Proof.
  destruct (drop_missing_essential_rows t) as [Hh Hr].
  apply DataFrame_eq.
  - destruct (drop_missing_essential_rows (drop_missing_essential t)) as [-> _].
    reflexivity.
  - rewrite (drop_missing_essential_same_header t) by exact Hh.
    rewrite Hr. apply filter_filter_same.
Qed.

Section CleanerTwice.
Context `{Pandas}.

Lemma to_datetime_idem (c : cell) : to_datetime (to_datetime c) = to_datetime c.
Proof.
  destruct c as [|x|s|t|i]; cbn; try reflexivity.
  - destruct (datetime_of_number x); reflexivity.
  - destruct (parse_datetime s); reflexivity.
Qed.

Lemma normalize_text_idem (c : cell) :
  normalize_text (normalize_text c) = normalize_text c.
Proof.
  unfold normalize_text, astype_str, str_strip.
  destruct c; [destruct str_of_missing|..]; rewrite ?strip_idem; reflexivity.
Qed.

Lemma numeric_label_not_date (c : string) :
  mem c numeric_labels = true -> is_date_label c = false.
Proof.
  intros Hc. apply mem_true_iff in Hc. unfold numeric_labels in Hc. cbn in Hc.
  repeat (destruct Hc as [<-|Hc]; [reflexivity|]). contradiction.
Qed.

Lemma clean_header_idem (h : string * dtype) :
  clean_header (clean_header h) = clean_header h.
Proof.
  destruct h as [n d]. unfold clean_header. cbn [fst snd].
  destruct (is_date_label (Text.strip n)) eqn:Hdate; cbn [fst snd].
  - rewrite strip_idem, Hdate. reflexivity.
  - destruct (mem (Text.strip n) numeric_labels) eqn:Hnum; cbn [fst snd];
      rewrite strip_idem, Hdate, Hnum; reflexivity.
Qed.

Lemma clean_cell_idem (h : string * dtype) (c : cell) :
  clean_cell (clean_header h) (clean_cell h c) = clean_cell h c.
Proof.
  destruct h as [n d]. unfold clean_header, clean_cell. cbn [fst snd].
  destruct (is_date_label (Text.strip n)) eqn:Hdate; cbn [fst snd].
  - rewrite strip_idem, Hdate. apply to_datetime_idem.
  - destruct (mem (Text.strip n) numeric_labels) eqn:Hnum; cbn [fst snd];
      rewrite strip_idem, Hdate, Hnum; [apply to_numeric_idem|].
    destruct (dtype_eqb d object); [apply normalize_text_idem|reflexivity].
Qed.

Lemma clean_row_idem (hd : list (string * dtype)) (r : row) :
  apply_row (map (fun h => snd (clean_step h)) (map (fun h => fst (clean_step h)) hd))
            (apply_row (map (fun h => snd (clean_step h)) hd) r)
  = apply_row (map (fun h => snd (clean_step h)) hd) r.
Proof.
  revert r. induction hd as [|h hd IH]; intros [|c r]; cbn; try reflexivity.
  rewrite clean_cell_idem. f_equal. apply IH.
Qed.

(** A table made of rows of a coerced table is left as it is by the
    coercions. *)
Lemma coerce_fixed (df t : DataFrame) :
  header t = header (coerce df) ->
  (forall r, In r (rows t) -> In r (rows (coerce df))) ->
  coerce t = t.
Proof.
  rewrite !coerce_columns. intros Hh Hr.
  unfold apply_columns in Hh, Hr. cbn [header rows] in Hh, Hr.
  apply DataFrame_eq; unfold apply_columns; cbn [header rows].
  - rewrite Hh at 1. rewrite map_map. rewrite Hh. apply map_ext. intros h.
    apply clean_header_idem.
  - transitivity (map (fun r : row => r) (rows t)); [|apply map_id].
    apply map_ext_in. intros r Hin. apply Hr in Hin.
    apply in_map_iff in Hin as [r0 [<- _]]. rewrite Hh. apply clean_row_idem.
Qed.

Lemma basic_clean_steps (df : DataFrame) :
  basic_clean df = drop_missing_essential (drop_duplicates (coerce df)).
Proof. reflexivity. Qed.

Lemma basic_clean_rows_coerced (df : DataFrame) (r : row) :
  In r (rows (basic_clean df)) -> In r (rows (coerce df)).
Proof.
  rewrite basic_clean_steps.
  destruct (drop_missing_essential_rows (drop_duplicates (coerce df))) as [_ ->].
  intros Hr. apply filter_In in Hr as [Hr _].
  eapply drop_dups_In. exact Hr.
Qed.

Lemma basic_clean_header (df : DataFrame) :
  header (basic_clean df) = header (coerce df).
Proof.
  rewrite basic_clean_steps.
  destruct (drop_missing_essential_rows (drop_duplicates (coerce df))) as [-> _].
  reflexivity.
Qed.

Lemma basic_clean_fresh (df : DataFrame) : fresh [] (rows (basic_clean df)).
Proof.
  rewrite basic_clean_steps.
  destruct (drop_missing_essential_rows (drop_duplicates (coerce df))) as [_ ->].
  apply fresh_filter. apply drop_dups_fresh.
Qed.

(** C7.  Cleaning a cleaned table changes nothing: the second run returns
    the table the first run returned, and so a table of as many rows. *)
Theorem basic_clean_idempotent (df : DataFrame) :
  valid df = true ->
  nrows (basic_clean (basic_clean df)) = nrows (basic_clean df)
  /\ basic_clean (basic_clean df) = basic_clean df.
Proof.
  intros _.
  assert (Hidem : basic_clean (basic_clean df) = basic_clean df).
  { rewrite (basic_clean_steps (basic_clean df)).
    rewrite (coerce_fixed df (basic_clean df))
      by (apply basic_clean_header || apply basic_clean_rows_coerced).
    assert (Hdd : drop_duplicates (basic_clean df) = basic_clean df).
    { apply DataFrame_eq; [reflexivity|]. cbn.
      apply fresh_drop_dups, basic_clean_fresh. }
    rewrite Hdd. rewrite basic_clean_steps. apply drop_missing_essential_idem. }
  rewrite Hidem. split; reflexivity.
Qed.

End CleanerTwice.

Lemma basic_clean_idempotent_witness :
  valid Scenario.messy = true
  /\ nrows (@basic_clean Scenario.iso_pandas Scenario.messy) = 2%nat
  /\ nrows (@basic_clean Scenario.iso_pandas
              (@basic_clean Scenario.iso_pandas Scenario.messy)) = 2%nat.
Proof.
  split; [reflexivity|]. split; [vm_compute; reflexivity|].
  destruct (@basic_clean_idempotent Scenario.iso_pandas Scenario.messy eq_refl)
    as [Hrows _].
  rewrite Hrows. vm_compute. reflexivity.
Defined.

(** ** Text columns after cleaning *)








Section CleanerText.
Context `{Pandas}.


(** A row of the cleaned table is a raw row after the coercions. *)
Lemma basic_clean_row (df : DataFrame) (r : row) :
  In r (rows (basic_clean df)) ->
  exists r0, In r0 (rows df)
             /\ r = apply_row (map (fun h => snd (clean_step h)) (header df)) r0.
Proof.
  intros Hr. apply basic_clean_rows_coerced in Hr. rewrite coerce_columns in Hr.
  cbn in Hr. apply in_map_iff in Hr as [r0 [<- Hr0]]. eauto.
Qed.









Lemma data_dict_entry (t : DataFrame) (e : dict_entry) :
  In e (data_dict t) ->
  exists i h, header t !! i = Some h
    /\ dd_column e = fst h /\ dd_dtype e = snd h
    /\ n_missing e = count_missing t i
    /\ sample_value e = first_valid (column_values t (fst h)).
Proof.
  intros He. apply list_elem_of_In, list_elem_of_lookup in He as [i Hi].
  unfold data_dict in Hi. rewrite list_lookup_imap in Hi.
  destruct (header t !! i) as [h|] eqn:Hh; [|discriminate].
  exists i, h. split; [exact Hh|].
  apply (inj Some) in Hi. rewrite <- Hi. repeat split.
Qed.



End CleanerText.


(** C10, as stated, fails with a pandas whose [astype(str)] leaves a missing
    value missing, as pandas 3 does: the order without a category keeps its
    missing value in the object column Category of the cleaned table, and
    the data dictionary counts it. *)
Lemma text_columns_keep_null :
  valid Scenario.messy = true
  /\ header (@basic_clean Scenario.pandas3 Scenario.messy) !! 2%nat
     = Some ("Category", object)
  /\ In [Ts 1677628800000000000; Num 7; NaN]
        (rows (@basic_clean Scenario.pandas3 Scenario.messy))
  /\ In {| dd_column := "Category"; dd_dtype := object; n_missing := 1;
           sample_value := Some (Str "Tech") |}
        (data_dict (feature_engineering (@basic_clean Scenario.pandas3 Scenario.messy))).
Proof.
  split; [reflexivity|]. split; [vm_compute; reflexivity|].
  split; vm_compute; tauto.
Qed.

(** ** The two-row scenario *)

Section ScenarioFacts.
Context `{Pandas}.
Hypothesis parse_order1 : parse_datetime "2023-01-05" = Some (Scenario.midnight 2023 1 5).
Hypothesis parse_ship1 : parse_datetime "2023-01-10" = Some (Scenario.midnight 2023 1 10).
Hypothesis parse_order2 : parse_datetime "2023-01-20" = Some (Scenario.midnight 2023 1 20).
Hypothesis parse_ship2 : parse_datetime "2023-01-25" = Some (Scenario.midnight 2023 1 25).

Lemma scenario_coerce : coerce Scenario.raw = Scenario.clean.
Proof.
  rewrite coerce_columns. unfold apply_columns, Scenario.raw, Scenario.clean.
  cbn [header rows map apply_row fst snd clean_step].
  change (clean_cell ("Order Date", object)) with to_datetime.
  change (clean_cell ("Ship Date", object)) with to_datetime.
  change (clean_cell ("Sales", number)) with to_numeric.
  change (clean_cell ("Profit", number)) with to_numeric.
  change (clean_cell ("Category", object)) with normalize_text.
  f_equal. unfold to_datetime, to_numeric, normalize_text, astype_str.
  rewrite parse_order1, parse_ship1, parse_order2, parse_ship2. reflexivity.
Qed.

Lemma scenario_basic_clean : basic_clean Scenario.raw = Scenario.clean.
Proof.
  rewrite basic_clean_steps, scenario_coerce. vm_compute. reflexivity.
Qed.

(** C8.  The scenario of two orders of category Tech, read from a CSV file
    whose four dates parse to those days: the cleaned table has two rows;
    OrderMonth is the first of January 2023 and ShipDelayDays is 5 in both;
    total_sales is 150, total_profit is 10 and overall_profit_margin is 1/15,
    which is 0.0667 to four places; the table by category has the one row
    Tech with Sales 150 and Profit 10. *)
Theorem scenario_two_orders :
  let cleaned_table := basic_clean Scenario.raw in
  let derived := feature_engineering cleaned_table in
  nrows cleaned_table = 2%nat
  /\ column_values derived "OrderMonth" =
       [Ts (Scenario.midnight 2023 1 1); Ts (Scenario.midnight 2023 1 1)]
  /\ Calendar.strftime_ymd (Scenario.midnight 2023 1 1) = "2023-01-01"
  /\ column_values derived "ShipDelayDays" = [Num 5; Num 5]
  /\ compute_kpis derived !! "total_sales" = Some (KFloat 150)
  /\ compute_kpis derived !! "total_profit" = Some (KFloat 10)
  /\ (exists m, compute_kpis derived !! "overall_profit_margin" = Some (KFloat m)
                /\ (m == 1 # 15)%Q /\ (0.06665 <= m)%Q /\ (m < 0.06675)%Q)
  /\ (exists m, (aggregates derived).1.1 !! "by_category" =
                  Some [mkGroup (Str "Tech") (Num 150) (Num 10) (Num m)]
                /\ (m == 1 # 15)%Q).
Proof.
  cbv zeta. rewrite scenario_basic_clean.
  split; [reflexivity|]. split; [vm_compute; reflexivity|].
  split; [vm_compute; reflexivity|]. split; [vm_compute; reflexivity|].
  split; [vm_compute; reflexivity|]. split; [vm_compute; reflexivity|].
  split.
  - exists (10 # 150)%Q. split; [vm_compute; reflexivity|].
    split; [reflexivity|]. split; [vm_compute; discriminate|vm_compute; reflexivity].
  - exists (10 # 150)%Q. split; [vm_compute; reflexivity|reflexivity].
Qed.

End ScenarioFacts.

Lemma scenario_two_orders_witness :
  nrows (@basic_clean Scenario.iso_pandas Scenario.raw) = 2%nat.
Proof.
  destruct (@scenario_two_orders Scenario.iso_pandas eq_refl eq_refl eq_refl eq_refl)
    as [Hrows _].
  exact Hrows.
Defined.

(** * Further properties *)

(** ** What the cleaner establishes *)

Section CleanerInvariant.
Context `{Pandas}.

Lemma clean_header_label (h : string * dtype) : fst (clean_header h) = Text.strip (fst h).
Proof.
  unfold clean_header. cbn zeta.
  destruct (is_date_label _); [reflexivity|]. destruct (mem _ _); reflexivity.
Qed.

Lemma clean_cell_fits (h : string * dtype) (c : cell) :
  fits c (snd h) = true -> fits (clean_cell h c) (snd (clean_header h)) = true.
Proof.
  destruct h as [n d]. unfold clean_header, clean_cell. cbn [fst snd].
  destruct (is_date_label (Text.strip n)); cbn [snd].
  { intros _. destruct c as [|x|s|t|i]; cbn; try reflexivity.
    - destruct (datetime_of_number x); reflexivity.
    - destruct (parse_datetime s); reflexivity. }
  destruct (mem (Text.strip n) numeric_labels); cbn [snd].
  { intros Hc. destruct c as [|x|s|t|i]; cbn; try reflexivity.
    - destruct (parse_number s); reflexivity.
    - destruct d; discriminate Hc. }
  destruct d; cbn [dtype_eqb]; auto.
  intros _. unfold normalize_text, astype_str, str_strip.
  destruct c; [destruct str_of_missing|..]; reflexivity.
Qed.

Lemma clean_row_fits (hd : list (string * dtype)) (r : row) :
  row_fits r hd = true ->
  row_fits (apply_row (map (fun h => snd (clean_step h)) hd) r)
           (map (fun h => fst (clean_step h)) hd) = true.
Proof.
  revert r. induction hd as [|h hd IH]; intros [|c r]; cbn; try discriminate; auto.
  intros Hfit. apply andb_prop in Hfit as [Hc Hr].
  rewrite (clean_cell_fits h c Hc). cbn. apply IH. exact Hr.
Qed.

Lemma columns_basic_clean (df : DataFrame) :
  columns (basic_clean df) = map Text.strip (columns df).
Proof.
  unfold columns. rewrite basic_clean_header, coerce_columns. cbn [apply_columns header].
  rewrite !map_map. apply map_ext. intros h. apply clean_header_label.
Qed.

Lemma clean_header_coerced (h : string * dtype) :
  (negb (is_date_label (fst (clean_header h)))
   || dtype_eqb (snd (clean_header h)) datetime64)
  && (negb (mem (fst (clean_header h)) numeric_labels)
      || dtype_eqb (snd (clean_header h)) number) = true.
Proof.
  destruct h as [n d]. unfold clean_header. cbn [fst snd].
  destruct (is_date_label (Text.strip n)) eqn:Hdate; cbn [fst snd].
  - rewrite Hdate.
    destruct (mem (Text.strip n) numeric_labels) eqn:Hnum; [|reflexivity].
    apply numeric_label_not_date in Hnum. congruence.
  - destruct (mem (Text.strip n) numeric_labels) eqn:Hnum; cbn [fst snd];
      rewrite Hdate, Hnum; reflexivity.
Qed.

(** The cleaner establishes [cleaned] and [stripped]. *)
Lemma basic_clean_makes_cleaned (df : DataFrame) :
  valid df = true ->
  cleaned (basic_clean df) = true /\ stripped (basic_clean df) = true.
Proof.
  intros Hvalid. unfold valid in Hvalid. apply andb_prop in Hvalid as [Hfit Hdist].
  rewrite forallb_forall in Hfit.
  unfold cleaned, valid, coerced, stripped. rewrite columns_basic_clean.
  rewrite map_map.
  assert (Hstrip : map (fun x => Text.strip (Text.strip x)) (columns df)
                   = map Text.strip (columns df))
    by (apply map_ext; intros c; apply strip_idem).
  rewrite Hstrip, Hdist, andb_true_r. rewrite andb_true_iff. split; [split|].
  - apply forallb_forall. intros r Hr.
    destruct (basic_clean_row df r Hr) as [r0 [Hr0 ->]].
    rewrite basic_clean_header, coerce_columns. cbn [apply_columns header].
    apply clean_row_fits, Hfit, Hr0.
  - apply forallb_forall. intros h Hh.
    rewrite basic_clean_header, coerce_columns in Hh. cbn [apply_columns header] in Hh.
    apply in_map_iff in Hh as [h0 [<- _]]. apply clean_header_coerced.
  - apply forallb_forall. intros c Hc. apply in_map_iff in Hc as [c0 [<- _]].
    apply String.eqb_eq, strip_idem.
Qed.

(** X1.  The cleaner turns every well-formed table into a table with
    stripped labels, one value of the column's dtype in every cell, a
    datetime dtype under every label with date in it and a numeric dtype
    under the five numeric labels. *)
Theorem basic_clean_cleaned (df : DataFrame) :
  valid df = true ->
  cleaned (basic_clean df) = true /\ stripped (basic_clean df) = true.
Proof. exact (basic_clean_makes_cleaned df). Qed.

End CleanerInvariant.

Lemma basic_clean_cleaned_witness :
  valid Scenario.messy = true
  /\ cleaned (@basic_clean Scenario.iso_pandas Scenario.messy) = true.
Proof.
  split; [reflexivity|].
  destruct (@basic_clean_cleaned Scenario.iso_pandas Scenario.messy eq_refl)
    as [Hclean _].
  exact Hclean.
Defined.

(** ** What the feature deriver keeps *)

Lemma row_fits_replace_nth (i : nat) (c : string) (d : dtype) (x : cell)
    (r : row) (hd : list (string * dtype)) :
  row_fits r hd = true -> fits x d = true ->
  row_fits (replace_nth i x r) (replace_nth i (c, d) hd) = true.
Proof.
  revert i hd. induction r as [|y r IH]; intros i [|h hd]; cbn; try discriminate.
  - destruct i; reflexivity.
  - intros Hfit Hx. apply andb_prop in Hfit as [Hy Hr].
    destruct i as [|i]; cbn; [rewrite Hx, Hr; reflexivity|].
    rewrite Hy. cbn. apply IH; assumption.
Qed.

Lemma row_fits_app (c : string) (d : dtype) (x : cell) (r : row)
    (hd : list (string * dtype)) :
  row_fits r hd = true -> fits x d = true ->
  row_fits (r ++ [x]) (hd ++ [(c, d)]) = true.
Proof.
  revert hd. induction r as [|y r IH]; intros [|h hd]; cbn; try discriminate.
  - intros _ ->. reflexivity.
  - intros Hfit Hx. apply andb_prop in Hfit as [-> Hr]. cbn. apply IH; assumption.
Qed.

Lemma forallb_replace_nth {A} (p : A -> bool) (i : nat) (x : A) (l : list A) :
  forallb p l = true -> p x = true -> forallb p (replace_nth i x l) = true.
Proof.
  revert i. induction l as [|y l IH]; intros [|i]; cbn; auto.
  - intros Hl ->. apply andb_prop in Hl as [_ ->]. reflexivity.
  - intros Hl Hx. apply andb_prop in Hl as [-> Hl]. cbn. apply IH; assumption.
Qed.

Lemma stripped_map (l : list string) :
  forallb (fun c => String.eqb (Text.strip c) c) l = true -> map Text.strip l = l.
Proof.
  induction l as [|c l IH]; cbn; [reflexivity|].
  intros Hl. apply andb_prop in Hl as [Hc Hl]. apply String.eqb_eq in Hc.
  rewrite Hc, IH by exact Hl. reflexivity.
Qed.

Lemma distinct_app_new (c : string) (l : list string) :
  distinct l = true -> mem c l = false -> distinct (l ++ [c]) = true.
Proof.
  induction l as [|x l IH]; cbn; [reflexivity|].
  intros Hl Hc. apply andb_prop in Hl as [Hx Hl].
  apply orb_false_elim in Hc as [Hcx Hc].
  rewrite mem_app, mem_singleton. apply negb_true_iff in Hx. rewrite Hx.
  rewrite String.eqb_sym, Hcx. cbn. apply IH; assumption.
Qed.

(** Assigning a column with a stripped label of its own, with values of the
    column's dtype, keeps a cleaned table cleaned. *)
Lemma setitem_cleaned c d f df :
  Text.strip c = c -> is_date_label c = false -> mem c numeric_labels = false ->
  (forall r, In r (rows df) -> fits (f r) d = true) ->
  cleaned df = true /\ stripped df = true ->
  cleaned (setitem c d f df) = true /\ stripped (setitem c d f df) = true.
Proof.
  intros Hc Hdate Hnum Hf [Hclean Hstr].
  unfold cleaned, valid, coerced in *.
  apply andb_prop in Hclean as [Hvalid Hco]. apply andb_prop in Hvalid as [Hfit Hdist].
  rewrite forallb_forall in Hfit.
  assert (Hnew : (negb (is_date_label c) || dtype_eqb d datetime64)
                 && (negb (mem c numeric_labels) || dtype_eqb d number) = true)
    by (rewrite Hdate, Hnum; reflexivity).
  assert (Hcols : stripped (setitem c d f df) = true
                  /\ distinct (map Text.strip (columns (setitem c d f df))) = true).
  { unfold stripped in *. rewrite columns_setitem.
    destruct (has_column c df) eqn:Hhas; [auto|].
    rewrite forallb_app, Hstr. cbn. rewrite Hc, String.eqb_refl. split; [reflexivity|].
    rewrite map_app, (stripped_map _ Hstr). cbn. rewrite Hc.
    apply distinct_app_new; [|exact Hhas].
    rewrite <- (stripped_map _ Hstr). exact Hdist. }
  destruct Hcols as [Hstr' Hdist']. split; [|exact Hstr'].
  rewrite Hdist', andb_true_r. rewrite andb_true_iff. split.
  - apply forallb_forall. intros r Hr. rewrite rows_setitem in Hr.
    apply in_map_iff in Hr as [r0 [<- Hr0]]. specialize (Hfit r0 Hr0).
    unfold setitem, setitem_row. destruct (index_of c (columns df)); cbn [header].
    + apply row_fits_replace_nth; auto.
    + apply row_fits_app; auto.
  - unfold setitem. destruct (index_of c (columns df)); cbn [header].
    + apply forallb_replace_nth; assumption.
    + rewrite forallb_app, Hco. cbn [forallb fst snd]. rewrite Hnew. reflexivity.
Qed.

Lemma length_rows_setitem c d f df : nrows (setitem c d f df) = nrows df.
Proof. unfold nrows. rewrite rows_setitem. apply length_map. Qed.

Lemma fits_finite (c : cell) (d : dtype) : fits c d = true -> finite c = true.
Proof. destruct c, d; cbn; congruence. Qed.

Lemma row_fits_finite (r : row) (hd : list (string * dtype)) (i : nat) :
  row_fits r hd = true -> finite (nth i r NaN) = true.
Proof.
  revert hd i. induction r as [|c r IH]; intros [|h hd] i; cbn; try discriminate.
  - destruct i; reflexivity.
  - intros Hfit. apply andb_prop in Hfit as [Hc Hr].
    destruct i as [|i]; [exact (fits_finite _ _ Hc)|exact (IH _ _ Hr)].
Qed.

(** No cell of a cleaned table is an infinity. *)
Lemma cleaned_finite (df : DataFrame) (c : string) (r : row) :
  cleaned df = true -> In r (rows df) -> finite (get df c r) = true.
Proof.
  unfold cleaned, valid. intros Hc Hr.
  apply andb_prop in Hc as [Hv _]. apply andb_prop in Hv as [Hfit _].
  rewrite forallb_forall in Hfit. specialize (Hfit r Hr).
  unfold get. destruct (index_of c (columns df)); [|reflexivity].
  exact (row_fits_finite _ _ _ Hfit).
Qed.

Lemma profit_margin_fits (s p : cell) :
  finite s = true -> finite p = true -> fits (profit_margin s p) number = true.
Proof.
  unfold profit_margin, np_where, truediv.
  destruct s as [|x| | |], p as [|y| | |]; cbn; try discriminate; try reflexivity;
    destruct (Qeq_bool x 0); reflexivity.
Qed.

Lemma sub_days_fits (a b : cell) : fits (sub_days a b) number = true.
Proof. destruct a, b; reflexivity. Qed.

Lemma dt_year_fits (c : cell) : fits (dt_year c) number = true.
Proof. destruct c; reflexivity. Qed.

Lemma dt_month_start_fits (c : cell) : fits (dt_month_start c) datetime64 = true.
Proof. destruct c; reflexivity. Qed.

(** The feature deriver keeps [cleaned] and [stripped], and the number of rows. *)
Lemma feature_engineering_stays_cleaned (df : DataFrame) :
  cleaned df = true -> stripped df = true ->
  cleaned (feature_engineering df) = true
  /\ stripped (feature_engineering df) = true
  /\ nrows (feature_engineering df) = nrows df.
Proof.
  intros Hclean Hstr.
  assert (Hstep : forall (b : bool) c d f t,
            Text.strip c = c -> is_date_label c = false ->
            mem c numeric_labels = false ->
            (cleaned t = true -> forall r, In r (rows t) -> fits (f r) d = true) ->
            (cleaned t = true /\ stripped t = true) /\ nrows t = nrows df ->
            (cleaned (if b then setitem c d f t else t) = true
             /\ stripped (if b then setitem c d f t else t) = true)
            /\ nrows (if b then setitem c d f t else t) = nrows df).
  { intros b c d f t Hc Hd Hn Hf [Ht Hrows]. destruct b; [|auto].
    split; [apply setitem_cleaned; try assumption; apply Hf, Ht|].
    rewrite length_rows_setitem. exact Hrows. }
  unfold feature_engineering.
  assert (Hgoal : forall t, (cleaned t = true /\ stripped t = true) /\ nrows t = nrows df ->
                    cleaned t = true /\ stripped t = true /\ nrows t = nrows df)
    by (intros t [[? ?] ?]; auto).
  apply Hgoal.
  apply Hstep; try reflexivity;
    [intros Ht r Hr; apply profit_margin_fits; apply cleaned_finite; assumption|].
  apply Hstep; try reflexivity;
    [intros _ r _; apply sub_days_fits|].
  destruct (has_column "Order Date" df); [|auto].
  apply (Hstep true); try reflexivity;
    [intros _ r _; apply dt_month_start_fits|].
  apply (Hstep true); try reflexivity;
    [intros _ r _; apply dt_year_fits|].
  auto.
Qed.

(** X2.  The feature deriver keeps a cleaned table with stripped labels
    cleaned, and keeps its number of rows. *)
Theorem feature_engineering_cleaned (df : DataFrame) :
  cleaned df = true -> stripped df = true ->
  cleaned (feature_engineering df) = true
  /\ stripped (feature_engineering df) = true
  /\ nrows (feature_engineering df) = nrows df.
Proof. exact (feature_engineering_stays_cleaned df). Qed.

Lemma feature_engineering_cleaned_witness :
  cleaned Scenario.clean = true /\ stripped Scenario.clean = true
  /\ cleaned (feature_engineering Scenario.clean) = true.
Proof.
  split; [reflexivity|]. split; [reflexivity|].
  destruct (feature_engineering_cleaned Scenario.clean eq_refl eq_refl) as [Hclean _].
  exact Hclean.
Defined.

Lemma keeps_refl l t : rect t -> keeps l t t (fun r => r).
Proof.
  intros Hrect. split; [exact Hrect|]. split; [symmetry; apply map_id|]. reflexivity.
Qed.

Lemma keeps_setitem l c d f t :
  rect t -> In c l -> keeps l t (setitem c d f t) (setitem_row c f t).
Proof.
  intros Hrect Hc. split; [apply rect_setitem, Hrect|]. split; [apply rows_setitem|].
  intros r c' Hr Hc'. rewrite get_setitem by assumption.
  destruct (String.eqb_spec c' c) as [->|_]; [contradiction|reflexivity].
Qed.

Lemma keeps_trans l a b c g1 g2 :
  keeps l a b g1 -> keeps l b c g2 -> keeps l a c (fun r => g2 (g1 r)).
Proof.
  intros [_ [Hrows1 Hget1]] [Hrect2 [Hrows2 Hget2]]. split; [exact Hrect2|]. split.
  - rewrite Hrows2, Hrows1, map_map. reflexivity.
  - intros r c' Hr Hc'. rewrite Hget2; [apply Hget1; assumption| |exact Hc'].
    rewrite Hrows1. apply in_map. exact Hr.
Qed.

Lemma keeps_cond l (b : bool) c d f a t g :
  In c l -> keeps l a t g ->
  exists g', keeps l a (if b then setitem c d f t else t) g'.
Proof.
  intros Hc Hk. destruct b; [|eauto].
  pose proof Hk as [Hrect _].
  eexists. eapply keeps_trans; [exact Hk|].
  apply keeps_setitem; [exact Hrect|exact Hc].
Qed.

Lemma has_column_cond (b : bool) c d f t c' :
  has_column c' (if b then setitem c d f t else t)
  = has_column c' t || (b && String.eqb c' c).
Proof.
  destruct b; [apply has_column_setitem|]. cbn. rewrite orb_false_r. reflexivity.
Qed.

Lemma feature_engineering_unfold (df : DataFrame) :
  feature_engineering df =
    let b := has_column "Order Date" df in
    let t0 := if b then setitem "OrderYear" number
                          (fun r => dt_year (get df "Order Date" r)) df else df in
    let t1 := if b then setitem "OrderMonth" datetime64
                          (fun r => dt_month_start (get t0 "Order Date" r)) t0 else t0 in
    let t2 := if issubset ["Order Date"; "Ship Date"] t1
              then setitem "ShipDelayDays" number
                     (fun r => sub_days (get t1 "Ship Date" r) (get t1 "Order Date" r)) t1
              else t1 in
    if issubset ["Sales"; "Profit"] t2
    then setitem "ProfitMargin" number
           (fun r => profit_margin (get t2 "Sales" r) (get t2 "Profit" r)) t2
    else t2.
Proof. unfold feature_engineering. destruct (has_column "Order Date" df); reflexivity. Qed.

(** The feature deriver changes only the columns it assigns. *)
Lemma feature_engineering_frame (df : DataFrame) :
  valid df = true ->
  (exists g, rows (feature_engineering df) = map g (rows df)
     /\ forall r c, In r (rows df) -> ~ In c derived_labels ->
          get (feature_engineering df) c (g r) = get df c r)
  /\ (forall c, has_column c (feature_engineering df) =
        has_column c df
        || (has_column "Order Date" df && mem c ["OrderYear"; "OrderMonth"])
        || (issubset ["Order Date"; "Ship Date"] df && String.eqb c "ShipDelayDays")
        || (issubset ["Sales"; "Profit"] df && String.eqb c "ProfitMargin")).
Proof.
  intros Hvalid. pose proof (valid_rect df Hvalid) as Hrect.
  rewrite feature_engineering_unfold. cbv zeta.
  set (b := has_column "Order Date" df).
  set (t0 := if b then setitem "OrderYear" _ _ df else df).
  set (t1 := if b then setitem "OrderMonth" _ _ t0 else t0).
  set (t2 := if issubset ["Order Date"; "Ship Date"] t1 then _ else t1).
  assert (H0 : forall c, has_column c t0 = has_column c df || (b && String.eqb c "OrderYear"))
    by (intros c; apply has_column_cond).
  assert (H1 : forall c, has_column c t1 = has_column c t0 || (b && String.eqb c "OrderMonth"))
    by (intros c; apply has_column_cond).
  assert (Hsub1 : issubset ["Order Date"; "Ship Date"] t1
                  = issubset ["Order Date"; "Ship Date"] df).
  { unfold issubset. cbn [forallb]. rewrite !H1, !H0. cbn. rewrite !andb_false_r, !orb_false_r.
    reflexivity. }
  assert (H2 : forall c, has_column c t2 =
                 has_column c t1
                 || (issubset ["Order Date"; "Ship Date"] df && String.eqb c "ShipDelayDays")).
  { intros c. rewrite <- Hsub1. apply has_column_cond. }
  assert (Hsub2 : issubset ["Sales"; "Profit"] t2 = issubset ["Sales"; "Profit"] df).
  { unfold issubset. cbn [forallb]. rewrite !H2, !H1, !H0. cbn.
    rewrite !andb_false_r, !orb_false_r. reflexivity. }
  split.
  - assert (K0 : keeps derived_labels df df (fun r => r)) by (apply keeps_refl, Hrect).
    destruct (keeps_cond derived_labels b "OrderYear" number
                (fun r => dt_year (get df "Order Date" r)) df df _
                ltac:(cbn; tauto) K0) as [g0 Kt0].
    destruct (keeps_cond derived_labels b "OrderMonth" datetime64
                (fun r => dt_month_start (get t0 "Order Date" r)) df t0 _
                ltac:(cbn; tauto) Kt0) as [g1 Kt1].
    destruct (keeps_cond derived_labels (issubset ["Order Date"; "Ship Date"] t1)
                "ShipDelayDays" number
                (fun r => sub_days (get t1 "Ship Date" r) (get t1 "Order Date" r)) df t1 _
                ltac:(cbn; tauto) Kt1) as [g2 Kt2].
    destruct (keeps_cond derived_labels (issubset ["Sales"; "Profit"] t2)
                "ProfitMargin" number
                (fun r => profit_margin (get t2 "Sales" r) (get t2 "Profit" r)) df t2 _
                ltac:(cbn; tauto) Kt2) as [g3 [_ [Hrows Hget]]].
    exists g3. split; [exact Hrows|exact Hget].
  - intros c. rewrite has_column_cond, Hsub2, H2, H1, H0.
    unfold mem. cbn [existsb]. fold b.
    destruct (has_column c df), b, (String.eqb c "OrderYear"),
      (String.eqb c "OrderMonth"); reflexivity.
Qed.

(** X3.  The feature deriver changes no row apart from the four columns it
    assigns: every other column reads in the new row as in the old.  The
    table gets OrderYear and OrderMonth when it has Order Date,
    ShipDelayDays when it has Order Date and Ship Date, and ProfitMargin
    when it has Sales and Profit; otherwise it gets no column. *)
Theorem feature_engineering_keeps (df : DataFrame) :
  valid df = true ->
  (exists g, rows (feature_engineering df) = map g (rows df)
     /\ forall r c, In r (rows df) -> ~ In c derived_labels ->
          get (feature_engineering df) c (g r) = get df c r)
  /\ (forall c, has_column c (feature_engineering df) =
        has_column c df
        || (has_column "Order Date" df && mem c ["OrderYear"; "OrderMonth"])
        || (issubset ["Order Date"; "Ship Date"] df && String.eqb c "ShipDelayDays")
        || (issubset ["Sales"; "Profit"] df && String.eqb c "ProfitMargin")).
Proof. exact (feature_engineering_frame df). Qed.

Lemma feature_engineering_keeps_witness :
  valid Scenario.clean = true
  /\ has_column "ShipDelayDays" (feature_engineering Scenario.clean) = true.
Proof.
  split; [reflexivity|].
  destruct (feature_engineering_keeps Scenario.clean eq_refl) as [_ Hcols].
  rewrite Hcols. reflexivity.
Defined.

(** ** What the cleaner returns *)

Lemma fresh_later (seen l : list row) (i j : nat) (r1 r2 : row) :
  fresh seen l -> (i < j)%nat -> l !! i = Some r1 -> l !! j = Some r2 ->
  row_eqb r2 r1 = false.
Proof.
  revert seen i j. induction l as [|x l IH]; intros seen i j Hfresh Hij H1 H2;
    [discriminate|].
  destruct Hfresh as [_ Hl]. destruct j as [|j]; [lia|].
  destruct i as [|i]; cbn in H1, H2.
  - injection H1 as ->. clear IH Hij.
    assert (Hex : forall seen', fresh seen' l ->
              existsb (row_eqb r2) seen' = false).
    { revert j H2. clear Hl. induction l as [|y l IHl]; intros j H2 seen' Hf;
        [discriminate|].
      destruct Hf as [Hy Hf]. destruct j as [|j]; cbn in H2.
      - injection H2 as ->. exact Hy.
      - specialize (IHl j H2 _ Hf). cbn in IHl.
        apply orb_false_elim in IHl as [_ IHl]. exact IHl. }
    specialize (Hex _ Hl). cbn in Hex. apply orb_false_elim in Hex as [Hex _]. exact Hex.
  - eapply (IH (x :: seen) i j); [exact Hl|lia|exact H1|exact H2].
Qed.

Lemma drop_dups_length (seen l : list row) : (length (drop_dups seen l) <= length l)%nat.
Proof.
  revert seen. induction l as [|r l IH]; intros seen; cbn; [lia|].
  destruct (existsb (row_eqb r) seen); cbn; [specialize (IH seen)|specialize (IH (r :: seen))];
    lia.
Qed.

Section CleanerOutput.
Context `{Pandas}.

Lemma basic_clean_rows_filter (df : DataFrame) :
  rows (basic_clean df) =
    List.filter
      (fun r => forallb (fun c => negb (has_column c (basic_clean df))
                                  || negb (isna (get (basic_clean df) c r)))
                  essential_labels)
      (drop_dups [] (rows (coerce df))).
Proof.
  rewrite basic_clean_steps at 1.
  rewrite (drop_missing_essential_same_header (basic_clean df)).
  - reflexivity.
  - rewrite basic_clean_header. reflexivity.
Qed.

(** The rows the cleaner returns. *)
Lemma basic_clean_rows_kept (df : DataFrame) :
  valid df = true ->
  (nrows (basic_clean df) <= nrows df)%nat
  /\ (forall i j r1 r2, (i < j)%nat ->
        rows (basic_clean df) !! i = Some r1 ->
        rows (basic_clean df) !! j = Some r2 -> row_eqb r2 r1 = false)
  /\ (forall r c, In r (rows (basic_clean df)) -> In c essential_labels ->
        has_column c (basic_clean df) = true ->
        isna (get (basic_clean df) c r) = false).
Proof.
  intros _. split; [|split].
  - unfold nrows. rewrite basic_clean_rows_filter.
    etransitivity; [apply filter_length_le|].
    etransitivity; [apply drop_dups_length|].
    rewrite coerce_columns. cbn [apply_columns rows]. rewrite length_map. reflexivity.
  - intros i j r1 r2 Hij H1 H2.
    eapply fresh_later; [apply basic_clean_fresh|exact Hij|exact H1|exact H2].
  - intros r c Hr Hc Hhas. rewrite basic_clean_rows_filter in Hr.
    apply filter_In in Hr as [_ Hr]. rewrite forallb_forall in Hr.
    specialize (Hr c Hc). rewrite Hhas in Hr. cbn in Hr.
    apply negb_true_iff in Hr. exact Hr.
Qed.

(** X4.  The cleaned table has at most as many rows as the raw one; no two
    of its rows are equal; and none of its rows lacks a value in Order
    Date, Sales or Profit, whichever of the three the table has. *)
Theorem basic_clean_rows (df : DataFrame) :
  valid df = true ->
  (nrows (basic_clean df) <= nrows df)%nat
  /\ (forall i j r1 r2, (i < j)%nat ->
        rows (basic_clean df) !! i = Some r1 ->
        rows (basic_clean df) !! j = Some r2 -> row_eqb r2 r1 = false)
  /\ (forall r c, In r (rows (basic_clean df)) -> In c essential_labels ->
        has_column c (basic_clean df) = true ->
        isna (get (basic_clean df) c r) = false).
Proof. exact (basic_clean_rows_kept df). Qed.

End CleanerOutput.

Lemma basic_clean_rows_witness :
  valid Scenario.messy = true
  /\ (nrows (@basic_clean Scenario.iso_pandas Scenario.messy) <= 5)%nat.
Proof.
  split; [reflexivity|].
  destruct (@basic_clean_rows Scenario.iso_pandas Scenario.messy eq_refl) as [Hlen _].
  exact Hlen.
Defined.

Lemma cell_eqb_refl (c : cell) : cell_eqb c c = true.
Proof.
  destruct c as [|x|s|t|i]; cbn; [reflexivity| | | |].
  - apply Qeq_bool_iff. reflexivity.
  - apply String.eqb_refl.
  - apply Z.eqb_refl.
  - destruct i; reflexivity.
Qed.

Lemma row_eqb_refl (r : row) : row_eqb r r = true.
Proof. induction r as [|c r IH]; cbn; [reflexivity|]. rewrite cell_eqb_refl. exact IH. Qed.

Lemma row_eqb_isna (r1 r2 : row) (i : nat) :
  row_eqb r1 r2 = true -> isna (nth i r1 NaN) = isna (nth i r2 NaN).
Proof.
  revert r2 i. induction r1 as [|a r1 IH]; intros [|b r2] i; cbn; try discriminate;
    [reflexivity|].
  intros Heq. apply andb_prop in Heq as [Hab Heq].
  destruct i as [|i]; [|apply IH; exact Heq].
  destruct a, b; cbn in *; congruence.
Qed.

Lemma row_eqb_get_isna (t : DataFrame) (c : string) (r1 r2 : row) :
  row_eqb r1 r2 = true -> isna (get t c r1) = isna (get t c r2).
Proof.
  intros Heq. unfold get. destruct (index_of c (columns t)); [|reflexivity].
  apply row_eqb_isna. exact Heq.
Qed.

Lemma drop_dups_complete (seen l : list row) (x : row) :
  In x l ->
  existsb (row_eqb x) seen = true
  \/ exists y, In y (drop_dups seen l) /\ row_eqb x y = true.
Proof.
  revert seen. induction l as [|r l IH]; intros seen Hx; [contradiction|]. cbn.
  destruct (existsb (row_eqb r) seen) eqn:Hr.
  - destruct Hx as [->|Hx]; [left; exact Hr|apply IH; exact Hx].
  - destruct Hx as [->|Hx].
    + right. exists x. split; [left; reflexivity|apply row_eqb_refl].
    + destruct (IH (r :: seen) Hx) as [Hseen|[y [Hy Hxy]]].
      * cbn in Hseen. apply orb_prop in Hseen as [Hxr|Hseen]; [|left; exact Hseen].
        right. exists r. split; [left; reflexivity|exact Hxr].
      * right. exists y. split; [right; exact Hy|exact Hxy].
Qed.

Section CleanerComplete.
Context `{Pandas}.

(** X5.  The cleaner loses no order but a repeated one or one without an
    essential field: every row of the coerced table that has a value in each
    of Order Date, Sales and Profit the table has, is equal to a row of the
    cleaned table. *)
Theorem basic_clean_complete (df : DataFrame) (r : row) :
  valid df = true ->
  In r (rows (coerce df)) ->
  (forall c, In c essential_labels -> has_column c (basic_clean df) = true ->
     isna (get (basic_clean df) c r) = false) ->
  exists r', In r' (rows (basic_clean df)) /\ row_eqb r r' = true.
Proof.
  intros _ Hr Hess.
  destruct (drop_dups_complete [] _ r Hr) as [Hseen|[y [Hy Hry]]]; [discriminate|].
  exists y. split; [|exact Hry].
  rewrite basic_clean_rows_filter. apply filter_In. split; [exact Hy|].
  apply forallb_forall. intros c Hc.
  destruct (has_column c (basic_clean df)) eqn:Hhas; [|reflexivity]. cbn.
  specialize (Hess c Hc Hhas).
  rewrite <- (row_eqb_get_isna _ c r y Hry), Hess. reflexivity.
Qed.

End CleanerComplete.

Lemma basic_clean_complete_witness :
  valid Scenario.messy = true
  /\ exists r', In r' (rows (@basic_clean Scenario.iso_pandas Scenario.messy))
       /\ row_eqb [Ts 1672876800000000000; Num 100; Str "Tech"] r' = true.
Proof.
  split; [reflexivity|].
  apply (@basic_clean_complete Scenario.iso_pandas Scenario.messy
           [Ts 1672876800000000000; Num 100; Str "Tech"] eq_refl).
  - vm_compute. right. left. reflexivity.
  - intros c Hc Hhas. cbn in Hc.
    repeat (destruct Hc as [<-|Hc];
            [vm_compute in Hhas |- *; first [reflexivity|discriminate Hhas]|]).
    contradiction.
Defined.

(** ** Groups *)

Lemma cell_eqb_sym (a b : cell) : cell_eqb a b = cell_eqb b a.
Proof.
  destruct a as [|x|s|m|i], b as [|y|t|n|j]; cbn; try reflexivity;
    try (destruct i, j; reflexivity).
  - destruct (Qeq_bool x y) eqn:Hxy, (Qeq_bool y x) eqn:Hyx; try reflexivity.
    + apply Qeq_bool_iff in Hxy. symmetry in Hxy. apply Qeq_bool_iff in Hxy. congruence.
    + apply Qeq_bool_iff in Hyx. symmetry in Hyx. apply Qeq_bool_iff in Hyx. congruence.
  - apply String.eqb_sym.
  - apply Z.eqb_sym.
Qed.

Lemma cell_eqb_trans (a b c : cell) :
  cell_eqb a b = true -> cell_eqb b c = true -> cell_eqb a c = true.
Proof.
  destruct a as [|x|s|m|i], b as [|y|t|n|j], c as [|z|u|k|l]; cbn; try congruence;
    try (destruct i, j, l; cbn; congruence).
  - rewrite !Qeq_bool_iff. intros Hxy Hyz. rewrite Hxy. exact Hyz.
  - rewrite !String.eqb_eq. congruence.
  - rewrite !Z.eqb_eq. congruence.
Qed.

Lemma existsb_cell_eqb_trans (x y : cell) (l : list cell) :
  cell_eqb x y = true -> existsb (cell_eqb y) l = true -> existsb (cell_eqb x) l = true.
Proof.
  intros Hxy Hy. apply existsb_exists in Hy as [z [Hz Hyz]].
  apply existsb_exists. exists z. split; [exact Hz|].
  eapply cell_eqb_trans; eassumption.
Qed.

(** Each value is met once among the distinct values of a list, unless it
    has been seen before or does not occur. *)
Lemma uniques_count (seen l : list cell) (x : cell) :
  count_eqb x (uniques seen l) =
    if existsb (cell_eqb x) seen then 0%nat
    else if existsb (cell_eqb x) l then 1%nat else 0%nat.
Proof.
  unfold count_eqb. revert seen. induction l as [|k l IH]; intros seen.
  - cbn. destruct (existsb _ seen); reflexivity.
  - cbn [uniques existsb]. destruct (existsb (cell_eqb k) seen) eqn:Hk.
    + rewrite IH. destruct (existsb (cell_eqb x) seen) eqn:Hx; [reflexivity|].
      destruct (cell_eqb x k) eqn:Hxk; [|reflexivity].
      rewrite (existsb_cell_eqb_trans x k seen Hxk Hk) in Hx. discriminate.
    + cbn [List.filter]. destruct (cell_eqb x k) eqn:Hxk; cbn [length];
        rewrite IH; cbn [existsb]; rewrite Hxk; cbn [orb].
      * destruct (existsb (cell_eqb x) seen) eqn:Hx; [|reflexivity].
        rewrite cell_eqb_sym in Hxk.
        rewrite (existsb_cell_eqb_trans k x seen Hxk Hx) in Hk. discriminate.
      * destruct (existsb (cell_eqb x) seen); reflexivity.
Qed.

Lemma uniques_In (seen l : list cell) (k : cell) : In k (uniques seen l) -> In k l.
Proof.
  revert seen. induction l as [|y l IH]; intros seen; cbn; [tauto|].
  destruct (existsb (cell_eqb y) seen); [intros Hk; right; eapply IH; exact Hk|].
  intros [->|Hk]; [left; reflexivity|right; eapply IH; exact Hk].
Qed.

Lemma Permutation_filter_length {A} (p : A -> bool) (l l' : list A) :
  Permutation l l' -> length (List.filter p l) = length (List.filter p l').
Proof.
  induction 1 as [|x l l' _ IH|x y l|l l' l'' _ IH1 _ IH2]; cbn.
  - reflexivity.
  - destruct (p x); cbn; congruence.
  - destruct (p x), (p y); reflexivity.
  - congruence.
Qed.

Lemma existsb_filter_notna (x : cell) (l : list cell) :
  isna x = false ->
  existsb (cell_eqb x) (List.filter (fun k => negb (isna k)) l) = existsb (cell_eqb x) l.
Proof.
  intros Hx. induction l as [|k l IH]; cbn; [reflexivity|].
  destruct k as [|y|s|t|i]; cbn; rewrite IH; [|reflexivity..].
  destruct x; cbn in *; congruence.
Qed.

Lemma existsb_filter_notna_nan (l : list cell) :
  existsb (cell_eqb NaN) (List.filter (fun k => negb (isna k)) l) = false.
Proof.
  induction l as [|k l IH]; cbn; [reflexivity|]. destruct k; cbn; exact IH.
Qed.

(** A value of the grouping column is met once among the group keys, a
    missing value not at all. *)
Lemma group_keys_count (df : DataFrame) (c : string) (r : row) :
  In r (rows df) ->
  count_eqb (get df c r) (group_keys df c) = if isna (get df c r) then 0%nat else 1%nat.
Proof.
  intros Hr. unfold group_keys, count_eqb.
  rewrite <- (Permutation_filter_length _ _ _ (sort_by_perm cell_leb _)).
  fold (count_eqb (get df c r)
          (uniques [] (List.filter (fun k => negb (isna k)) (column_values df c)))).
  rewrite uniques_count. cbn [existsb].
  destruct (isna (get df c r)) eqn:Hna.
  - destruct (get df c r); try discriminate. rewrite existsb_filter_notna_nan. reflexivity.
  - rewrite existsb_filter_notna by exact Hna.
    assert (Hex : existsb (cell_eqb (get df c r)) (column_values df c) = true).
    { apply existsb_exists. exists (get df c r). split; [|apply cell_eqb_refl].
      unfold column_values. apply in_map. exact Hr. }
    rewrite Hex. reflexivity.
Qed.

Lemma aggr_perm (df : DataFrame) (c : string) :
  Permutation (map (fun k => assign_margin k (sum_group df c k)) (group_keys df c))
              (aggr df c).
Proof. unfold aggr, sort_values_sales_desc. apply sort_by_perm. Qed.

(** X6.  In a group table every row of the data with a value in the
    grouping column belongs to exactly one group row, and a row without one
    to none; every group row has the key of some row of the data, the sum of
    the Sales and the sum of the Profit of the rows with that key. *)
Theorem aggr_groups (df : DataFrame) (c : string) :
  cleaned df = true ->
  (forall r, In r (rows df) ->
     length (List.filter (fun g => cell_eqb (get df c r) (key g)) (aggr df c))
     = if isna (get df c r) then 0%nat else 1%nat)
  /\ (forall g, In g (aggr df c) ->
        (exists r, In r (rows df) /\ get df c r = key g /\ isna (key g) = false)
        /\ Sales g = Num (sum_cells (map (get df "Sales") (group_rows df c (key g))))
        /\ Profit g = Num (sum_cells (map (get df "Profit") (group_rows df c (key g)))))
  /\ length (aggr df c) = length (group_keys df c).
Proof.
  intros _. split; [|split].
  - intros r Hr.
    rewrite <- (Permutation_filter_length _ _ _ (aggr_perm df c)).
    rewrite <- (group_keys_count df c r Hr). unfold count_eqb.
    induction (group_keys df c) as [|k l IH]; cbn; [reflexivity|].
    destruct (cell_eqb (get df c r) k); cbn; rewrite IH; reflexivity.
  - intros g Hg. apply (Permutation_in _ (Permutation_sym (aggr_perm df c))) in Hg.
    apply in_map_iff in Hg as [k [<- Hk]]. cbn. split; [|split; reflexivity].
    unfold group_keys in Hk. apply In_sort_by, uniques_In, filter_In in Hk as [Hk Hna].
    unfold column_values in Hk. apply in_map_iff in Hk as [r [<- Hr]].
    exists r. split; [exact Hr|]. split; [reflexivity|].
    apply negb_true_iff. exact Hna.
  - rewrite <- (Permutation_length (aggr_perm df c)). apply length_map.
Qed.

Lemma aggr_groups_witness :
  cleaned Scenario.orders = true
  /\ length (aggr Scenario.orders "Category") = 3%nat.
Proof.
  split; [reflexivity|].
  destruct (aggr_groups Scenario.orders "Category" eq_refl) as [_ [_ Hlen]].
  rewrite Hlen. reflexivity.
Defined.

(** ** The monthly series *)

Lemma group_keys_count_le (df : DataFrame) (c : string) (x : cell) :
  (count_eqb x (group_keys df c) <= 1)%nat.
Proof.
  unfold group_keys, count_eqb.
  rewrite <- (Permutation_filter_length _ _ _ (sort_by_perm cell_leb _)).
  fold (count_eqb x (uniques [] (List.filter (fun k => negb (isna k)) (column_values df c)))).
  rewrite uniques_count. cbn [existsb]. destruct (existsb _ _); lia.
Qed.

Lemma group_keys_notna (df : DataFrame) (c : string) (k : cell) :
  In k (group_keys df c) -> isna k = false.
Proof.
  unfold group_keys. intros Hk. apply In_sort_by, uniques_In, filter_In in Hk as [_ Hk].
  apply negb_true_iff. exact Hk.
Qed.

Lemma filter_two {A} (p : A -> bool) (l : list A) (i j : nat) (a b : A) :
  (i < j)%nat -> l !! i = Some a -> l !! j = Some b -> p a = true -> p b = true ->
  (2 <= length (List.filter p l))%nat.
Proof.
  revert i j. induction l as [|x l IH]; intros i j Hij Ha Hb Hpa Hpb; [discriminate|].
  destruct j as [|j]; [lia|]. cbn in Hb. destruct i as [|i]; cbn in Ha.
  - injection Ha as ->. cbn. rewrite Hpa. cbn.
    assert (Hin : In b (List.filter p l)).
    { apply filter_In. split; [|exact Hpb].
      apply list_elem_of_In. eapply list_elem_of_lookup_2. exact Hb. }
    destruct (List.filter p l); [contradiction|cbn; lia].
  - cbn. specialize (IH i j ltac:(lia) Ha Hb Hpa Hpb).
    destruct (p x); cbn; lia.
Qed.

Lemma filter_first_map (p : cell -> bool) (f : cell -> cell) (l : list cell) :
  length (List.filter (fun r => p (nth 0 r NaN)) (map (fun k => [k; f k]) l))
  = length (List.filter p l).
Proof.
  induction l as [|k l IH]; cbn; [reflexivity|].
  destruct (p k); cbn; rewrite IH; reflexivity.
Qed.

Lemma monthly_rows_perm (df : DataFrame) :
  Permutation
    (map (fun k => [k; Num (group_sum (get df "OrderMonth") (get df "Sales") (rows df) k)])
         (group_keys df "OrderMonth"))
    (rows (monthly_sales_table df)).
Proof. unfold monthly_sales_table. cbn [rows]. apply sort_by_perm. Qed.

(** X8.  The monthly series exists exactly when the table has OrderMonth and
    Sales.  It has one row for each month that occurs, holding the month and
    the sum of the Sales of that month's rows, and its months increase
    strictly from each row to the next. *)
Theorem monthly_sales_sorted (df : DataFrame) :
  cleaned df = true ->
  ((aggregates df).1.2 = None <-> issubset ["OrderMonth"; "Sales"] df = false)
  /\ (forall t, (aggregates df).1.2 = Some t ->
      columns t = ["OrderMonth"; "Sales"]
      /\ nrows t = length (group_keys df "OrderMonth")
      /\ (forall r, In r (rows t) ->
            exists k, isna k = false /\ In k (column_values df "OrderMonth")
              /\ r = [k; Num (group_sum (get df "OrderMonth") (get df "Sales")
                                        (rows df) k)])
      /\ (forall i r1 r2, rows t !! i = Some r1 -> rows t !! S i = Some r2 ->
            cell_leb (nth 0 r1 NaN) (nth 0 r2 NaN) = true
            /\ cell_eqb (nth 0 r1 NaN) (nth 0 r2 NaN) = false)).
Proof.
  intros _. unfold aggregates. cbn [fst snd].
  destruct (issubset ["OrderMonth"; "Sales"] df).
  2:{ split; [tauto|]. intros t Ht. discriminate. }
  split; [split; discriminate|]. intros t [= <-].
  pose proof (monthly_rows_perm df) as Hperm.
  split; [reflexivity|]. split; [|split].
  - unfold nrows. rewrite <- (Permutation_length Hperm). apply length_map.
  - intros r Hr. apply (Permutation_in _ (Permutation_sym Hperm)) in Hr.
    apply in_map_iff in Hr as [k [<- Hk]]. exists k.
    split; [eapply group_keys_notna; exact Hk|]. split; [|reflexivity].
    unfold group_keys in Hk. apply In_sort_by, uniques_In, filter_In in Hk as [Hk _].
    exact Hk.
  - intros i r1 r2 H1 H2.
    assert (Hsorted : StronglySorted (fun a b => month_key_leb a b = true)
                        (rows (monthly_sales_table df))).
    { unfold monthly_sales_table. cbn [rows]. apply (sort_by_sorted month_key_leb).
      - intros x y. apply cell_leb_total.
      - intros x y z. apply cell_leb_trans. }
    split.
    { apply (StronglySorted_neighbours _ _ Hsorted i r1 r2 H1 H2). }
    destruct (cell_eqb (nth 0 r1 NaN) (nth 0 r2 NaN)) eqn:Heq; [|reflexivity].
    exfalso.
    pose proof (filter_two (fun r => cell_eqb (nth 0 r1 NaN) (nth 0 r NaN))
                  _ i (S i) r1 r2 ltac:(lia) H1 H2 (cell_eqb_refl _) Heq) as Htwo.
    rewrite <- (Permutation_filter_length _ _ _ Hperm) in Htwo.
    pose proof (group_keys_count_le df "OrderMonth" (nth 0 r1 NaN)) as Hle.
    unfold count_eqb in Hle.
    assert (Hsame : length (List.filter (fun r => cell_eqb (nth 0 r1 NaN) (nth 0 r NaN))
                      (map (fun k => [k; Num (group_sum (get df "OrderMonth")
                                                (get df "Sales") (rows df) k)])
                           (group_keys df "OrderMonth")))
                    = length (List.filter (cell_eqb (nth 0 r1 NaN))
                                (group_keys df "OrderMonth"))).
    { apply filter_first_map. }
    lia.
Qed.

Lemma monthly_sales_sorted_witness :
  cleaned (feature_engineering Scenario.clean) = true
  /\ exists t, (aggregates (feature_engineering Scenario.clean)).1.2 = Some t
               /\ nrows t = 1%nat.
Proof.
  assert (Hclean : cleaned (feature_engineering Scenario.clean) = true)
    by (vm_compute; reflexivity).
  split; [exact Hclean|].
  destruct (monthly_sales_sorted _ Hclean) as [_ Hsome].
  exists (monthly_sales_table (feature_engineering Scenario.clean)).
  split; [vm_compute; reflexivity|].
  destruct (Hsome (monthly_sales_table (feature_engineering Scenario.clean))) as [_ [Hn _]];
    [vm_compute; reflexivity|].
  rewrite Hn. vm_compute. reflexivity.
Defined.

(** ** The KPI dict as a whole *)






(** ** The data dictionary *)

Lemma distinct_index_of (f : string -> string) (l : list string) (i : nat) (x : string) :
  distinct (map f l) = true -> l !! i = Some x -> index_of x l = Some i.
Proof.
  revert i. induction l as [|y l IH]; intros i Hd Hi; [discriminate|].
  cbn in Hd. apply andb_prop in Hd as [Hy Hd]. apply negb_true_iff in Hy.
  destruct i as [|i]; cbn in Hi.
  - injection Hi as ->. cbn. rewrite String.eqb_refl. reflexivity.
  - cbn. destruct (String.eqb_spec x y) as [->|_].
    + exfalso. apply mem_false_iff in Hy. apply Hy. apply in_map.
      apply list_elem_of_In. eapply list_elem_of_lookup_2. exact Hi.
    + rewrite (IH i Hd Hi). reflexivity.
Qed.

Lemma find_first {A} (p : A -> bool) (l : list A) (v : A) :
  List.find p l = Some v ->
  p v = true /\ exists l1 l2, l = (l1 ++ v :: l2)%list /\ forall x, In x l1 -> p x = false.
Proof.
  induction l as [|a l IH]; cbn; [discriminate|].
  destruct (p a) eqn:Ha.
  - intros [= ->]. split; [exact Ha|]. exists [], l. split; [reflexivity|]. contradiction.
  - intros Hf. destruct (IH Hf) as [Hv [l1 [l2 [-> Hl1]]]]. split; [exact Hv|].
    exists (a :: l1), l2. split; [reflexivity|].
    intros x [<-|Hx]; [exact Ha|apply Hl1; exact Hx].
Qed.

Lemma find_none_iff {A} (p : A -> bool) (l : list A) :
  List.find p l = None <-> length (List.filter (fun x => negb (p x)) l) = length l.
Proof.
  induction l as [|a l IH]; cbn; [tauto|].
  destruct (p a); cbn.
  - split; [discriminate|]. intros Hlen.
    pose proof (filter_length_le (fun x => negb (p x)) l). lia.
  - rewrite IH. split; intros Hlen; lia.
Qed.

Lemma valid_column_values (df : DataFrame) (i : nat) (h : string * dtype) :
  valid df = true -> header df !! i = Some h ->
  column_values df (fst h) = map (fun r => nth i r NaN) (rows df).
Proof.
  intros Hvalid Hh. unfold valid in Hvalid. apply andb_prop in Hvalid as [_ Hd].
  unfold column_values, get.
  rewrite (distinct_index_of Text.strip (columns df) i (fst h) Hd); [reflexivity|].
  unfold columns. rewrite list_lookup_fmap, Hh. reflexivity.
Qed.

(** X10.  The data dictionary has one entry per column, in the order of the
    columns, with the column's label and dtype.  An entry's count of missing
    values is the number of missing values of its column and is at most the
    number of rows; its sample is absent exactly when the whole column is
    missing, and otherwise it is the first value of the column that is not
    missing. *)
Theorem data_dict_entries (df : DataFrame) :
  valid df = true ->
  map dd_column (data_dict df) = columns df
  /\ map dd_dtype (data_dict df) = map snd (header df)
  /\ (forall e, In e (data_dict df) ->
        n_missing e = length (List.filter isna (column_values df (dd_column e)))
        /\ (n_missing e <= nrows df)%nat
        /\ (sample_value e = None <-> n_missing e = nrows df)
        /\ (forall v, sample_value e = Some v ->
              isna v = false
              /\ exists l1 l2, column_values df (dd_column e) = (l1 ++ v :: l2)%list
                   /\ forall x, In x l1 -> isna x = true)).
Proof.
  intros Hvalid. split; [|split].
  - apply list_eq. intros i. unfold data_dict, columns.
    rewrite !list_lookup_fmap, list_lookup_imap.
    destruct (header df !! i); reflexivity.
  - apply list_eq. intros i. unfold data_dict.
    rewrite !list_lookup_fmap, list_lookup_imap.
    destruct (header df !! i); reflexivity.
  - intros e He. destruct (data_dict_entry df e He) as [i [h [Hh [Hc [_ [Hn Hs]]]]]].
    rewrite Hc, Hn, Hs.
    assert (Hcol : count_missing df i = length (List.filter isna (column_values df (fst h)))).
    { rewrite (valid_column_values df i h Hvalid Hh). unfold count_missing.
      induction (rows df) as [|r l IH]; cbn; [reflexivity|].
      destruct (isna (nth i r NaN)); cbn; rewrite IH; reflexivity. }
    assert (Hlen : length (column_values df (fst h)) = nrows df)
      by (unfold column_values; apply length_map).
    split; [exact Hcol|]. split; [|split].
    + rewrite Hcol, <- Hlen. apply filter_length_le.
    + unfold first_valid. rewrite find_none_iff, Hcol, <- Hlen.
      assert (Hext : List.filter (fun x => negb (negb (isna x))) (column_values df (fst h))
                     = List.filter isna (column_values df (fst h))).
      { apply filter_ext. intros x. apply negb_involutive. }
      rewrite Hext. reflexivity.
    + intros v Hv. unfold first_valid in Hv. apply find_first in Hv as [Hv [l1 [l2 [Hl Hl1]]]].
      split; [apply negb_true_iff; exact Hv|]. exists l1, l2. split; [exact Hl|].
      intros x Hx. specialize (Hl1 x Hx). apply negb_false_iff. exact Hl1.
Qed.

Lemma data_dict_entries_witness :
  valid Scenario.orders = true
  /\ map dd_column (data_dict Scenario.orders)
     = ["Category"; "Product Name"; "Sales"; "Profit"].
Proof.
  split; [reflexivity|].
  destruct (data_dict_entries Scenario.orders eq_refl) as [Hcols _].
  rewrite Hcols. reflexivity.
Defined.

(** ** The loader's calls *)

(** X11.  Whatever the file system, the loader first tests that the path
    exists and then calls a reader at most twice, always on that path; it
    calls none when the path does not exist, only [read_csv] (once) for a
    suffix that lower-cases to .csv, whose outcome is then the loader's, and
    never [read_csv] for another suffix. *)
Theorem load_data_calls (w : World) (path : string) :
  exists reads,
    fst (load_data path w) = EvExists path :: reads
    /\ (length reads <= 2)%nat
    /\ (forall e, In e reads ->
          e = EvReadCsv path \/ exists sheet, e = EvReadExcel path sheet)
    /\ (path_exists w path = false -> reads = [])
    /\ (path_exists w path = true ->
        Text.lower (path_suffix w path) = ".csv" ->
        reads = [EvReadCsv path] /\ snd (load_data path w) = read_csv w path)
    /\ (Text.lower (path_suffix w path) <> ".csv" -> ~ In (EvReadCsv path) reads).
Proof.
  destruct (path_exists w path) eqn:Hex.
  - rewrite load_data_found by exact Hex. cbn zeta.
    destruct (String.eqb_spec (Text.lower (path_suffix w path)) ".csv") as [Hcsv|Hcsv].
    + exists [EvReadCsv path]. cbn. repeat split; try lia; try discriminate; try tauto.
      intros ev [<-|[]]. left. reflexivity.
    + destruct (mem (Text.lower (path_suffix w path)) [".xlsx"; ".xls"]).
      * destruct (read_excel w path (Some "Orders")) as [err|tbl].
        -- exists [EvReadExcel path (Some "Orders"); EvReadExcel path None]. cbn.
           repeat split; try lia; try discriminate; try tauto.
           ++ intros ev [<-|[<-|[]]]; right; eauto.
           ++ intros _ [Hin|[Hin|[]]]; discriminate.
        -- exists [EvReadExcel path (Some "Orders")]. cbn.
           repeat split; try lia; try discriminate; try tauto.
           ++ intros ev [<-|[]]; right; eauto.
           ++ intros _ [Hin|[]]; discriminate.
      * exists []. cbn. repeat split; try lia; try discriminate; try tauto.
  - rewrite load_data_missing by exact Hex. exists []. cbn.
    repeat split; try lia; try discriminate; try tauto.
Qed.

Lemma load_data_calls_witness :
  load_data "data/orders.csv" Scenario.world =
    ([EvExists "data/orders.csv"; EvReadCsv "data/orders.csv"], inr Scenario.raw).
Proof.
  destruct (load_data_calls Scenario.world "data/orders.csv")
    as [reads [Hfst [_ [_ [_ [Hcsv _]]]]]].
  destruct (Hcsv eq_refl eq_refl) as [Hreads Hsnd].
  rewrite Hreads in Hfst.
  rewrite (surjective_pairing (load_data "data/orders.csv" Scenario.world)).
  rewrite Hfst, Hsnd. reflexivity.
Defined.

(** ** The date features *)

Lemma assign_if_spec (b : bool) c d f t :
  rect t ->
  rect (assign_if b c d f t)
  /\ rows (assign_if b c d f t) = map (assign_if_row b c f t) (rows t)
  /\ (forall r c', In r (rows t) ->
        get (assign_if b c d f t) c' (assign_if_row b c f t r)
        = if b && String.eqb c' c then f r else get t c' r)
  /\ (forall c', has_column c' (assign_if b c d f t)
                 = has_column c' t || (b && String.eqb c' c)).
Proof.
  intros Hrect. unfold assign_if, assign_if_row. destruct b; cbn [andb].
  - split; [apply rect_setitem, Hrect|]. split; [apply rows_setitem|].
    split; [intros r c' Hr; apply get_setitem; assumption|].
    intros c'. apply has_column_setitem.
  - split; [exact Hrect|]. split; [symmetry; apply map_id|].
    split; [reflexivity|]. intros c'. rewrite orb_false_r. reflexivity.
Qed.

(** Each derived column, read in a row of the derived table, is computed
    from the columns of that same row. *)
Lemma feature_engineering_columns (df : DataFrame) (r' : row) :
  valid df = true ->
  In r' (rows (feature_engineering df)) ->
  let fe := feature_engineering df in
  (exists r, In r (rows df)
     /\ get fe "Order Date" r' = get df "Order Date" r
     /\ get fe "Ship Date" r' = get df "Ship Date" r)
  /\ (has_column "Order Date" df = true ->
      get fe "OrderYear" r' = dt_year (get fe "Order Date" r')
      /\ get fe "OrderMonth" r' = dt_month_start (get fe "Order Date" r'))
  /\ (issubset ["Order Date"; "Ship Date"] df = true ->
      get fe "ShipDelayDays" r'
      = sub_days (get fe "Ship Date" r') (get fe "Order Date" r')).
Proof.
  intros Hvalid Hr'. pose proof (valid_rect df Hvalid) as Hrect. cbv zeta.
  pose (b := has_column "Order Date" df).
  pose (t0 := assign_if b "OrderYear" number
                (fun r => dt_year (get df "Order Date" r)) df).
  pose (t1 := assign_if b "OrderMonth" datetime64
                (fun r => dt_month_start (get t0 "Order Date" r)) t0).
  pose (b2 := issubset ["Order Date"; "Ship Date"] t1).
  pose (t2 := assign_if b2 "ShipDelayDays" number
                (fun r => sub_days (get t1 "Ship Date" r) (get t1 "Order Date" r)) t1).
  pose (b3 := issubset ["Sales"; "Profit"] t2).
  pose (t3 := assign_if b3 "ProfitMargin" number
                (fun r => profit_margin (get t2 "Sales" r) (get t2 "Profit" r)) t2).
  assert (Hfe : feature_engineering df = t3)
    by (rewrite feature_engineering_unfold; reflexivity).
  rewrite Hfe in *. clear Hfe.
  destruct (assign_if_spec b "OrderYear" number
              (fun r => dt_year (get df "Order Date" r)) df Hrect)
    as [R0 [Rows0 [G0 C0]]]. fold t0 in R0, Rows0, G0, C0.
  destruct (assign_if_spec b "OrderMonth" datetime64
              (fun r => dt_month_start (get t0 "Order Date" r)) t0 R0)
    as [R1 [Rows1 [G1 C1]]]. fold t1 in R1, Rows1, G1, C1.
  destruct (assign_if_spec b2 "ShipDelayDays" number
              (fun r => sub_days (get t1 "Ship Date" r) (get t1 "Order Date" r)) t1 R1)
    as [R2 [Rows2 [G2 C2]]]. fold t2 in R2, Rows2, G2, C2.
  destruct (assign_if_spec b3 "ProfitMargin" number
              (fun r => profit_margin (get t2 "Sales" r) (get t2 "Profit" r)) t2 R2)
    as [R3 [Rows3 [G3 C3]]]. fold t3 in R3, Rows3, G3, C3.
  rewrite Rows3 in Hr'. apply in_map_iff in Hr' as [r2 [<- Hr2]].
  pose proof Hr2 as Hr2'. rewrite Rows2 in Hr2'. apply in_map_iff in Hr2' as [r1 [E2 Hr1]].
  pose proof Hr1 as Hr1'. rewrite Rows1 in Hr1'. apply in_map_iff in Hr1' as [r0 [E1 Hr0]].
  pose proof Hr0 as Hr0'. rewrite Rows0 in Hr0'. apply in_map_iff in Hr0' as [r [E0 Hr]].
  assert (Hget : forall c, get t3 c (assign_if_row b3 "ProfitMargin"
                     (fun r => profit_margin (get t2 "Sales" r) (get t2 "Profit" r)) t2 r2)
                 = if b3 && String.eqb c "ProfitMargin"
                   then profit_margin (get t2 "Sales" r2) (get t2 "Profit" r2)
                   else if b2 && String.eqb c "ShipDelayDays"
                   then sub_days (get t1 "Ship Date" r1) (get t1 "Order Date" r1)
                   else if b && String.eqb c "OrderMonth"
                   then dt_month_start (get t0 "Order Date" r0)
                   else if b && String.eqb c "OrderYear"
                   then dt_year (get df "Order Date" r)
                   else get df c r).
  { intros c. rewrite (G3 r2 c Hr2). destruct (b3 && _); [reflexivity|].
    rewrite <- E2, (G2 r1 c Hr1). destruct (b2 && _); [reflexivity|].
    rewrite <- E1, (G1 r0 c Hr0). destruct (b && String.eqb c "OrderMonth"); [reflexivity|].
    rewrite <- E0, (G0 r c Hr). reflexivity. }
  assert (H1 : forall c, get t1 c r1 =
                 if b && String.eqb c "OrderMonth"
                 then dt_month_start (get t0 "Order Date" r0)
                 else if b && String.eqb c "OrderYear"
                 then dt_year (get df "Order Date" r) else get df c r).
  { intros c. rewrite <- E1, (G1 r0 c Hr0).
    destruct (b && String.eqb c "OrderMonth"); [reflexivity|].
    rewrite <- E0, (G0 r c Hr). reflexivity. }
  assert (H0 : forall c, get t0 c r0 =
                 if b && String.eqb c "OrderYear"
                 then dt_year (get df "Order Date" r) else get df c r).
  { intros c. rewrite <- E0, (G0 r c Hr). reflexivity. }
  assert (Hb2 : b2 = issubset ["Order Date"; "Ship Date"] df).
  { unfold b2, issubset. cbn [forallb]. rewrite !C1, !C0. cbn.
    rewrite !andb_false_r, !orb_false_r. reflexivity. }
  rewrite !Hget. cbn [String.eqb Ascii.eqb Bool.eqb]. rewrite !andb_false_r.
  split; [exists r; auto|]. split.
  - intros Hb. fold b in Hb. rewrite Hb. cbn [andb].
    rewrite H0. cbn [String.eqb Ascii.eqb Bool.eqb]. rewrite andb_false_r. auto.
  - intros Hsub. rewrite Hb2, Hsub. cbn [andb].
    rewrite !H1. cbn [String.eqb Ascii.eqb Bool.eqb]. rewrite !andb_false_r. reflexivity.
Qed.

(** ** Calendar arithmetic *)

Ltac Zify.zify_post_hook ::= Z.to_euclidean_division_equations.

Lemma year_of_era_bounds (doe : Z) :
  0 <= doe < 146097 ->
  let yoe := (doe - doe / 1460 + doe / 36524 - doe / 146096) / 365 in
  let doy := doe - (365 * yoe + yoe / 4 - yoe / 100) in
  0 <= yoe <= 399 /\ 0 <= doy <= 365.
Proof. intros Hdoe. cbv zeta. lia. Qed.

(** The day count of the date of a day count is that day count; the month
    lies between 1 and 12 and the day between 1 and 31. *)
Lemma days_from_civil_from_days (z : Z) :
  let '(y, m, d) := Calendar.civil_from_days z in
  Calendar.days_from_civil y m d = z /\ 1 <= m <= 12 /\ 1 <= d <= 31.
Proof.
  unfold Calendar.civil_from_days, Calendar.days_from_civil. cbv zeta.
  set (z' := z + 719468). set (era := z' / 146097).
  set (doe := z' - era * 146097).
  assert (Hdoe : 0 <= doe < 146097) by (subst doe era; lia).
  assert (Hz : z = era * 146097 + doe - 719468) by (subst doe z'; lia).
  clearbody doe era. clear z'.
  pose proof (year_of_era_bounds doe Hdoe) as Hy. cbv zeta in Hy.
  set (yoe := (doe - doe / 1460 + doe / 36524 - doe / 146096) / 365) in *.
  set (doy := doe - (365 * yoe + yoe / 4 - yoe / 100)) in *.
  assert (Hdoe' : doe = yoe * 365 + yoe / 4 - yoe / 100 + doy) by (subst doy; lia).
  destruct Hy as [Hyoe Hdoy]. clearbody doy. clearbody yoe.
  set (mp := (5 * doy + 2) / 153).
  assert (Hmp : 0 <= mp <= 11) by (subst mp; lia).
  assert (Hd : 1 <= doy - (153 * mp + 2) / 5 + 1 <= 31) by (subst mp; lia).
  assert (Hdoy' : (153 * mp + 2) / 5 + (doy - (153 * mp + 2) / 5 + 1) - 1 = doy) by lia.
  clearbody mp.
  destruct (mp <? 10) eqn:E; [apply Z.ltb_lt in E|apply Z.ltb_ge in E].
  - destruct (mp + 3 <=? 2) eqn:E2; [apply Z.leb_le in E2; lia|].
    destruct (2 <? mp + 3) eqn:E3; [|apply Z.ltb_ge in E3; lia].
    replace (mp + 3 - 3) with mp by lia. rewrite Hdoy'.
    replace ((yoe + era * 400 + 0) / 400) with era by lia.
    replace (yoe + era * 400 + 0 - era * 400) with yoe by lia. lia.
  - destruct (mp - 9 <=? 2) eqn:E2; [|apply Z.leb_gt in E2; lia].
    destruct (2 <? mp - 9) eqn:E3; [apply Z.ltb_lt in E3; lia|].
    replace (mp - 9 + 9) with mp by lia. rewrite Hdoy'.
    replace ((yoe + era * 400 + 1 - 1) / 400) with era by lia.
    replace (yoe + era * 400 + 1 - 1 - era * 400) with yoe by lia. lia.
Qed.

(** The date of the day count of the first of a month is that first. *)
Lemma civil_from_days_first (y m : Z) :
  1 <= m <= 12 ->
  Calendar.civil_from_days (Calendar.days_from_civil y m 1) = (y, m, 1).
Proof.
  intros Hm. unfold Calendar.days_from_civil. cbv zeta.
  set (y' := if m <=? 2 then y - 1 else y).
  set (mp := if 2 <? m then m - 3 else m + 9).
  assert (Hmp : 0 <= mp <= 11 /\ m = (if mp <? 10 then mp + 3 else mp - 9)
                /\ y = y' + (if m <=? 2 then 1 else 0)).
  { subst mp y'. destruct (2 <? m) eqn:E; [apply Z.ltb_lt in E|apply Z.ltb_ge in E].
    - destruct (m <=? 2) eqn:E2; [apply Z.leb_le in E2; lia|].
      destruct (m - 3 <? 10) eqn:E3; [|apply Z.ltb_ge in E3]; lia.
    - destruct (m <=? 2) eqn:E2; [|apply Z.leb_gt in E2; lia].
      destruct (m + 9 <? 10) eqn:E3; [apply Z.ltb_lt in E3|]; lia. }
  destruct Hmp as [Hmp [Hm' Hy]]. clearbody mp y'.
  set (era := y' / 400). set (yoe := y' - era * 400).
  assert (Hyoe : 0 <= yoe <= 399) by (subst yoe era; lia).
  assert (Hy' : y' = yoe + era * 400) by (subst yoe; lia).
  clearbody yoe era.
  set (doy := (153 * mp + 2) / 5 + 1 - 1).
  assert (Hdoy : 0 <= doy <= 337 /\ (5 * doy + 2) / 153 = mp
                 /\ doy - (153 * mp + 2) / 5 + 1 = 1) by (subst doy; lia).
  destruct Hdoy as [Hdoy [Hmp' Hd]]. clearbody doy.
  set (doe := yoe * 365 + yoe / 4 - yoe / 100 + doy).
  assert (Hdoe : 0 <= doe < 146097
                 /\ (doe - doe / 1460 + doe / 36524 - doe / 146096) / 365 = yoe)
    by (subst doe; lia).
  destruct Hdoe as [Hdoe Hyoe'].
  unfold Calendar.civil_from_days. cbv zeta.
  replace (era * 146097 + doe - 719468 + 719468) with (doe + era * 146097) by lia.
  replace ((doe + era * 146097) / 146097) with era by lia.
  replace (doe + era * 146097 - era * 146097) with doe by lia.
  rewrite Hyoe'.
  replace (doe - (365 * yoe + yoe / 4 - yoe / 100)) with doy by (subst doe; lia).
  rewrite Hmp', Hd, <- Hm'. f_equal. f_equal. lia.
Qed.

Lemma days_from_civil_day (y m d : Z) :
  Calendar.days_from_civil y m d = Calendar.days_from_civil y m 1 + (d - 1).
Proof. unfold Calendar.days_from_civil. cbv zeta. lia. Qed.

Lemma days_of_midnight (n : Z) : Calendar.days_of (n * Calendar.ns_per_day) = n.
Proof. unfold Calendar.days_of, Calendar.ns_per_day. lia. Qed.

Lemma days_of_bounds (a : Z) :
  Calendar.days_of a * Calendar.ns_per_day <= a
  < (Calendar.days_of a + 1) * Calendar.ns_per_day.
Proof. unfold Calendar.days_of, Calendar.ns_per_day. lia. Qed.

(** The month bucket of a timestamp: midnight of the first day of the
    timestamp's month, at most 31 days before it. *)
Lemma month_start_spec (a : Z) :
  exists y m d,
    Calendar.civil_from_days (Calendar.days_of a) = (y, m, d)
    /\ Calendar.year a = y
    /\ Calendar.month_start a = Calendar.days_from_civil y m 1 * Calendar.ns_per_day
    /\ Calendar.civil_from_days (Calendar.days_of (Calendar.month_start a)) = (y, m, 1)
    /\ Calendar.month_start a <= a < Calendar.month_start a + 31 * Calendar.ns_per_day.
Proof.
  pose proof (days_from_civil_from_days (Calendar.days_of a)) as Hrt.
  unfold Calendar.year, Calendar.month_start.
  destruct (Calendar.civil_from_days (Calendar.days_of a)) as [[y m] d] eqn:Hc.
  destruct Hrt as [Hrt [Hm Hd]]. exists y, m, d. cbn [fst].
  split; [reflexivity|]. split; [reflexivity|]. split; [reflexivity|].
  split; [rewrite days_of_midnight; apply civil_from_days_first; exact Hm|].
  rewrite days_from_civil_day in Hrt. pose proof (days_of_bounds a) as Hb.
  unfold Calendar.ns_per_day in *. lia.
Qed.

(** X12.  In every row of the derived table of a cleaned table with Order
    Date, either Order Date, OrderYear and OrderMonth are all missing, or
    Order Date is a timestamp, OrderYear is its calendar year and OrderMonth
    is midnight of the first day of its calendar month: a timestamp of the
    same year and month, not after Order Date and less than 31 days before
    it. *)
Theorem order_date_features (df : DataFrame) (r' : row) :
  cleaned df = true ->
  has_column "Order Date" df = true ->
  In r' (rows (feature_engineering df)) ->
  let fe := feature_engineering df in
  (get fe "Order Date" r' = NaN /\ get fe "OrderYear" r' = NaN
   /\ get fe "OrderMonth" r' = NaN)
  \/ (exists a y m d b,
        get fe "Order Date" r' = Ts a
        /\ Calendar.civil_from_days (Calendar.days_of a) = (y, m, d)
        /\ get fe "OrderYear" r' = Num (inject_Z y)
        /\ get fe "OrderMonth" r' = Ts b
        /\ b = Calendar.days_from_civil y m 1 * Calendar.ns_per_day
        /\ Calendar.civil_from_days (Calendar.days_of b) = (y, m, 1)
        /\ b <= a < b + 31 * Calendar.ns_per_day).
Proof.
  intros Hclean Hhas Hr'. cbv zeta.
  assert (Hvalid : valid df = true)
    by (unfold cleaned in Hclean; apply andb_prop in Hclean as [Hv _]; exact Hv).
  destruct (feature_engineering_columns df r' Hvalid Hr') as [[r [Hr [Ho _]]] [Hdate _]].
  destruct (Hdate Hhas) as [Hy Hm]. rewrite Hy, Hm, Ho.
  destruct (cleaned_date_column df "Order Date" r Hclean eq_refl Hr) as [->|[a ->]].
  - left. auto.
  - right. destruct (month_start_spec a) as [y [m [d [Hc [Hyear [Hms [Hfirst Hle]]]]]]].
    exists a, y, m, d, (Calendar.month_start a). cbn [dt_year dt_month_start].
    rewrite Hyear. repeat split; auto; lia.
Qed.

Lemma order_date_features_witness :
  cleaned Scenario.clean = true
  /\ has_column "Order Date" Scenario.clean = true
  /\ get (feature_engineering Scenario.clean) "OrderYear"
         [Ts 1672876800000000000; Ts 1673308800000000000; Num 100; Num 20; Str "Tech";
          Num 2023; Ts 1672531200000000000; Num 5; Num 0.20] = Num 2023.
Proof.
  split; [reflexivity|]. split; [reflexivity|].
  destruct (order_date_features Scenario.clean
              [Ts 1672876800000000000; Ts 1673308800000000000; Num 100; Num 20;
               Str "Tech"; Num 2023; Ts 1672531200000000000; Num 5; Num 0.20]
              eq_refl eq_refl) as [[Hna _]|[a [y [m [d [b [_ [_ [Hy _]]]]]]]]].
  - vm_compute. left. reflexivity.
  - vm_compute in Hna. discriminate Hna.
  - vm_compute. reflexivity.
Defined.

(** X13.  In every row of the derived table of a cleaned table with Order
    Date and Ship Date, ShipDelayDays is missing when either date is, and
    otherwise it is the number of whole days from Order Date to Ship Date,
    rounded down: negative when the order shipped before its date, and the
    difference of the two day counts when both are midnights. *)
Theorem ship_delay_days (df : DataFrame) (r' : row) :
  cleaned df = true ->
  issubset ["Order Date"; "Ship Date"] df = true ->
  In r' (rows (feature_engineering df)) ->
  let fe := feature_engineering df in
  ((get fe "Order Date" r' = NaN \/ get fe "Ship Date" r' = NaN)
   /\ get fe "ShipDelayDays" r' = NaN)
  \/ (exists a b n,
        get fe "Order Date" r' = Ts a /\ get fe "Ship Date" r' = Ts b
        /\ get fe "ShipDelayDays" r' = Num (inject_Z n)
        /\ n * Calendar.ns_per_day <= b - a < (n + 1) * Calendar.ns_per_day
        /\ (b < a -> n < 0)
        /\ (forall da db, a = da * Calendar.ns_per_day -> b = db * Calendar.ns_per_day ->
              n = db - da)).
Proof.
  intros Hclean Hsub Hr'. cbv zeta.
  assert (Hvalid : valid df = true)
    by (unfold cleaned in Hclean; apply andb_prop in Hclean as [Hv _]; exact Hv).
  destruct (feature_engineering_columns df r' Hvalid Hr') as [[r [Hr [Ho Hs]]] [_ Hdelay]].
  rewrite (Hdelay Hsub), Ho, Hs.
  destruct (cleaned_date_column df "Order Date" r Hclean eq_refl Hr) as [->|[a ->]].
  { left. split; [left; reflexivity|]. destruct (get df "Ship Date" r); reflexivity. }
  destruct (cleaned_date_column df "Ship Date" r Hclean eq_refl Hr) as [->|[b ->]].
  { left. split; [right; reflexivity|reflexivity]. }
  right. exists a, b, (Calendar.timedelta_days (b - a)). cbn [sub_days].
  unfold Calendar.timedelta_days, Calendar.ns_per_day.
  repeat split; lia.
Qed.

Lemma ship_delay_days_witness :
  cleaned Scenario.clean = true
  /\ get (feature_engineering Scenario.clean) "ShipDelayDays"
         [Ts 1672876800000000000; Ts 1673308800000000000; Num 100; Num 20; Str "Tech";
          Num 2023; Ts 1672531200000000000; Num 5; Num 0.20] = Num 5.
Proof.
  split; [reflexivity|].
  destruct (ship_delay_days Scenario.clean
              [Ts 1672876800000000000; Ts 1673308800000000000; Num 100; Num 20;
               Str "Tech"; Num 2023; Ts 1672531200000000000; Num 5; Num 0.20]
              eq_refl eq_refl) as [[_ Hna]|[a [b [n [_ [_ [Hd _]]]]]]].
  - vm_compute. left. reflexivity.
  - vm_compute in Hna. discriminate Hna.
  - vm_compute. reflexivity.
Defined.

(** ** The table the pipeline works on *)

Section Pipeline.
Context `{Pandas}.

(** X14.  The table [main] hands to the KPI computer, the aggregator and the
    writer, the derived table of the cleaned table, is cleaned and has
    stripped labels for every well-formed raw table; it has at most as many
    rows as the raw table, and none of its rows lacks a value in Order Date,
    Sales or Profit, whichever of these columns it has. *)
Theorem pipeline_table (raw : DataFrame) :
  valid raw = true ->
  let df := feature_engineering (basic_clean raw) in
  cleaned df = true
  /\ stripped df = true
  /\ (nrows df <= nrows raw)%nat
  /\ (forall r c, In r (rows df) -> In c essential_labels ->
        has_column c df = true -> isna (get df c r) = false).
Proof.
  intros Hvalid. cbv zeta.
  destruct (basic_clean_makes_cleaned raw Hvalid) as [Hclean Hstr].
  destruct (feature_engineering_stays_cleaned _ Hclean Hstr) as [Hclean' [Hstr' Hrows]].
  destruct (basic_clean_rows_kept raw Hvalid) as [Hle [_ Hess]].
  split; [exact Hclean'|]. split; [exact Hstr'|]. split; [rewrite Hrows; exact Hle|].
  assert (Hv : valid (basic_clean raw) = true)
    by (unfold cleaned in Hclean; apply andb_prop in Hclean as [Hv _]; exact Hv).
  destruct (feature_engineering_frame _ Hv) as [[g [Hg Hget]] Hcols].
  intros r c Hr Hc Hhas. rewrite Hg in Hr. apply in_map_iff in Hr as [r0 [<- Hr0]].
  assert (Hnot : ~ In c derived_labels).
  { cbn in Hc. cbn. intros Hin.
    repeat (destruct Hc as [<-|Hc]; [repeat (destruct Hin as [Hin|Hin]; [discriminate|]);
                                     contradiction|]).
    contradiction. }
  rewrite (Hget r0 c Hr0 Hnot). apply Hess; [exact Hr0|exact Hc|].
  rewrite Hcols in Hhas. cbn in Hc.
  repeat (destruct Hc as [<-|Hc];
          [cbn in Hhas; rewrite !andb_false_r, !orb_false_r in Hhas; exact Hhas|]).
  contradiction.
Qed.

End Pipeline.

Lemma pipeline_table_witness :
  valid Scenario.messy = true
  /\ cleaned (feature_engineering (@basic_clean Scenario.iso_pandas Scenario.messy)) = true.
Proof.
  split; [reflexivity|].
  destruct (@pipeline_table Scenario.iso_pandas Scenario.messy eq_refl) as [Hclean _].
  exact Hclean.
Defined.

(** ** The files written *)

Lemma items_aggregates (df : DataFrame) :
  items (aggregates df).1.1 =
    flat_map (fun d => if issubset [snd d; "Sales"; "Profit"] df
                       then [(fst d, aggr df (snd d))] else [])
             group_dimensions.
Proof.
  unfold items, group_dimensions. cbn [flat_map fst snd].
  rewrite !group_tables_lookup. unfold group_dimensions.
  cbn [List.find fst snd String.eqb Ascii.eqb Bool.eqb].
  destruct (issubset ["Category"; "Sales"; "Profit"] df),
    (issubset ["Sub-Category"; "Sales"; "Profit"] df),
    (issubset ["Region"; "Sales"; "Profit"] df),
    (issubset ["State"; "Sales"; "Profit"] df); reflexivity.
Qed.

Lemma filter_notna_nil (l : list cell) :
  existsb (fun c => negb (isna c)) l = false ->
  List.filter (fun k => negb (isna k)) l = [].
Proof.
  induction l as [|c l IH]; cbn; [reflexivity|].
  destruct (negb (isna c)); cbn; [discriminate|exact IH].
Qed.

Lemma existsb_map_row (p : cell -> bool) (f : list cell -> cell) (l : list (list cell)) :
  existsb p (map f l) = existsb (fun r => p (f r)) l.
Proof. induction l as [|r l IH]; cbn; [reflexivity|]. rewrite IH. reflexivity. Qed.

(** There is a group exactly when some row has a value to group by. *)
Lemma group_keys_empty (df : DataFrame) (c : string) :
  Nat.eqb (length (group_keys df c)) 0 = negb (has_value df c).
Proof.
  unfold has_value. destruct (existsb _ (rows df)) eqn:Hex; cbn [negb].
  - apply existsb_exists in Hex as [r [Hr Hna]]. apply negb_true_iff in Hna.
    pose proof (group_keys_count df c r Hr) as Hcount. rewrite Hna in Hcount.
    unfold count_eqb in Hcount. destruct (group_keys df c); [discriminate|reflexivity].
  - unfold group_keys. rewrite filter_notna_nil; [reflexivity|].
    unfold column_values. rewrite existsb_map_row. exact Hex.
Qed.

Lemma present_monthly (df : DataFrame) :
  present (Some (monthly_sales_table df)) = has_value df "OrderMonth".
Proof.
  unfold present, empty. cbn [header length Nat.eqb]. rewrite orb_false_r.
  rewrite <- (Permutation_length (monthly_rows_perm df)), length_map.
  rewrite group_keys_empty. apply negb_involutive.
Qed.

Lemma present_top_products (df : DataFrame) :
  present (Some (top_products_table df)) = has_value df "Product Name".
Proof.
  unfold present, empty, top_products_table, reset_index, head.
  cbn [header rows length Nat.eqb]. rewrite orb_false_r.
  rewrite length_map, length_firstn.
  unfold sort_values_sales_desc. rewrite length_sort_by, length_map.
  pose proof (group_keys_empty df "Product Name") as Hk.
  destruct (length (group_keys df "Product Name")),
    (has_value df "Product Name"); cbn in *; congruence.
Qed.

Lemma main_save_artifacts_files (df dn dc : DataFrame) :
  map fst (main_save_artifacts df dn dc) =
    written_files (issubset ["Category"; "Sales"; "Profit"] df)
                  (issubset ["Sub-Category"; "Sales"; "Profit"] df)
                  (issubset ["Region"; "Sales"; "Profit"] df)
                  (issubset ["State"; "Sales"; "Profit"] df)
                  (issubset ["OrderMonth"; "Sales"] df && has_value df "OrderMonth")
                  (issubset ["Product Name"; "Sales"; "Profit"] df
                   && has_value df "Product Name").
Proof.
  unfold main_save_artifacts.
  rewrite (surjective_pairing (aggregates df)).
  rewrite (surjective_pairing (fst (aggregates df))).
  unfold save_artifacts. rewrite items_aggregates.
  assert (Hm : match (aggregates df).1.2 with
               | Some t => if negb (empty t) then [("monthly_sales.csv", CsvTable t false)]
                           else []
               | None => []
               end
               = if issubset ["OrderMonth"; "Sales"] df && has_value df "OrderMonth"
                 then [("monthly_sales.csv", CsvTable (monthly_sales_table df) false)]
                 else []).
  { unfold aggregates. cbn [fst snd].
    destruct (issubset ["OrderMonth"; "Sales"] df); [|reflexivity]. cbn [andb].
    rewrite <- present_monthly. reflexivity. }
  assert (Ht : match (aggregates df).2 with
               | Some t => if negb (empty t) then [("top10_products.csv", CsvTable t false)]
                           else []
               | None => []
               end
               = if issubset ["Product Name"; "Sales"; "Profit"] df
                    && has_value df "Product Name"
                 then [("top10_products.csv", CsvTable (top_products_table df) false)]
                 else []).
  { unfold aggregates. cbn [fst snd].
    destruct (issubset ["Product Name"; "Sales"; "Profit"] df); [|reflexivity]. cbn [andb].
    rewrite <- present_top_products. reflexivity. }
  rewrite Hm, Ht. unfold written_files, group_dimensions. cbn [flat_map fst snd].
  destruct (issubset ["Category"; "Sales"; "Profit"] df),
    (issubset ["Sub-Category"; "Sales"; "Profit"] df),
    (issubset ["Region"; "Sales"; "Profit"] df),
    (issubset ["State"; "Sales"; "Profit"] df),
    (issubset ["OrderMonth"; "Sales"] df && has_value df "OrderMonth"),
    (issubset ["Product Name"; "Sales"; "Profit"] df && has_value df "Product Name");
    reflexivity.
Qed.

Lemma has_value_iff (df : DataFrame) (c : string) :
  has_value df c = true <-> exists r, In r (rows df) /\ isna (get df c r) = false.
Proof.
  unfold has_value. rewrite existsb_exists.
  split; intros [r [Hr Hna]]; exists r; (split; [exact Hr|]).
  - apply negb_true_iff. exact Hna.
  - apply negb_true_iff. exact Hna.
Qed.

Lemma written_files_facts (a b c d m t : bool) :
  let files := written_files a b c d m t in
  distinct files = true
  /\ (forall f, In f files -> f = "README.md" \/ Text.contains f readme = true)
  /\ (In "group_by_category.csv" files <-> a = true)
  /\ (In "group_by_subcategory.csv" files <-> b = true)
  /\ (In "group_by_region.csv" files <-> c = true)
  /\ (In "group_by_state.csv" files <-> d = true)
  /\ (In "monthly_sales.csv" files <-> m = true)
  /\ (In "top10_products.csv" files <-> t = true)
  /\ hd_error files = Some "superstore_clean.csv"
  /\ List.last files "" = "README.md"
  /\ (forall f, In f ["superstore_clean.csv"; "desc_numeric.csv"; "desc_categorical.csv";
                       "kpi_summary.json"; "data_dictionary.csv"; "README.md"] ->
                In f files).
Proof.
  cbv zeta.
  assert (Hreadme : forallb (fun f => String.eqb f "README.md" || Text.contains f readme)
                      (written_files true true true true true true) = true)
    by (vm_compute; reflexivity).
  rewrite forallb_forall in Hreadme.
  split; [destruct a, b, c, d, m, t; vm_compute; reflexivity|].
  split.
  { intros f Hf.
    assert (Hall : In f (written_files true true true true true true)).
    { destruct a, b, c, d, m, t; cbn in Hf |- *; tauto. }
    specialize (Hreadme f Hall). apply orb_prop in Hreadme as [Heq|Hc]; [|auto].
    left. apply String.eqb_eq. exact Heq. }
  repeat split; try (destruct a, b, c, d, m, t; cbn; intuition (discriminate || auto); fail).
  all: intros f Hf; destruct a, b, c, d, m, t; cbn in Hf |- *; tauto.
Qed.

(** X16.  The files [save_artifacts] writes when it is called as [main]
    calls it, with the KPIs and the aggregates of the table it is given: no
    name twice, superstore_clean.csv first and README.md last, the six core
    files always.  The CSV of a group table is
    written exactly when the table has the grouping column, Sales and
    Profit, even if it has no row, whereas monthly_sales.csv and
    top10_products.csv are written only when, besides the columns, some row
    has a value for OrderMonth or Product Name.  Every file written but the
    README is named in the README. *)
Theorem main_writes (df dn dc : DataFrame) :
  cleaned df = true ->
  let files := map fst (main_save_artifacts df dn dc) in
  distinct files = true
  /\ hd_error files = Some "superstore_clean.csv"
  /\ List.last files "" = "README.md"
  /\ (forall f, In f ["superstore_clean.csv"; "desc_numeric.csv"; "desc_categorical.csv";
                       "kpi_summary.json"; "data_dictionary.csv"; "README.md"] ->
                In f files)
  /\ (forall name dim, In (name, dim) group_dimensions ->
        (In ("group_" ++ name ++ ".csv") files
         <-> issubset [dim; "Sales"; "Profit"] df = true))
  /\ (In "monthly_sales.csv" files <->
        issubset ["OrderMonth"; "Sales"] df = true
        /\ exists r, In r (rows df) /\ isna (get df "OrderMonth" r) = false)
  /\ (In "top10_products.csv" files <->
        issubset ["Product Name"; "Sales"; "Profit"] df = true
        /\ exists r, In r (rows df) /\ isna (get df "Product Name" r) = false)
  /\ (forall f, In f files -> f = "README.md" \/ Text.contains f readme = true).
Proof.
  intros _. cbv zeta. rewrite main_save_artifacts_files.
  destruct (written_files_facts
              (issubset ["Category"; "Sales"; "Profit"] df)
              (issubset ["Sub-Category"; "Sales"; "Profit"] df)
              (issubset ["Region"; "Sales"; "Profit"] df)
              (issubset ["State"; "Sales"; "Profit"] df)
              (issubset ["OrderMonth"; "Sales"] df && has_value df "OrderMonth")
              (issubset ["Product Name"; "Sales"; "Profit"] df
               && has_value df "Product Name"))
    as [Hd [Hreadme [Ha [Hb [Hc [Hst [Hm [Ht [Hhd [Hlast Hcore]]]]]]]]]].
  split; [exact Hd|]. split; [exact Hhd|]. split; [exact Hlast|].
  split; [exact Hcore|]. split; [|split; [|split]].
  - intros name dim Hin. unfold group_dimensions in Hin. cbn in Hin.
    destruct Hin as [[= <- <-]|[[= <- <-]|[[= <- <-]|[[= <- <-]|[]]]]]; assumption.
  - rewrite Hm, andb_true_iff, has_value_iff. reflexivity.
  - rewrite Ht, andb_true_iff, has_value_iff. reflexivity.
  - exact Hreadme.
Qed.

Lemma main_writes_witness :
  cleaned Scenario.no_orders = true
  /\ In "group_by_category.csv"
        (map fst (main_save_artifacts Scenario.no_orders Scenario.raw Scenario.raw))
  /\ ~ In "top10_products.csv"
        (map fst (main_save_artifacts Scenario.no_orders Scenario.raw Scenario.raw)).
Proof.
  split; [reflexivity|].
  destruct (main_writes Scenario.no_orders Scenario.raw Scenario.raw eq_refl)
    as [_ [_ [_ [_ [Hgroup [_ [Htop _]]]]]]].
  split.
  - apply (Hgroup "by_category" "Category"); [left; reflexivity|reflexivity].
  - intros Hin. apply Htop in Hin as [_ [r [Hr _]]]. exact Hr.
Defined.
